(** * zdxsv lobby store: the SQLite-backed [db] package

    A shallow embedding of [package db] (the SQLite store with its ranking
    cache and its schema migration) together with the properties of the
    store's specification that were checked against it.

    Layout:
    - [Sql]: the fragment of the SQLite engine the package drives through
      its SQL text: tables with named columns, defaults and a primary key,
      and the statements the package issues;
    - the Go side: errors, the row structs and their scanning, the
      [SQLiteDB] value (database handle, ranking cache) and one definition
      per method, in the order of the source file;
    - the properties. *)

From Stdlib Require Import ZArith String Ascii List Lia DecimalString.
From Stdlib Require DecimalPos DecimalZ.
From stdpp Require Import base option list gmap strings sorting.

Local Open Scope string_scope.
Local Open Scope list_scope.
Local Open Scope Z_scope.

(** ** Go errors *)

(** The error values the package can hand to its callers: [sql.ErrNoRows],
    the errors SQLite raises for a statement, a storage failure of the
    call itself (busy database, disk), a failed scan into a struct, and
    [errors.Wrap]. *)
Inductive error : Type :=
  | ErrNoRows
  | ErrConstraint (table : string)
  | ErrNoSuchTable (table : string)
  | ErrNoSuchColumn (table column : string)
  | ErrAlreadyExists (name : string)
  | ErrColumnCount
  | ErrScan (column : string)
  | ErrStorage
  | ErrWrap (cause : error) (message : string).

(** A result that carries either a value or an error. *)
Inductive res (A : Type) : Type :=
  | Ok (a : A)
  | Err (e : error).
Arguments Ok {A} a.
Arguments Err {A} e.

#[global] Instance res_ret : MRet res := λ A a, Ok a.
#[global] Instance res_bind : MBind res := λ A B f r,
  match r with Ok a => f a | Err e => Err e end.
#[global] Instance res_fmap : FMap res := λ A B f r,
  match r with Ok a => Ok (f a) | Err e => Err e end.

(** [for x in xs { y, err := f(x); if err != nil { return err } ... }] *)
Fixpoint res_mapM {A B} (f : A → res B) (xs : list A) : res (list B) :=
  match xs with
  | [] => Ok []
  | x :: xs' => y ← f x; ys ← res_mapM f xs'; Ok (y :: ys)
  end.

(** ** The SQLite fragment *)

Module Sql.

(** A stored value. Timestamps are kept apart from text: go-sqlite3 writes a
    [time.Time] as text and reads a [timestamp] column back as [time.Time];
    [VTime t] stands for that text. SQLite compares two of them as text,
    byte by byte, and the number [t] gives the place of the text in that
    order; among timestamps written with the same offset from UTC it is
    the order of the instants. *)
Inductive value : Type :=
  | VNull
  | VInt (z : Z)
  | VText (s : string)
  | VTime (t : Z).

#[global] Instance value_eq_dec : EqDecision value.
Proof. solve_decision. Defined.

(** The declared type of a column: the three the schema uses. *)
Inductive decltype : Type := TText | TInteger | TTimestamp.

#[global] Instance decltype_eq_dec : EqDecision decltype.
Proof. solve_decision. Defined.

Record column : Type := Column {
  col_name : string;
  col_type : decltype;
  col_default : value;
}.

#[global] Instance column_eq_dec : EqDecision column.
Proof. solve_decision. Defined.


(** A table: its columns in declaration order, the columns of its
    [PRIMARY KEY] and its rows in rowid order, each row positional. *)
Record table : Type := Table {
  tbl_columns : list column;
  tbl_pkey : list string;
  tbl_rows : list (list value);
}.

(** A database file: tables by name, and indexes by name with the table
    and column they are on. *)
Record database : Type := Database {
  db_tables : gmap string table;
  db_indexes : gmap string (string * string);
}.

Definition empty : database := Database ∅ ∅.

Definition column_names (cols : list column) : list string :=
  map col_name cols.

(** SQLite compares the names of columns without regard to the case of
    the letters A to Z. *)
Definition lower (a : ascii) : ascii :=
  match a with
  | Ascii b0 b1 b2 b3 b4 false true false =>
      (* 64 + n with n the number of the five low bits: a letter when
         1 <= n <= 26, and then the small letter is 32 further *)
      if (b0 || b1 || b2 || b3 || b4) && negb (b4 && b3 && (b2 || b1 && b0))
      then Ascii b0 b1 b2 b3 b4 true true false
      else a
  | _ => a
  end.

Fixpoint fold_case (s : string) : string :=
  match s with
  | EmptyString => EmptyString
  | String a rest => String (lower a) (fold_case rest)
  end.

Definition same_name (a b : string) : bool :=
  String.eqb (fold_case a) (fold_case b).

(** Position of a column name in a column list. *)
Fixpoint index_of (c : string) (names : list string) : option nat :=
  match names with
  | [] => None
  | n :: rest =>
      if same_name c n then Some 0%nat else S <$> index_of c rest
  end.

(** The value a row holds in column [c]. *)
Definition row_get (names : list string) (row : list value) (c : string)
  : option value :=
  i ← index_of c names; row !! i.

(** *** Comparison of values *)

(** [a = b]: never true when either side is NULL. *)
Definition sql_eq (a b : value) : bool :=
  match a, b with
  | VInt x, VInt y => Z.eqb x y
  | VText x, VText y => String.eqb x y
  | VTime x, VTime y => Z.eqb x y
  | _, _ => false
  end.

Definition is_null (a : value) : bool :=
  match a with VNull => true | _ => false end.

(** [a <> b]: unknown (so not selected) when either side is NULL. *)
Definition sql_ne (a b : value) : bool :=
  negb (is_null a) && negb (is_null b) && negb (sql_eq a b).

(** The sort order of values: NULL first, then numbers, then text, each
    class ordered within itself. *)
Definition class_of (a : value) : Z :=
  match a with VNull => 0 | VInt _ => 1 | VText _ => 2 | VTime _ => 3 end.

Definition value_lt (a b : value) : bool :=
  match a, b with
  | VInt x, VInt y => Z.ltb x y
  | VText x, VText y => String.ltb x y
  | VTime x, VTime y => Z.ltb x y
  | _, _ => Z.ltb (class_of a) (class_of b)
  end.

(** [a > b] in a WHERE clause. *)
Definition sql_gt (a b : value) : bool :=
  negb (is_null a) && negb (is_null b) && value_lt b a.

(** *** WHERE clauses: a conjunction of comparisons of a column with a
    bound value or literal *)

Inductive cond : Type :=
  | CEq (c : string) (v : value)
  | CNe (c : string) (v : value)
  | CGt (c : string) (v : value).

Definition cond_column (k : cond) : string :=
  match k with CEq c _ | CNe c _ | CGt c _ => c end.

Definition cond_holds (names : list string) (row : list value) (k : cond)
  : bool :=
  match k with
  | CEq c v => from_option (λ x, sql_eq x v) false (row_get names row c)
  | CNe c v => from_option (λ x, sql_ne x v) false (row_get names row c)
  | CGt c v => from_option (λ x, sql_gt x v) false (row_get names row c)
  end.

Definition where_holds (names : list string) (w : list cond)
    (row : list value) : bool :=
  forallb (cond_holds names row) w.

(** The first name of [cs] that is not a column of the table, if any. *)
Definition missing_column (names cs : list string) : option string :=
  List.find (λ c, negb (existsb (same_name c) names)) cs.

(** *** Rows under a primary key *)

(** Two rows collide when they agree, with non-NULL values, on every key
    column. A table without a key has no such constraint. *)
Definition same_key (names pkey : list string) (r1 r2 : list value) : bool :=
  match pkey with
  | [] => false
  | _ =>
      forallb (λ k,
        match row_get names r1 k, row_get names r2 k with
        | Some a, Some b => sql_eq a b
        | _, _ => false
        end) pkey
  end.

Definition key_taken (names pkey : list string) (rows : list (list value))
    (r : list value) : bool :=
  existsb (same_key names pkey r) rows.

(** The row an INSERT naming the columns [cs] builds from the values [vs]:
    every column of the table takes the value given for it, or else its
    default. *)
Definition build_row (cols : list column) (cs : list string)
    (vs : list value) : list value :=
  map (λ c, default (col_default c) (row_get cs vs (col_name c))) cols.

(** Appending rows one at a time, as an INSERT does: a row whose key is
    taken fails the statement. *)
Fixpoint append_rows (tname : string) (names pkey : list string)
    (rows new : list (list value)) : res (list (list value)) :=
  match new with
  | [] => Ok rows
  | r :: rest =>
      if key_taken names pkey rows r then Err (ErrConstraint tname)
      else append_rows tname names pkey (rows ++ [r]) rest
  end.

(** *** Statements *)

Definition lookup_table (tname : string) (db : database) : res table :=
  match db_tables db !! tname with
  | Some t => Ok t
  | None => Err (ErrNoSuchTable tname)
  end.

(** [CREATE TABLE IF NOT EXISTS tname (...)] *)
Definition create_table_if_not_exists (tname : string)
    (cols : list column) (pkey : list string) (db : database)
  : res database :=
  match db_tables db !! tname with
  | Some _ => Ok db
  | None =>
      match db_indexes db !! tname with
      | Some _ => Err (ErrAlreadyExists tname)
      | None =>
          Ok (Database (<[tname := Table cols pkey []]> (db_tables db))
                       (db_indexes db))
      end
  end.

(** [CREATE INDEX IF NOT EXISTS iname ON tname(c)]: the table is located
    first, then the name is looked up, and only a new index has its column
    resolved. *)
Definition create_index_if_not_exists (iname tname c : string)
    (db : database) : res database :=
  t ← lookup_table tname db;
  match db_tables db !! iname with
  | Some _ => Err (ErrAlreadyExists iname)
  | None =>
      match db_indexes db !! iname with
      | Some _ => Ok db
      | None =>
          if existsb (same_name c) (column_names (tbl_columns t))
          then Ok (Database (db_tables db)
                            (<[iname := (tname, c)]> (db_indexes db)))
          else Err (ErrNoSuchColumn tname c)
      end
  end.

(** [ALTER TABLE old RENAME TO new]: the indexes of the table follow it. *)
Definition rename_table (old new : string) (db : database) : res database :=
  t ← lookup_table old db;
  match db_tables db !! new, db_indexes db !! new with
  | None, None =>
      Ok (Database
            (<[new := t]> (delete old (db_tables db)))
            ((λ ix : string * string,
                if String.eqb ix.1 old then (new, ix.2) else ix)
               <$> db_indexes db))
  | _, _ => Err (ErrAlreadyExists new)
  end.

(** [DROP TABLE tname]: its indexes go with it. *)
Definition drop_table (tname : string) (db : database) : res database :=
  t ← lookup_table tname db;
  Ok (Database
        (delete tname (db_tables db))
        (filter (λ kv : string * (string * string), kv.2.1 ≠ tname)
                (db_indexes db))).

(** [SELECT * FROM tname LIMIT 1] followed by [rows.Columns()]. *)
Definition columns_of (tname : string) (db : database) : res (list string) :=
  t ← lookup_table tname db;
  Ok (column_names (tbl_columns t)).

(** [INSERT INTO dst(cs) SELECT * FROM src]: the values of the rows of
    [src] go, in the order of its columns, to the columns [cs] of [dst];
    see [fits] for the values that a column stores as they are. *)
Definition insert_select (dst : string) (cs : list string) (src : string)
    (db : database) : res database :=
  t ← lookup_table dst db;
  let names := column_names (tbl_columns t) in
  match missing_column names cs with
  | Some c => Err (ErrNoSuchColumn dst c)
  | None =>
      s ← lookup_table src db;
      if negb (Nat.eqb (length (tbl_columns s)) (length cs)) then Err ErrColumnCount
      else
        rows ← append_rows dst names (tbl_pkey t) (tbl_rows t)
                 (map (build_row (tbl_columns t) cs) (tbl_rows s));
        Ok (Database
              (<[dst := Table (tbl_columns t) (tbl_pkey t) rows]>
                 (db_tables db))
              (db_indexes db))
  end.

(** [INSERT INTO tname (cs) VALUES (vs)] *)
Definition insert_values (tname : string) (cs : list string)
    (vs : list value) (db : database) : res database :=
  t ← lookup_table tname db;
  let names := column_names (tbl_columns t) in
  match missing_column names cs with
  | Some c => Err (ErrNoSuchColumn tname c)
  | None =>
      rows ← append_rows tname names (tbl_pkey t) (tbl_rows t)
               [build_row (tbl_columns t) cs vs];
      Ok (Database
            (<[tname := Table (tbl_columns t) (tbl_pkey t) rows]>
               (db_tables db))
            (db_indexes db))
  end.

(** One row after [SET c1 = v1, ..., cn = vn]. *)
Definition set_columns (names : list string) (sets : list (string * value))
    (row : list value) : list value :=
  foldl (λ r (cv : string * value),
           match index_of cv.1 names with
           | Some i => <[i := cv.2]> r
           | None => r
           end) row sets.

(** [UPDATE tname SET sets WHERE w]. No statement of the package assigns a
    key column, so the key is not checked again. *)
Definition update (tname : string) (sets : list (string * value))
    (w : list cond) (db : database) : res database :=
  t ← lookup_table tname db;
  let names := column_names (tbl_columns t) in
  match missing_column names (map fst sets ++ map cond_column w) with
  | Some c => Err (ErrNoSuchColumn tname c)
  | None =>
      Ok (Database
            (<[tname :=
                 Table (tbl_columns t) (tbl_pkey t)
                   (map (λ r, if where_holds names w r
                              then set_columns names sets r else r)
                        (tbl_rows t))]> (db_tables db))
            (db_indexes db))
  end.

(** [SELECT * FROM tname WHERE w]: the column names and the selected rows. *)
Definition select_all (tname : string) (w : list cond) (db : database)
  : res (list string * list (list value)) :=
  t ← lookup_table tname db;
  let names := column_names (tbl_columns t) in
  match missing_column names (map cond_column w) with
  | Some c => Err (ErrNoSuchColumn tname c)
  | None => Ok (names, List.filter (where_holds names w) (tbl_rows t))
  end.

(** The order of an index on the column [c]: ascending in [c], NULL
    first. *)
Definition value_le (a b : value) : bool := negb (value_lt b a).

Definition by_column (names : list string) (c : string)
  : relation (list value) :=
  λ r1 r2, value_le (default VNull (row_get names r1 c))
                    (default VNull (row_get names r2 c)) = true.

#[global] Instance by_column_dec names c : RelDecision (by_column names c).
Proof. intros a b. unfold by_column. apply _. Defined.

(** [SELECT * FROM tname WHERE w] answered through an index of which the
    clause fixes the leading columns and leaves [c], the next one, open:
    the selected rows come in ascending order of [c]. *)
Definition select_all_by (tname : string) (w : list cond) (c : string)
    (db : database) : res (list string * list (list value)) :=
  result ← select_all tname w db;
  Ok (result.1, merge_sort (by_column result.1 c) result.2).

(** The number a value counts as in an arithmetic aggregate; NULL and
    text that is no number add nothing. *)
Definition as_number (v : value) : Z :=
  match v with VInt z => z | _ => 0 end.

(** A [double] holds every integer of up to 53 bits. An integer beyond
    that is rounded to the nearest one with 53 significant bits, and to the
    one with an even last bit when two are equally near. (Finite doubles
    only: the sums of 64-bit integers stay far below the largest.) *)
Definition round_double (z : Z) : Z :=
  let a := Z.abs z in
  if Z.leb a (2 ^ 53) then z
  else
    let unit := 2 ^ (Z.log2 a - 52) in
    let q := a / unit in
    let r := a mod unit in
    let q' := if Z.ltb (2 * r) unit then q
              else if Z.ltb unit (2 * r) then q + 1
              else if Z.even q then q
              else q + 1 in
    Z.sgn z * (q' * unit).

(** [TOTAL(c)] over a set of rows: 0.0 over no rows at all (where [SUM]
    would give NULL), and else the sum that a [double] accumulator ends
    with after it took the rows one by one: each number is converted to a
    [double] and added, and each addition is rounded. The result is a
    [double] that holds an integer, given here as that integer. The model
    takes the rows in the order of the table; the order does not matter as
    long as nothing is rounded. *)
Definition total (names : list string) (c : string)
    (rows : list (list value)) : Z :=
  foldl (λ acc r,
           round_double
             (acc + round_double
                      (from_option as_number 0 (row_get names r c))))
    0 rows.

(** [SELECT TOTAL(c1), ..., TOTAL(cn) FROM tname WHERE w]: always one row. *)
Definition select_totals (tname : string) (cs : list string) (w : list cond)
    (db : database) : res (list Z) :=
  t ← lookup_table tname db;
  let names := column_names (tbl_columns t) in
  match missing_column names (cs ++ map cond_column w) with
  | Some c => Err (ErrNoSuchColumn tname c)
  | None =>
      let rows := List.filter (where_holds names w) (tbl_rows t) in
      Ok (map (λ c, total names c rows) cs)
  end.

(** [RANK() OVER (ORDER BY target DESC)] of a row among [rows]: one more
    than the number of rows that sort before it, that is, whose [target]
    is greater. Rows with equal [target] get the same rank. *)
Definition rank_of (names : list string) (target : string)
    (rows : list (list value)) (r : list value) : Z :=
  let key x := default VNull (row_get names x target) in
  1 + Z.of_nat (length (List.filter (λ x, value_lt (key r) (key x)) rows)).

(** [ORDER BY rank]: ascending in the rank column. *)
Definition by_rank (rank : list value → Z) : relation (list value) :=
  λ a b, rank a ≤ rank b.

#[global] Instance by_rank_dec rank : RelDecision (by_rank rank).
Proof. intros a b. unfold by_rank. apply _. Defined.

(** [SELECT RANK() OVER (ORDER BY target DESC) AS rank, cs FROM tname
     ORDER BY rank LIMIT n]. Rows of equal rank come out in an order SQL
    leaves open; the model keeps them in table order. *)
Definition select_ranked (tname target : string) (cs : list string)
    (n : nat) (db : database) : res (list string * list (list value)) :=
  t ← lookup_table tname db;
  let names := column_names (tbl_columns t) in
  match missing_column names (target :: cs) with
  | Some c => Err (ErrNoSuchColumn tname c)
  | None =>
      let rank := rank_of names target (tbl_rows t) in
      let ordered := merge_sort (by_rank rank) (tbl_rows t) in
      Ok ("rank" :: cs,
          map (λ r, VInt (rank r)
                    :: map (λ c, default VNull (row_get names r c)) cs)
              (take n ordered))
  end.

End Sql.

Import Sql.

(** ** The schema *)

(** The columns of the three tables, with the declared types and the
    defaults of the [schema] constant; a column declared without a default
    has NULL. *)
Definition account_columns : list column :=
  [ Column "login_key" TText VNull;
    Column "session_id" TText (VText "");
    Column "last_user_id" TText (VText "");
    Column "created_ip" TText (VText "");
    Column "created" TTimestamp VNull;
    Column "last_login" TTimestamp VNull;
    Column "system" TInteger (VInt 0) ].

Definition user_columns : list column :=
  [ Column "user_id" TText VNull;
    Column "login_key" TText VNull;
    Column "session_id" TText (VText "");
    Column "name" TText (VText "default");
    Column "team" TText (VText "");
    Column "battle_count" TInteger (VInt 0);
    Column "win_count" TInteger (VInt 0);
    Column "lose_count" TInteger (VInt 0);
    Column "kill_count" TInteger (VInt 0);
    Column "death_count" TInteger (VInt 0);
    Column "aeug_battle_count" TInteger (VInt 0);
    Column "aeug_win_count" TInteger (VInt 0);
    Column "aeug_lose_count" TInteger (VInt 0);
    Column "aeug_kill_count" TInteger (VInt 0);
    Column "aeug_death_count" TInteger (VInt 0);
    Column "titans_battle_count" TInteger (VInt 0);
    Column "titans_win_count" TInteger (VInt 0);
    Column "titans_lose_count" TInteger (VInt 0);
    Column "titans_kill_count" TInteger (VInt 0);
    Column "titans_death_count" TInteger (VInt 0);
    Column "daily_battle_count" TInteger (VInt 0);
    Column "daily_win_count" TInteger (VInt 0);
    Column "daily_lose_count" TInteger (VInt 0);
    Column "created" TTimestamp VNull;
    Column "system" TInteger (VInt 0) ].

Definition battle_record_columns : list column :=
  [ Column "battle_code" TText VNull;
    Column "user_id" TText VNull;
    Column "user_name" TText VNull;
    Column "pilot_name" TText VNull;
    Column "players" TInteger (VInt 0);
    Column "aggregate" TInteger (VInt 0);
    Column "pos" TInteger (VInt 0);
    Column "side" TInteger (VInt 0);
    Column "round" TInteger (VInt 0);
    Column "win" TInteger (VInt 0);
    Column "lose" TInteger (VInt 0);
    Column "kill" TInteger (VInt 0);
    Column "death" TInteger (VInt 0);
    Column "frame" TInteger (VInt 0);
    Column "result" TText (VText "");
    Column "created" TTimestamp VNull;
    Column "updated" TTimestamp VNull;
    Column "system" TInteger (VInt 0) ].

(** A script is a list of statements; each is a function on the database. *)
Definition statement : Type := database → res database.

(** [const schema]: three [CREATE TABLE IF NOT EXISTS]. *)
Definition schema : list statement :=
  [ create_table_if_not_exists "account" account_columns ["login_key"];
    create_table_if_not_exists "user" user_columns ["user_id"; "login_key"];
    create_table_if_not_exists "battle_record" battle_record_columns
      ["battle_code"; "user_id"] ].

(** [const indexes]: four [CREATE INDEX IF NOT EXISTS]. *)
Definition indexes : list statement :=
  [ create_index_if_not_exists "BATTLE_RECORD_USER_ID" "battle_record" "user_id";
    create_index_if_not_exists "BATTLE_RECORD_PLAYERS" "battle_record" "players";
    create_index_if_not_exists "BATTLE_RECORD_CREATED" "battle_record" "created";
    create_index_if_not_exists "BATTLE_RECORD_AGGRIGATE" "battle_record"
      "aggregate" ].

(** ** The row structs *)

(** Modelled from the spec: the declarations of [Account], [User],
    [BattleRecord], [RankingRecord] and [BattleCountResult] are in a file of
    the package that is not among the sources. Each struct has one field per
    column of its table (section 3 and section 6 of the specification), a
    string for a text column, an integer for an integer column and an
    instant for a timestamp. *)
Record Account : Type := mkAccount {
  Account_LoginKey : string;
  Account_SessionID : string;
  Account_LastUserID : string;
  Account_CreatedIP : string;
  Account_Created : Z;
  Account_LastLogin : Z;
  Account_System : Z;
}.

(** Modelled from the spec: see [Account]. The fifteen battle counters are
    kept as one record per faction. *)
Record Counters : Type := mkCounters {
  BattleCount : Z;
  WinCount : Z;
  LoseCount : Z;
  KillCount : Z;
  DeathCount : Z;
}.

(** Modelled from the spec: see [Account]. *)
Record User : Type := mkUser {
  User_UserID : string;
  User_LoginKey : string;
  User_SessionID : string;
  User_Name : string;
  User_Team : string;
  User_All : Counters;
  User_Aeug : Counters;
  User_Titans : Counters;
  User_DailyBattleCount : Z;
  User_DailyWinCount : Z;
  User_DailyLoseCount : Z;
  User_Created : Z;
  User_System : Z;
}.

(** Modelled from the spec: see [Account]. *)
Record BattleRecord : Type := mkBattleRecord {
  BattleCode : string;
  UserID : string;
  UserName : string;
  PilotName : string;
  Players : Z;
  Aggregate : Z;
  Pos : Z;
  Side : Z;
  Round : Z;
  Win : Z;
  Lose : Z;
  Kill : Z;
  Death : Z;
  Frame : Z;
  Result : string;
  Created : Z;
  Updated : Z;
  System : Z;
}.

(** Modelled from the spec: see [Account]. *)
Record RankingRecord : Type := mkRankingRecord {
  Rank : Z;
  Ranking_UserID : string;
  Ranking_Name : string;
  Ranking_Team : string;
  Ranking_All : Counters;
  Ranking_Aeug : Counters;
  Ranking_Titans : Counters;
}.

(** Modelled from the spec: see [Account]; the five counts are integers. *)
Record BattleCountResult : Type := mkBattleCountResult {
  Battle : Z;
  Result_Win : Z;
  Result_Lose : Z;
  Result_Kill : Z;
  Result_Death : Z;
}.

(** *** Scanning a result row into a struct *)

(** sqlx pairs a result column with the field whose [db] tag is exactly
    the name of the column, letter case included. *)
Fixpoint field_index (c : string) (names : list string) : option nat :=
  match names with
  | [] => None
  | n :: rest =>
      if String.eqb c n then Some 0%nat else S <$> field_index c rest
  end.

Definition field_value (names : list string) (row : list value) (c : string)
  : option value :=
  i ← field_index c names; row !! i.

(** [StructScan] refuses a result column that no field of the struct is
    tagged with. *)
Definition known_columns (fields names : list string) : res unit :=
  match List.find (λ c, negb (existsb (String.eqb c) fields)) names with
  | Some c => Err (ErrScan c)
  | None => Ok ()
  end.

(** One field: it keeps its zero value when the result has no such column,
    takes the value when the column holds one of the field's type, and the
    scan fails otherwise (NULL, or a value of another class). *)
Definition scan_text (names : list string) (row : list value) (c : string)
  : res string :=
  match field_value names row c with
  | None => Ok ""
  | Some (VText s) => Ok s
  | Some _ => Err (ErrScan c)
  end.

Definition scan_int (names : list string) (row : list value) (c : string)
  : res Z :=
  match field_value names row c with
  | None => Ok 0
  | Some (VInt z) => Ok z
  | Some _ => Err (ErrScan c)
  end.

Definition scan_time (names : list string) (row : list value) (c : string)
  : res Z :=
  match field_value names row c with
  | None => Ok 0
  | Some (VTime t) => Ok t
  | Some _ => Err (ErrScan c)
  end.

Definition scan_account (names : list string) (row : list value)
  : res Account :=
  _ ← known_columns (column_names account_columns) names;
  login_key ← scan_text names row "login_key";
  session_id ← scan_text names row "session_id";
  last_user_id ← scan_text names row "last_user_id";
  created_ip ← scan_text names row "created_ip";
  created ← scan_time names row "created";
  last_login ← scan_time names row "last_login";
  system ← scan_int names row "system";
  Ok (mkAccount login_key session_id last_user_id created_ip created
        last_login system).

(** The five counters whose columns start with [prefix]. *)
Definition scan_counters (names : list string) (row : list value)
    (prefix : string) : res Counters :=
  battle ← scan_int names row (prefix +:+ "battle_count");
  win ← scan_int names row (prefix +:+ "win_count");
  lose ← scan_int names row (prefix +:+ "lose_count");
  kill ← scan_int names row (prefix +:+ "kill_count");
  death ← scan_int names row (prefix +:+ "death_count");
  Ok (mkCounters battle win lose kill death).

Definition scan_user (names : list string) (row : list value) : res User :=
  _ ← known_columns (column_names user_columns) names;
  user_id ← scan_text names row "user_id";
  login_key ← scan_text names row "login_key";
  session_id ← scan_text names row "session_id";
  name ← scan_text names row "name";
  team ← scan_text names row "team";
  all ← scan_counters names row "";
  aeug ← scan_counters names row "aeug_";
  titans ← scan_counters names row "titans_";
  daily_battle ← scan_int names row "daily_battle_count";
  daily_win ← scan_int names row "daily_win_count";
  daily_lose ← scan_int names row "daily_lose_count";
  created ← scan_time names row "created";
  system ← scan_int names row "system";
  Ok (mkUser user_id login_key session_id name team all aeug titans
        daily_battle daily_win daily_lose created system).

Definition scan_battle_record (names : list string) (row : list value)
  : res BattleRecord :=
  _ ← known_columns (column_names battle_record_columns) names;
  battle_code ← scan_text names row "battle_code";
  user_id ← scan_text names row "user_id";
  user_name ← scan_text names row "user_name";
  pilot_name ← scan_text names row "pilot_name";
  players ← scan_int names row "players";
  aggregate ← scan_int names row "aggregate";
  pos ← scan_int names row "pos";
  side ← scan_int names row "side";
  round ← scan_int names row "round";
  win ← scan_int names row "win";
  lose ← scan_int names row "lose";
  kill ← scan_int names row "kill";
  death ← scan_int names row "death";
  frame ← scan_int names row "frame";
  result ← scan_text names row "result";
  created ← scan_time names row "created";
  updated ← scan_time names row "updated";
  system ← scan_int names row "system";
  Ok (mkBattleRecord battle_code user_id user_name pilot_name players
        aggregate pos side round win lose kill death frame result created
        updated system).

(** The columns the two ranking queries select after [rank]. *)
Definition ranking_columns : list string :=
  [ "user_id"; "name"; "team";
    "battle_count"; "win_count"; "lose_count"; "kill_count"; "death_count";
    "aeug_battle_count"; "aeug_win_count"; "aeug_lose_count";
    "aeug_kill_count"; "aeug_death_count";
    "titans_battle_count"; "titans_win_count"; "titans_lose_count";
    "titans_kill_count"; "titans_death_count" ].

Definition scan_ranking_record (names : list string) (row : list value)
  : res RankingRecord :=
  _ ← known_columns ("rank" :: ranking_columns) names;
  rank ← scan_int names row "rank";
  user_id ← scan_text names row "user_id";
  name ← scan_text names row "name";
  team ← scan_text names row "team";
  all ← scan_counters names row "";
  aeug ← scan_counters names row "aeug_";
  titans ← scan_counters names row "titans_";
  Ok (mkRankingRecord rank user_id name team all aeug titans).

(** ** Library functions of Go the package calls *)

Definition byte_of (a : ascii) : Z := Z.of_N (N_of_ascii a).

Definition between (lo hi : Z) (a : ascii) : bool :=
  Z.leb lo (byte_of a) && Z.leb (byte_of a) hi.

(** [utf8.ValidString]: the string is a sequence of well-formed UTF-8
    encodings, without overlong forms, surrogates or code points above
    U+10FFFF. *)
Fixpoint utf8_ValidString (s : string) : bool :=
  match s with
  | EmptyString => true
  | String a s1 =>
      if Z.ltb (byte_of a) 0x80 then utf8_ValidString s1
      else if between 0xC2 0xDF a then
        match s1 with
        | String c1 s2 => between 0x80 0xBF c1 && utf8_ValidString s2
        | _ => false
        end
      else if between 0xE0 0xEF a then
        match s1 with
        | String c1 (String c2 s3) =>
            between (if Z.eqb (byte_of a) 0xE0 then 0xA0 else 0x80)
                    (if Z.eqb (byte_of a) 0xED then 0x9F else 0xBF) c1
            && between 0x80 0xBF c2 && utf8_ValidString s3
        | _ => false
        end
      else if between 0xF0 0xF4 a then
        match s1 with
        | String c1 (String c2 (String c3 s4)) =>
            between (if Z.eqb (byte_of a) 0xF0 then 0x90 else 0x80)
                    (if Z.eqb (byte_of a) 0xF4 then 0x8F else 0xBF) c1
            && between 0x80 0xBF c2 && between 0x80 0xBF c3
            && utf8_ValidString s4
        | _ => false
        end
      else false
  end.

(** The fullwidth question mark U+FF1F that replaces a name that is not
    valid UTF-8, as its three bytes. *)
Definition placeholder : string :=
  String (ascii_of_nat 239)
    (String (ascii_of_nat 188) (String (ascii_of_nat 159) EmptyString)).

(** [fmt.Sprint(metric, side)] for a string and a byte: the string followed
    by the byte in decimal, with no space since one operand is a string. *)
Definition Sprint (metric : string) (side : Z) : string :=
  metric +:+ NilZero.string_of_int (Z.to_int side).

(** ** The store *)

(** [SQLiteDB]: the database handle and the ranking cache. [faults] is the
    fate of the coming storage calls, one entry per call: [true] makes the
    call fail with a storage error (busy database, disk) and leave the
    database as it was. When the list runs out, calls succeed. *)
Record SQLiteDB : Type := mkSQLiteDB {
  DB : database;
  rankingCache : gmap string (list RankingRecord);
  faults : list bool;
}.

(** [NewSQLiteCache]: the cache starts empty. *)
Definition NewSQLiteCache : gmap string (list RankingRecord) := ∅.

(** A method of the store: it reads and changes the store and returns. *)
Definition M (A : Type) : Type := SQLiteDB → A * SQLiteDB.

#[global] Instance M_ret : MRet M := λ A a s, (a, s).
#[global] Instance M_bind : MBind M := λ A B f m s,
  let (a, s') := m s in f a s'.

(** One call that reads the database. *)
Definition query {A} (q : database → res A) : M (res A) := λ s,
  match faults s with
  | true :: rest => (Err ErrStorage, mkSQLiteDB (DB s) (rankingCache s) rest)
  | _ => (q (DB s), mkSQLiteDB (DB s) (rankingCache s) (tail (faults s)))
  end.

(** One statement that changes the database; the Go value [error] is
    [None] for [nil]. *)
Definition exec (q : statement) : M (option error) := λ s,
  match faults s with
  | true :: rest => (Some ErrStorage, mkSQLiteDB (DB s) (rankingCache s) rest)
  | _ =>
      match q (DB s) with
      | Ok d => (None, mkSQLiteDB d (rankingCache s) (tail (faults s)))
      | Err e => (Some e, mkSQLiteDB (DB s) (rankingCache s) (tail (faults s)))
      end
  end.

(** [Exec] of a script: statement after statement, up to the first error. *)
Fixpoint exec_script (script : list statement) : M (option error) :=
  match script with
  | [] => mret None
  | q :: rest =>
      err ← exec q;
      match err with
      | Some e => mret (Some e)
      | None => exec_script rest
      end
  end.

(** [deleteRankingCache] *)
Definition deleteRankingCache : M unit := λ s,
  ((), mkSQLiteDB (DB s) ∅ (faults s)).

Definition cache_lookup (key : string) : M (option (list RankingRecord)) :=
  λ s, (rankingCache s !! key, s).

Definition cache_store (key : string) (ranking : list RankingRecord)
  : M unit := λ s,
  ((), mkSQLiteDB (DB s) (<[key := ranking]> (rankingCache s)) (faults s)).

(** [Init] *)
Definition Init : M (option error) := exec_script (schema ++ indexes).

(** *** [Migrate] *)

Definition tables : list string := ["account"; "user"; "battle_record"].

(** [tx.Rollback()]: the database is again as it was when the transaction
    began. *)
Definition Rollback (begin : database) : M unit := λ s,
  ((), mkSQLiteDB begin (rankingCache s) (faults s)).

(** The first loop of [Migrate]: every table is renamed to [table_tmp]. *)
Fixpoint rename_tables (ts : list string) : M (option error) :=
  match ts with
  | [] => mret None
  | table :: rest =>
      let tmp := table +:+ "_tmp" in
      err ← exec (rename_table table tmp);
      match err with
      | Some e => mret (Some (ErrWrap e "ALTER TABLE failed"))
      | None => rename_tables rest
      end
  end.

(** The second loop: the rows of [table_tmp] are inserted into the new
    table under the column names of [table_tmp], which is then dropped. *)
Fixpoint copy_tables (ts : list string) : M (option error) :=
  match ts with
  | [] => mret None
  | table :: rest =>
      let tmp := table +:+ "_tmp" in
      columns ← query (columns_of tmp);
      match columns with
      | Err e => mret (Some (ErrWrap e "SELECT failed"))
      | Ok columns =>
          err ← exec (insert_select table columns tmp);
          match err with
          | Some e => mret (Some (ErrWrap e "INSERT failed"))
          | None =>
              err ← exec (drop_table tmp);
              match err with
              | Some e => mret (Some (ErrWrap e "DROP TABLE failed"))
              | None => copy_tables rest
              end
          end
      end
  end.

(** [Migrate]: every step runs in one transaction; an error at any step
    rolls it back. A [Commit] that fails leaves nothing applied. *)
Definition Migrate : M (option error) := λ s0,
  let begin := DB s0 in
  (err ← exec Ok;
   match err with
   | Some e => mret (Some (ErrWrap e "Begin failed"))
   | None =>
       err ← exec_script schema;
       match err with
       | Some e => _ ← Rollback begin; mret (Some (ErrWrap e "Begin failed"))
       | None =>
           err ← rename_tables tables;
           match err with
           | Some e => _ ← Rollback begin; mret (Some e)
           | None =>
               err ← exec_script (schema ++ indexes);
               match err with
               | Some e =>
                   _ ← Rollback begin;
                   mret (Some (ErrWrap e "failed to create new tables"))
               | None =>
                   err ← copy_tables tables;
                   match err with
                   | Some e => _ ← Rollback begin; mret (Some e)
                   | None =>
                       err ← exec Ok;
                       match err with
                       | Some e => _ ← Rollback begin; mret (Some e)
                       | None => mret None
                       end
                   end
               end
           end
       end
   end) s0.

(** *** Accounts and users *)

(** [QueryRowx(...).StructScan] and [db.Get]: the first row of the result
    is scanned; no row at all is [sql.ErrNoRows]. *)
Definition scan_first {A} (scan : list string → list value → res A)
    (result : list string * list (list value)) : res A :=
  match result.2 with
  | [] => Err ErrNoRows
  | row :: _ => scan result.1 row
  end.

(** [rows.Next()] with [StructScan] in the loop body. *)
Definition scan_each {A} (scan : list string → list value → res A)
    (result : list string * list (list value)) : res (list A) :=
  res_mapM (scan result.1) result.2.

(** [RegisterAccount]. The login key, session id and user id generators and
    the clock are outside the package: what they return is an argument of
    the method that calls them. *)
Definition RegisterAccount (key : string) (now : Z) (ip : string)
  : M (res Account) :=
  err ← exec (insert_values "account"
                ["login_key"; "created_ip"; "created"; "last_login"; "system"]
                [VText key; VText ip; VTime now; VTime now; VInt 0]);
  match err with
  | Some e => mret (Err e)
  | None => mret (Ok (mkAccount key "" "" ip 0 0 0))
  end.

(** [RegisterAccountWithLoginKey] *)
Definition RegisterAccountWithLoginKey (now : Z) (ip loginKey : string)
  : M (res Account) :=
  err ← exec (insert_values "account"
                ["login_key"; "created_ip"; "created"; "last_login"; "system"]
                [VText loginKey; VText ip; VTime now; VTime now; VInt 0]);
  match err with
  | Some e => mret (Err e)
  | None => mret (Ok (mkAccount loginKey "" "" ip 0 0 0))
  end.

(** [GetAccountByLoginKey] *)
Definition GetAccountByLoginKey (key : string) : M (res Account) :=
  query (λ d,
    select_all "account" [CEq "login_key" (VText key)] d
    ≫= scan_first scan_account).

(** [LoginAccount]: the account the caller passed is changed too, so it is
    returned with the error. *)
Definition LoginAccount (sessionID : string) (now : Z) (a : Account)
  : M (Account * option error) :=
  let a := mkAccount (Account_LoginKey a) sessionID (Account_LastUserID a)
             (Account_CreatedIP a) (Account_Created a) now
             (Account_System a) in
  err ← exec (update "account"
                [("session_id", VText (Account_SessionID a));
                 ("last_login", VTime (Account_LastLogin a))]
                [CEq "login_key" (VText (Account_LoginKey a))]);
  mret (a, err).

Definition zero_counters : Counters := mkCounters 0 0 0 0 0.

(** [RegisterUser] *)
Definition RegisterUser (userID : string) (now : Z) (loginKey : string)
  : M (res User) :=
  err ← exec (insert_values "user" ["user_id"; "login_key"; "created"]
                [VText userID; VText loginKey; VTime now]);
  match err with
  | Some e => mret (Err e)
  | None =>
      mret (Ok (mkUser userID loginKey "" "" "" zero_counters zero_counters
                  zero_counters 0 0 0 now 0))
  end.

(** [GetUserList] *)
Definition GetUserList (loginKey : string) : M (res (list User)) :=
  query (λ d,
    select_all "user" [CEq "login_key" (VText loginKey)] d
    ≫= scan_each scan_user).

(** [GetUser]. SQLite answers [WHERE user_id = ?] through the index of
    the primary key (user_id, login_key), so the rows of a user id come in
    ascending order of the login key, and [db.Get] scans the first of
    them. With an error Go also returns the struct it was scanning into;
    the model returns the error alone. *)
Definition GetUser (userID : string) : M (res User) :=
  query (λ d,
    select_all_by "user" [CEq "user_id" (VText userID)] "login_key" d
    ≫= scan_first scan_user).

(** [LoginUser]: two [UPDATE] statements, each its own call on the handle. *)
Definition LoginUser (user : User) : M (option error) :=
  a ← GetAccountByLoginKey (User_LoginKey user);
  match a with
  | Err e => mret (Some e)
  | Ok a =>
      let a := mkAccount (Account_LoginKey a) (Account_SessionID a)
                 (User_UserID user) (Account_CreatedIP a) (Account_Created a)
                 (Account_LastLogin a) (Account_System a) in
      err ← exec (update "account"
                    [("last_user_id", VText (Account_LastUserID a))]
                    [CEq "login_key" (VText (Account_LoginKey a))]);
      match err with
      | Some e => mret (Some e)
      | None =>
          exec (update "user"
                  [("session_id", VText (User_SessionID user))]
                  [CEq "user_id" (VText (User_UserID user))])
      end
  end.

(** The named parameters of five counters. *)
Definition counter_sets (prefix : string) (c : Counters)
  : list (string * value) :=
  [ (prefix +:+ "battle_count", VInt (BattleCount c));
    (prefix +:+ "win_count", VInt (WinCount c));
    (prefix +:+ "lose_count", VInt (LoseCount c));
    (prefix +:+ "kill_count", VInt (KillCount c));
    (prefix +:+ "death_count", VInt (DeathCount c)) ].

(** [UpdateUser] *)
Definition UpdateUser (user : User) : M (option error) :=
  exec (update "user"
          ([("name", VText (User_Name user)); ("team", VText (User_Team user))]
           ++ counter_sets "" (User_All user)
           ++ counter_sets "aeug_" (User_Aeug user)
           ++ counter_sets "titans_" (User_Titans user)
           ++ [("daily_battle_count", VInt (User_DailyBattleCount user));
               ("daily_win_count", VInt (User_DailyWinCount user));
               ("daily_lose_count", VInt (User_DailyLoseCount user));
               ("system", VInt (User_System user))])
          [CEq "user_id" (VText (User_UserID user))]).

(** *** Battle records *)

Definition with_times (b : BattleRecord) (created updated : Z)
  : BattleRecord :=
  mkBattleRecord (BattleCode b) (UserID b) (UserName b) (PilotName b)
    (Players b) (Aggregate b) (Pos b) (Side b) (Round b) (Win b) (Lose b)
    (Kill b) (Death b) (Frame b) (Result b) created updated (System b).

(** [AddBattleRecord]: the record the caller passed gets both timestamps. *)
Definition AddBattleRecord (now : Z) (battleRecord : BattleRecord)
  : M (BattleRecord * option error) :=
  let battleRecord := with_times battleRecord now now in
  err ← exec (insert_values "battle_record"
                ["battle_code"; "user_id"; "user_name"; "pilot_name";
                 "players"; "aggregate"; "pos"; "side"; "created"; "updated";
                 "system"]
                [VText (BattleCode battleRecord); VText (UserID battleRecord);
                 VText (UserName battleRecord);
                 VText (PilotName battleRecord);
                 VInt (Players battleRecord); VInt (Aggregate battleRecord);
                 VInt (Pos battleRecord); VInt (Side battleRecord);
                 VTime (Created battleRecord); VTime (Updated battleRecord);
                 VInt (System battleRecord)]);
  mret (battleRecord, err).

(** The [SET] list of [UpdateBattleRecord]. *)
Definition result_sets (battle : BattleRecord) : list (string * value) :=
  [ ("round", VInt (Round battle)); ("win", VInt (Win battle));
    ("lose", VInt (Lose battle)); ("kill", VInt (Kill battle));
    ("death", VInt (Death battle)); ("frame", VInt (Frame battle));
    ("result", VText (Result battle)); ("updated", VTime (Updated battle));
    ("system", VInt (System battle)) ].

(** [UpdateBattleRecord] *)
Definition UpdateBattleRecord (now : Z) (battle : BattleRecord)
  : M (BattleRecord * option error) :=
  let battle := with_times battle (Created battle) now in
  err ← exec (update "battle_record" (result_sets battle)
                [CEq "battle_code" (VText (BattleCode battle));
                 CEq "user_id" (VText (UserID battle))]);
  _ ← (if bool_decide (err = None) && negb (Z.eqb (Aggregate battle) 0)
       then deleteRankingCache else mret ());
  mret (battle, err).

(** [GetBattleRecordUser]; as for [GetUser], an error is returned alone. *)
Definition GetBattleRecordUser (battleCode userID : string)
  : M (res BattleRecord) :=
  query (λ d,
    select_all "battle_record"
      [CEq "battle_code" (VText battleCode); CEq "user_id" (VText userID)] d
    ≫= scan_first scan_battle_record).

Definition total_columns : list string :=
  ["round"; "win"; "lose"; "kill"; "death"].

(** [Scan] of a [float64] into an integer field: database/sql prints the
    number as [strconv.FormatFloat(f, 'g', -1, 64)] does and parses the
    text as an integer. A whole number below a million is printed as its
    digits; from a million on the text has an exponent ([1e+06]), which
    the parser refuses. *)
Definition scan_count (c : string) (f : Z) : res Z :=
  if Z.ltb (Z.abs f) 1000000 then Ok f else Err (ErrScan c).

(** [r.Scan(&ret.Battle, &ret.Win, &ret.Lose, &ret.Kill, &ret.Death)]: the
    five totals are scanned in this order, and a field that was scanned
    before one that fails keeps its value. *)
Definition scan_totals (totals : res (list Z))
  : BattleCountResult * option error :=
  match totals with
  | Ok [battle; win; lose; kill; death] =>
      match scan_count "TOTAL(round)" battle with
      | Err e => (mkBattleCountResult 0 0 0 0 0, Some e)
      | Ok b =>
      match scan_count "TOTAL(win)" win with
      | Err e => (mkBattleCountResult b 0 0 0 0, Some e)
      | Ok w =>
      match scan_count "TOTAL(lose)" lose with
      | Err e => (mkBattleCountResult b w 0 0 0, Some e)
      | Ok l =>
      match scan_count "TOTAL(kill)" kill with
      | Err e => (mkBattleCountResult b w l 0 0, Some e)
      | Ok k =>
      match scan_count "TOTAL(death)" death with
      | Err e => (mkBattleCountResult b w l k 0, Some e)
      | Ok d => (mkBattleCountResult b w l k d, None)
      end end end end end
  | Ok _ => (mkBattleCountResult 0 0 0 0 0, Some ErrColumnCount)
  | Err e => (mkBattleCountResult 0 0 0 0 0, Some e)
  end.

(** [CalculateUserTotalBattleCount]; [side] is a byte. *)
Definition CalculateUserTotalBattleCount (userID : string) (side : Z)
  : M (BattleCountResult * option error) :=
  if Z.eqb side 0 then
    r ← query (select_totals "battle_record" total_columns
                 [CEq "user_id" (VText userID); CNe "aggregate" (VInt 0);
                  CEq "players" (VInt 4)]);
    mret (scan_totals r)
  else
    r ← query (select_totals "battle_record" total_columns
                 [CEq "user_id" (VText userID); CNe "aggregate" (VInt 0);
                  CEq "players" (VInt 4); CEq "side" (VInt side)]);
    mret (scan_totals r).

(** [CalculateUserDailyBattleCount]. The clock and the calendar are outside
    the package: [since] is the timestamp that
    [time.Now().AddDate(0, 0, -1)] returns, the same time of day one
    calendar day earlier, and [created > ?] compares it with the stored
    one as [VTime] says. *)
Definition CalculateUserDailyBattleCount (since : Z) (userID : string)
  : M (BattleCountResult * option error) :=
  r ← query (select_totals "battle_record" total_columns
               [CEq "user_id" (VText userID); CNe "aggregate" (VInt 0);
                CEq "players" (VInt 4); CGt "created" (VTime since)]);
  mret (scan_totals r).

(** *** Rankings *)

(** The two checks on [u.Name] and [u.Team] in the scanning loop. *)
Definition sanitize (u : RankingRecord) : RankingRecord :=
  mkRankingRecord (Rank u) (Ranking_UserID u)
    (if utf8_ValidString (Ranking_Name u) then Ranking_Name u else placeholder)
    (if utf8_ValidString (Ranking_Team u) then Ranking_Team u else placeholder)
    (Ranking_All u) (Ranking_Aeug u) (Ranking_Titans u).

(** The part both ranking methods share: look the key up, and on a miss run
    the query ordered by [target], scan, and store the result. *)
Definition ranking (cacheKey target : string)
  : M (res (list RankingRecord)) :=
  cached ← cache_lookup cacheKey;
  match cached with
  | Some ranking => mret (Ok ranking)
  | None =>
      rows ← query (select_ranked "user" target ranking_columns 100);
      match rows ≫= scan_each (λ names row,
                                 sanitize <$> scan_ranking_record names row) with
      | Err e => mret (Err e)
      | Ok ranking =>
          _ ← cache_store cacheKey ranking;
          mret (Ok ranking)
      end
  end.

(** [GetWinCountRanking]; [side] is a byte. *)
Definition GetWinCountRanking (side : Z) : M (res (list RankingRecord)) :=
  let cacheKey := Sprint "win" side in
  let target :=
    if Z.eqb side 1 then "aeug_win_count"
    else if Z.eqb side 2 then "titans_win_count"
    else "win_count" in
  ranking cacheKey target.

(** [GetKillCountRanking]; [side] is a byte. *)
Definition GetKillCountRanking (side : Z) : M (res (list RankingRecord)) :=
  let cacheKey := Sprint "kill" side in
  let target :=
    if Z.eqb side 1 then "aeug_kill_count"
    else if Z.eqb side 2 then "titans_kill_count"
    else "kill_count" in
  ranking cacheKey target.

(** ** Predicates of the specification *)

(** No two rows of a table collide on the primary key. *)
Definition unique_keys (names pkey : list string) (rows : list (list value))
  : Prop :=
  ∀ i j ri rj, i ≠ j → rows !! i = Some ri → rows !! j = Some rj →
    same_key names pkey ri rj = false.

(** What SQLite maintains for every table: each row has one value per
    column, and the primary key is unique. *)
Definition table_ok (t : table) : Prop :=
  Forall (λ r, length r = length (tbl_columns t)) (tbl_rows t) ∧
  unique_keys (column_names (tbl_columns t)) (tbl_pkey t) (tbl_rows t).

Definition holds_table (db : database) (tname : string)
    (cols : list column) (pkey : list string) : Prop :=
  ∃ rows, db_tables db !! tname = Some (Table cols pkey rows)
          ∧ table_ok (Table cols pkey rows).

Definition index_names : list string :=
  ["BATTLE_RECORD_USER_ID"; "BATTLE_RECORD_PLAYERS"; "BATTLE_RECORD_CREATED";
   "BATTLE_RECORD_AGGRIGATE"].

Definition tmp_names : list string := map (λ t, t +:+ "_tmp") tables.

Definition no_index (ix : gmap string (string * string))
    (names : list string) : Prop :=
  ∀ n, n ∈ names → ix !! n = None.

(** A database already at the current schema: the three tables are there
    with the columns and keys of [schema], no table is left over from an
    interrupted migration, and no table and index share a name. *)
Record at_current_schema (db : database) : Prop := {
  cur_account : holds_table db "account" account_columns ["login_key"];
  cur_user : holds_table db "user" user_columns ["user_id"; "login_key"];
  cur_battle_record :
    holds_table db "battle_record" battle_record_columns
      ["battle_code"; "user_id"];
  cur_no_tmp : ∀ n, n ∈ tmp_names → db_tables db !! n = None;
  cur_no_index_table : ∀ n, n ∈ index_names → db_tables db !! n = None;
  cur_no_table_index : no_index (db_indexes db) (tables ++ tmp_names);
}.

(** The table map after each phase of [Migrate], as a function of the map
    before it. *)
Definition renamed (T : gmap string table) (ta tu tb : table)
  : gmap string table :=
  <["battle_record_tmp" := tb]> (delete "battle_record"
    (<["user_tmp" := tu]> (delete "user"
      (<["account_tmp" := ta]> (delete "account" T))))).

Definition created (T : gmap string table) : gmap string table :=
  <["battle_record" :=
      Table battle_record_columns ["battle_code"; "user_id"] []]>
    (<["user" := Table user_columns ["user_id"; "login_key"] []]>
       (<["account" := Table account_columns ["login_key"] []]> T)).


(** The same conditions as functions to [bool], for concrete databases. *)
Fixpoint unique_keysb (names pkey : list string) (rows : list (list value))
  : bool :=
  match rows with
  | [] => true
  | r :: rest =>
      forallb (λ x, negb (same_key names pkey r x)
                    && negb (same_key names pkey x r)) rest
      && unique_keysb names pkey rest
  end.

Definition holds_tableb (db : database) (tname : string)
    (cols : list column) (pkey : list string) : bool :=
  match db_tables db !! tname with
  | Some t =>
      bool_decide (tbl_columns t = cols) && bool_decide (tbl_pkey t = pkey)
      && forallb (λ r, Nat.eqb (length r) (length cols)) (tbl_rows t)
      && unique_keysb (column_names cols) pkey (tbl_rows t)
  | None => false
  end.

Definition at_current_schemab (db : database) : bool :=
  holds_tableb db "account" account_columns ["login_key"]
  && holds_tableb db "user" user_columns ["user_id"; "login_key"]
  && holds_tableb db "battle_record" battle_record_columns
       ["battle_code"; "user_id"]
  && forallb (λ n, bool_decide (db_tables db !! n = None))
       (tmp_names ++ index_names)
  && forallb (λ n, bool_decide (db_indexes db !! n = None))
       (tables ++ tmp_names).

(** ** Sample data *)

Definition sample_user (userID sessionID : string) (wins : Z) : User :=
  mkUser userID "K1" sessionID "pilot" "team" (mkCounters 5 wins 1 7 2)
    (mkCounters 3 wins 0 4 1) (mkCounters 2 0 1 3 1) 0 0 0 50 0.

Definition sample_battle (code userID : string) (aggregate side win : Z)
  : BattleRecord :=
  mkBattleRecord code userID "name" "pilot" 4 aggregate 0 side 3 win 1 5 2
    900 "won" 0 0 0.

(** The columns [UpdateBattleRecord] is to leave alone: the identity and
    position of the participant, and the time the row was created. *)
Definition kept_columns : list string :=
  ["battle_code"; "user_id"; "user_name"; "pilot_name"; "players";
   "aggregate"; "pos"; "side"; "created"].

Definition battle_names : list string := column_names battle_record_columns.

(** The row is the one of the participant [userID] of battle [battleCode]. *)
Definition row_of_pair (battleCode userID : string) (r : list value) : Prop :=
  row_get battle_names r "battle_code" = Some (VText battleCode)
  ∧ row_get battle_names r "user_id" = Some (VText userID).

(** The [battle_record] table has the columns of the schema and these rows. *)
Definition battle_rows (s : SQLiteDB) (rows : list (list value)) : Prop :=
  db_tables (DB s) !! "battle_record"
  = Some (Table battle_record_columns ["battle_code"; "user_id"] rows).

(** What the [UPDATE] of [UpdateBattleRecord] makes of one row. *)
Definition finalized (b : BattleRecord) (r : list value) : list value :=
  if where_holds battle_names
       [CEq "battle_code" (VText (BattleCode b));
        CEq "user_id" (VText (UserID b))] r
  then set_columns battle_names (result_sets b) r
  else r.

(** The rows of [battle_record] in [sample_store]. *)
Definition sample_battle_rows : list (list value) :=
  [ [VText "B1"; VText "U1"; VText "name"; VText "pilot"; VInt 4; VInt 1;
     VInt 0; VInt 1; VInt 3; VInt 2; VInt 1; VInt 5; VInt 2; VInt 900;
     VText "won"; VTime 100; VTime 130; VInt 0];
    [VText "B1"; VText "U2"; VText "name"; VText "pilot"; VInt 4; VInt 1;
     VInt 0; VInt 2; VInt 0; VInt 0; VInt 0; VInt 0; VInt 0; VInt 0;
     VText ""; VTime 110; VTime 110; VInt 0];
    [VText "B2"; VText "U1"; VText "name"; VText "pilot"; VInt 4; VInt 1;
     VInt 0; VInt 2; VInt 0; VInt 0; VInt 0; VInt 0; VInt 0; VInt 0;
     VText ""; VTime 120; VTime 120; VInt 0] ].

(** The row [AddBattleRecord] inserts: the named columns from the record,
    the result columns from their defaults. *)
Definition joined_row (now : Z) (b : BattleRecord) : list value :=
  [VText (BattleCode b); VText (UserID b); VText (UserName b);
   VText (PilotName b); VInt (Players b); VInt (Aggregate b); VInt (Pos b);
   VInt (Side b); VInt 0; VInt 0; VInt 0; VInt 0; VInt 0; VInt 0; VText "";
   VTime now; VTime now; VInt (System b)].

(** The row that holds a battle record: one value per field. *)
Definition row_of_battle (b : BattleRecord) : list value :=
  [VText (BattleCode b); VText (UserID b); VText (UserName b);
   VText (PilotName b); VInt (Players b); VInt (Aggregate b); VInt (Pos b);
   VInt (Side b); VInt (Round b); VInt (Win b); VInt (Lose b); VInt (Kill b);
   VInt (Death b); VInt (Frame b); VText (Result b); VTime (Created b);
   VTime (Updated b); VInt (System b)].





(** The records of [sample_battle_rows]. *)
Definition sample_battles : list BattleRecord :=
  [ mkBattleRecord "B1" "U1" "name" "pilot" 4 1 0 1 3 2 1 5 2 900 "won" 100
      130 0;
    mkBattleRecord "B1" "U2" "name" "pilot" 4 1 0 2 0 0 0 0 0 0 "" 110 110 0;
    mkBattleRecord "B2" "U1" "name" "pilot" 4 1 0 2 0 0 0 0 0 0 "" 120 120 0 ].

(** ** The calls of the store's interface *)

(** One constructor per method, with its arguments; the values the
    generators and the clock return during the call come with them. *)
Inductive call : Type :=
  | CallInit
  | CallMigrate
  | CallRegisterAccount (key : string) (now : Z) (ip : string)
  | CallRegisterAccountWithLoginKey (now : Z) (ip loginKey : string)
  | CallGetAccountByLoginKey (key : string)
  | CallLoginAccount (sessionID : string) (now : Z) (a : Account)
  | CallRegisterUser (userID : string) (now : Z) (loginKey : string)
  | CallGetUserList (loginKey : string)
  | CallGetUser (userID : string)
  | CallLoginUser (user : User)
  | CallUpdateUser (user : User)
  | CallAddBattleRecord (now : Z) (battleRecord : BattleRecord)
  | CallUpdateBattleRecord (now : Z) (battle : BattleRecord)
  | CallGetBattleRecordUser (battleCode userID : string)
  | CallCalculateUserTotalBattleCount (userID : string) (side : Z)
  | CallCalculateUserDailyBattleCount (since : Z) (userID : string)
  | CallGetWinCountRanking (side : Z)
  | CallGetKillCountRanking (side : Z).

(** The store after a call. *)
Definition after (c : call) (s : SQLiteDB) : SQLiteDB :=
  match c with
  | CallInit => (Init s).2
  | CallMigrate => (Migrate s).2
  | CallRegisterAccount key now ip => (RegisterAccount key now ip s).2
  | CallRegisterAccountWithLoginKey now ip loginKey =>
      (RegisterAccountWithLoginKey now ip loginKey s).2
  | CallGetAccountByLoginKey key => (GetAccountByLoginKey key s).2
  | CallLoginAccount sessionID now a => (LoginAccount sessionID now a s).2
  | CallRegisterUser userID now loginKey =>
      (RegisterUser userID now loginKey s).2
  | CallGetUserList loginKey => (GetUserList loginKey s).2
  | CallGetUser userID => (GetUser userID s).2
  | CallLoginUser user => (LoginUser user s).2
  | CallUpdateUser user => (UpdateUser user s).2
  | CallAddBattleRecord now battleRecord =>
      (AddBattleRecord now battleRecord s).2
  | CallUpdateBattleRecord now battle => (UpdateBattleRecord now battle s).2
  | CallGetBattleRecordUser battleCode userID =>
      (GetBattleRecordUser battleCode userID s).2
  | CallCalculateUserTotalBattleCount userID side =>
      (CalculateUserTotalBattleCount userID side s).2
  | CallCalculateUserDailyBattleCount since userID =>
      (CalculateUserDailyBattleCount since userID s).2
  | CallGetWinCountRanking side => (GetWinCountRanking side s).2
  | CallGetKillCountRanking side => (GetKillCountRanking side s).2
  end.

(** The call is an [UpdateBattleRecord] of a record with aggregate≠0. *)
Definition finalizes (c : call) : bool :=
  match c with
  | CallUpdateBattleRecord _ battle => negb (Z.eqb (Aggregate battle) 0)
  | _ => false
  end.

(** A method that leaves the ranking cache as it is. *)
Definition cache_stable {A} (m : M A) : Prop :=
  ∀ s, rankingCache (m s).2 = rankingCache s.

(** A method that removes no entry of the ranking cache. *)
Definition cache_kept {A} (m : M A) : Prop :=
  ∀ s key ranking,
    rankingCache s !! key = Some ranking →
    rankingCache (m s).2 !! key = Some ranking.

(** The store after a list of calls, served in order. *)
Definition serve (calls : list call) (s : SQLiteDB) : SQLiteDB :=
  foldl (λ s c, after c s) s calls.

(** A store after a fresh [Init], one account with two users, and two
    battles, the first with both users, finalized for the first. *)
Definition sample_calls : list call :=
  [ CallInit;
    CallRegisterAccount "K1" 40 "1.2.3.4";
    CallRegisterUser "U1" 50 "K1";
    CallRegisterUser "U2" 60 "K1";
    CallUpdateUser (sample_user "U1" "" 4);
    CallAddBattleRecord 100 (sample_battle "B1" "U1" 1 1 0);
    CallAddBattleRecord 110 (sample_battle "B1" "U2" 1 2 0);
    CallAddBattleRecord 120 (sample_battle "B2" "U1" 1 2 0);
    CallUpdateBattleRecord 130 (sample_battle "B1" "U1" 1 1 2) ].

Definition sample_store : SQLiteDB :=
  serve sample_calls (mkSQLiteDB Sql.empty NewSQLiteCache []).

(** ** The statements of [Migrate], without the handle *)

(** A script on a database that no storage failure hits. *)
Fixpoint run_script (script : list statement) (d : database) : res database :=
  match script with
  | [] => Ok d
  | q :: rest => d' ← q d; run_script rest d'
  end.

(** One round of the first loop of [Migrate]. *)
Definition rename_one (table : string) : statement :=
  rename_table table (table +:+ "_tmp").

(** One round of its second loop. *)
Definition copy_one (table : string) : statement := λ d,
  columns ← columns_of (table +:+ "_tmp") d;
  d1 ← insert_select table columns (table +:+ "_tmp") d;
  drop_table (table +:+ "_tmp") d1.

(** The tables [Migrate] manages, with the columns and the key the schema
    gives them. *)
Definition managed : list (string * list column * list string) :=
  [ ("account", account_columns, ["login_key"]);
    ("user", user_columns, ["user_id"; "login_key"]);
    ("battle_record", battle_record_columns, ["battle_code"; "user_id"]) ].

(** A store from before a column of [account] was renamed: the table has
    a column [ip] where the schema now has [created_ip]. *)
Definition old_account_columns : list column :=
  [ Column "login_key" TText VNull;
    Column "session_id" TText (VText "");
    Column "last_user_id" TText (VText "");
    Column "ip" TText (VText "");
    Column "created" TTimestamp VNull;
    Column "last_login" TTimestamp VNull;
    Column "system" TInteger (VInt 0) ].

Definition old_store : SQLiteDB :=
  mkSQLiteDB
    (Database
       (<["account" :=
            Table old_account_columns ["login_key"]
              [[VText "K1"; VText ""; VText ""; VText "1.2.3.4"; VTime 40;
                VTime 40; VInt 0]]]>
          (db_tables (DB sample_store)))
       (db_indexes (DB sample_store)))
    NewSQLiteCache [].

(** A statement that leaves every table that exists as it is. *)
Definition keeps_tables (q : statement) : Prop :=
  ∀ d d', q d = Ok d' →
    ∀ k t, db_tables d !! k = Some t → db_tables d' !! k = Some t.

(** ** Leaderboards *)

(** The counter a ranking for [side] is about: the one of faction 1 or 2,
    and the overall one for every other side. *)
Definition win_counter (side : Z) (r : RankingRecord) : Z :=
  if Z.eqb side 1 then WinCount (Ranking_Aeug r)
  else if Z.eqb side 2 then WinCount (Ranking_Titans r)
  else WinCount (Ranking_All r).

Definition kill_counter (side : Z) (r : RankingRecord) : Z :=
  if Z.eqb side 1 then KillCount (Ranking_Aeug r)
  else if Z.eqb side 2 then KillCount (Ranking_Titans r)
  else KillCount (Ranking_All r).

(** At most 100 entries, every entry's counter at least that of each later
    entry, and equal counters under equal ranks. *)
Definition leaderboard (counter : RankingRecord → Z)
    (l : list RankingRecord) : Prop :=
  (length l ≤ 100)%nat
  ∧ StronglySorted (λ a b, counter b ≤ counter a) l
  ∧ ∀ a b, a ∈ l → b ∈ l → counter a = counter b → Rank a = Rank b.

(** The counter field that a column of the ranking query is scanned into. *)
Definition counter_of (target : string) (r : RankingRecord) : Z :=
  if String.eqb target "aeug_win_count" then WinCount (Ranking_Aeug r)
  else if String.eqb target "titans_win_count" then WinCount (Ranking_Titans r)
  else if String.eqb target "win_count" then WinCount (Ranking_All r)
  else if String.eqb target "aeug_kill_count" then KillCount (Ranking_Aeug r)
  else if String.eqb target "titans_kill_count"
  then KillCount (Ranking_Titans r)
  else KillCount (Ranking_All r).

Definition targets : list string :=
  ["win_count"; "aeug_win_count"; "titans_win_count";
   "kill_count"; "aeug_kill_count"; "titans_kill_count"].

(** Every cached ranking is a leaderboard for the counter of its key. *)
Definition cache_ok (cache : gmap string (list RankingRecord)) : Prop :=
  ∀ side l,
    (cache !! Sprint "win" side = Some l → leaderboard (win_counter side) l)
    ∧ (cache !! Sprint "kill" side = Some l →
       leaderboard (kill_counter side) l).

(** The stores a process can be in: it starts on some database file with
    an empty cache, and then serves calls. *)
Inductive reachable : SQLiteDB → Prop :=
  | reachable_start (d : database) (fs : list bool) :
      reachable (mkSQLiteDB d NewSQLiteCache fs)
  | reachable_call (c : call) (s : SQLiteDB) :
      reachable s → reachable (after c s).

(** The value a row holds in a column, NULL if it has none. *)
Definition key_of (names : list string) (r : list value) (c : string)
  : value :=
  default VNull (row_get names r c).

(** The row of the ranking query that scans into a ranking record. *)
Definition row_of_ranking (u : RankingRecord) : list value :=
  let counters c :=
    [VInt (BattleCount c); VInt (WinCount c); VInt (LoseCount c);
     VInt (KillCount c); VInt (DeathCount c)] in
  [VInt (Rank u); VText (Ranking_UserID u); VText (Ranking_Name u);
   VText (Ranking_Team u)]
  ++ counters (Ranking_All u) ++ counters (Ranking_Aeug u)
  ++ counters (Ranking_Titans u).

(** The column each ranking method orders by. *)
Definition win_target (side : Z) : string :=
  if Z.eqb side 1 then "aeug_win_count"
  else if Z.eqb side 2 then "titans_win_count"
  else "win_count".

Definition kill_target (side : Z) : string :=
  if Z.eqb side 1 then "aeug_kill_count"
  else if Z.eqb side 2 then "titans_kill_count"
  else "kill_count".

(** A name that a statement can hold as it is, and that stands for a
    declared column only: a letter or an underscore followed by letters,
    digits and underscores, and none of the names SQLite gives the rowid
    of a table. *)
Definition is_letter (a : ascii) : bool :=
  let n := nat_of_ascii (lower a) in Nat.leb 97 n && Nat.leb n 122.

Definition is_digit (a : ascii) : bool :=
  let n := nat_of_ascii a in Nat.leb 48 n && Nat.leb n 57.

Definition is_underscore (a : ascii) : bool :=
  Nat.eqb (nat_of_ascii a) 95.

Definition rowid_names : list string := ["rowid"; "oid"; "_rowid_"].

Definition plain_name (n : string) : bool :=
  match n with
  | EmptyString => false
  | String a _ => is_letter a || is_underscore a
  end
  && forallb (λ a, is_letter a || is_digit a || is_underscore a)
       (list_ascii_of_string n)
  && negb (existsb (same_name n) rowid_names).

(** A table whose columns have such names. *)
Definition plain_columns (t : table) : bool :=
  forallb plain_name (column_names (tbl_columns t)).

(** Whether a column list has a column of the name [c], whatever the case
    of its letters. *)
Definition has_column (cols : list column) (c : string) : bool :=
  existsb (same_name c) (column_names cols).

(** ** Tables that hold records *)

(** The database with one table replaced. *)
Definition set_table (tname : string) (t : table) (d : database) : database :=
  Database (<[tname := t]> (db_tables d)) (db_indexes d).

(** The row that holds an account: one value per field. *)
Definition row_of_account (a : Account) : list value :=
  [VText (Account_LoginKey a); VText (Account_SessionID a);
   VText (Account_LastUserID a); VText (Account_CreatedIP a);
   VTime (Account_Created a); VTime (Account_LastLogin a);
   VInt (Account_System a)].

Definition values_of_counters (c : Counters) : list value :=
  [VInt (BattleCount c); VInt (WinCount c); VInt (LoseCount c);
   VInt (KillCount c); VInt (DeathCount c)].

(** The row that holds a user. *)
Definition row_of_user (u : User) : list value :=
  [VText (User_UserID u); VText (User_LoginKey u); VText (User_SessionID u);
   VText (User_Name u); VText (User_Team u)]
  ++ values_of_counters (User_All u)
  ++ values_of_counters (User_Aeug u)
  ++ values_of_counters (User_Titans u)
  ++ [VInt (User_DailyBattleCount u); VInt (User_DailyWinCount u);
      VInt (User_DailyLoseCount u); VTime (User_Created u);
      VInt (User_System u)].

Definition account_names : list string := column_names account_columns.
Definition user_names : list string := column_names user_columns.

Definition account_table (accounts : list Account) : table :=
  Table account_columns ["login_key"] (map row_of_account accounts).

Definition user_table (users : list User) : table :=
  Table user_columns ["user_id"; "login_key"] (map row_of_user users).

Definition battle_table (battles : list BattleRecord) : table :=
  Table battle_record_columns ["battle_code"; "user_id"]
    (map row_of_battle battles).

(** The store's tables hold these accounts, users and battle records. *)
Definition holds_accounts (s : SQLiteDB) (accounts : list Account) : Prop :=
  db_tables (DB s) !! "account" = Some (account_table accounts).

Definition holds_users (s : SQLiteDB) (users : list User) : Prop :=
  db_tables (DB s) !! "user" = Some (user_table users).

Definition holds_battles (s : SQLiteDB) (battles : list BattleRecord) : Prop :=
  db_tables (DB s) !! "battle_record" = Some (battle_table battles).

(** [sql.ErrNoRows] when the list has no such element, else the first. *)
Definition first_or_no_rows {A} (p : A → bool) (l : list A) : res A :=
  match List.find p l with
  | Some a => Ok a
  | None => Err ErrNoRows
  end.

Definition has_login_key (key : string) (a : Account) : bool :=
  String.eqb (Account_LoginKey a) key.

Definition has_user_id (userID : string) (u : User) : bool :=
  String.eqb (User_UserID u) userID.

Definition of_login_key (loginKey : string) (u : User) : bool :=
  String.eqb (User_LoginKey u) loginKey.

Definition has_pair (battleCode userID : string) (b : BattleRecord) : bool :=
  String.eqb (BattleCode b) battleCode && String.eqb (UserID b) userID.

(** The account a registration stores. *)
Definition new_account (key ip : string) (now : Z) : Account :=
  mkAccount key "" "" ip now now 0.

(** The user a registration stores: the defaults of the schema, among them
    the name [default]. *)
Definition new_user (userID loginKey : string) (now : Z) : User :=
  mkUser userID loginKey "" "default" "" zero_counters zero_counters
    zero_counters 0 0 0 now 0.

(** An account after [LoginAccount]. *)
Definition logged_in (sessionID : string) (now : Z) (a : Account) : Account :=
  mkAccount (Account_LoginKey a) sessionID (Account_LastUserID a)
    (Account_CreatedIP a) (Account_Created a) now (Account_System a).

(** An account after [LoginUser] of the user [userID]. *)
Definition with_last_user (userID : string) (a : Account) : Account :=
  mkAccount (Account_LoginKey a) (Account_SessionID a) userID
    (Account_CreatedIP a) (Account_Created a) (Account_LastLogin a)
    (Account_System a).

(** A user after [LoginUser] with the session [sessionID]. *)
Definition with_session (sessionID : string) (u : User) : User :=
  mkUser (User_UserID u) (User_LoginKey u) sessionID (User_Name u)
    (User_Team u) (User_All u) (User_Aeug u) (User_Titans u)
    (User_DailyBattleCount u) (User_DailyWinCount u) (User_DailyLoseCount u)
    (User_Created u) (User_System u).

(** A stored user after [UpdateUser] with [new]: the profile, the counters
    and the system flag of [new]; its own key, session and creation time. *)
Definition overwritten (new old : User) : User :=
  mkUser (User_UserID old) (User_LoginKey old) (User_SessionID old)
    (User_Name new) (User_Team new) (User_All new) (User_Aeug new)
    (User_Titans new) (User_DailyBattleCount new) (User_DailyWinCount new)
    (User_DailyLoseCount new) (User_Created old) (User_System new).

(** A stored battle record after [UpdateBattleRecord] with [new] at [now]:
    the results and the system flag of [new]; its own identity, position
    and creation time. *)
Definition with_results (new : BattleRecord) (now : Z) (old : BattleRecord)
  : BattleRecord :=
  mkBattleRecord (BattleCode old) (UserID old) (UserName old) (PilotName old)
    (Players old) (Aggregate old) (Pos old) (Side old) (Round new) (Win new)
    (Lose new) (Kill new) (Death new) (Frame new) (Result new) (Created old)
    now (System new).

(** The battle record [AddBattleRecord] stores. *)
Definition joined (now : Z) (b : BattleRecord) : BattleRecord :=
  mkBattleRecord (BattleCode b) (UserID b) (UserName b) (PilotName b)
    (Players b) (Aggregate b) (Pos b) (Side b) 0 0 0 0 0 0 "" now now
    (System b).

(** [f] on the elements that satisfy [p], the others as they are. *)
Definition map_where {A} (p : A → bool) (f : A → A) (l : list A) : list A :=
  map (λ x, if p x then f x else x) l.

(** The accounts and users of [sample_store]. *)
Definition sample_accounts : list Account :=
  [mkAccount "K1" "" "" "1.2.3.4" 40 40 0].

Definition sample_users : list User :=
  [overwritten (sample_user "U1" "" 4) (new_user "U1" "K1" 50);
   new_user "U2" "K1" 60].

Definition has_user_pair (userID loginKey : string) (u : User) : bool :=
  has_user_id userID u && of_login_key loginKey u.


(** Every table, with its rows, and every index of [d] is in [d'] as it
    is in [d]. *)
Definition extends (d d' : database) : Prop :=
  (∀ k t, db_tables d !! k = Some t → db_tables d' !! k = Some t)
  ∧ (∀ k i, db_indexes d !! k = Some i → db_indexes d' !! k = Some i).

(** The tables and indexes of the schema are there, and no table has the
    name of one of its indexes. *)
Definition schema_in_place (d : database) : Prop :=
  (∀ n, n ∈ tables → is_Some (db_tables d !! n))
  ∧ (∀ i, i ∈ index_names →
       db_tables d !! i = None ∧ is_Some (db_indexes d !! i)).

(** A ranking record whose name and team are valid UTF-8. *)
Definition printable (u : RankingRecord) : Prop :=
  utf8_ValidString (Ranking_Name u) = true
  ∧ utf8_ValidString (Ranking_Team u) = true.

(** The counter of a user that a column of the ranking query orders by. *)
Definition user_counter (target : string) (u : User) : Z :=
  if String.eqb target "aeug_win_count" then WinCount (User_Aeug u)
  else if String.eqb target "titans_win_count" then WinCount (User_Titans u)
  else if String.eqb target "win_count" then WinCount (User_All u)
  else if String.eqb target "aeug_kill_count" then KillCount (User_Aeug u)
  else if String.eqb target "titans_kill_count"
  then KillCount (User_Titans u)
  else KillCount (User_All u).

(** The rank of a user among [users]: one more than the number of users
    with a strictly greater counter, so that users with equal counters
    share a rank and the ranks after them are skipped. *)
Definition competition_rank (target : string) (users : list User) (u : User)
  : Z :=
  1 + Z.of_nat (length (List.filter
                          (λ v, Z.ltb (user_counter target u)
                                      (user_counter target v)) users)).

(** The ranking record of a user: its id, name, team and the three groups
    of counters. *)
Definition record_of_user (rank : Z) (u : User) : RankingRecord :=
  mkRankingRecord rank (User_UserID u) (User_Name u) (User_Team u)
    (User_All u) (User_Aeug u) (User_Titans u).

(** The entry of a user in a ranking by [target] of [users]. *)
Definition ranked (target : string) (users : list User) (u : User)
  : RankingRecord :=
  sanitize (record_of_user (competition_rank target users u) u).

(** What a ranking by [target] of a user table that holds [users] is: the
    first hundred of the users put in descending order of the counter,
    each with its rank among all of them. *)
Definition ranking_of (target : string) (users : list User)
    (l : list RankingRecord) : Prop :=
  ∃ ordered : list User,
    users ≡ₚ ordered
    ∧ StronglySorted (λ a b, user_counter target b ≤ user_counter target a)
        ordered
    ∧ l = map (ranked target users) (take 100 ordered).

(** ** Calls and the database *)

Definition res_error {A} (r : res A) : option error :=
  match r with Ok _ => None | Err e => Some e end.

(** The error a call returns, [None] for [nil]. *)
Definition error_of (c : call) (s : SQLiteDB) : option error :=
  match c with
  | CallInit => (Init s).1
  | CallMigrate => (Migrate s).1
  | CallRegisterAccount key now ip =>
      res_error (RegisterAccount key now ip s).1
  | CallRegisterAccountWithLoginKey now ip loginKey =>
      res_error (RegisterAccountWithLoginKey now ip loginKey s).1
  | CallGetAccountByLoginKey key => res_error (GetAccountByLoginKey key s).1
  | CallLoginAccount sessionID now a => (LoginAccount sessionID now a s).1.2
  | CallRegisterUser userID now loginKey =>
      res_error (RegisterUser userID now loginKey s).1
  | CallGetUserList loginKey => res_error (GetUserList loginKey s).1
  | CallGetUser userID => res_error (GetUser userID s).1
  | CallLoginUser user => (LoginUser user s).1
  | CallUpdateUser user => (UpdateUser user s).1
  | CallAddBattleRecord now battleRecord =>
      (AddBattleRecord now battleRecord s).1.2
  | CallUpdateBattleRecord now battle => (UpdateBattleRecord now battle s).1.2
  | CallGetBattleRecordUser battleCode userID =>
      res_error (GetBattleRecordUser battleCode userID s).1
  | CallCalculateUserTotalBattleCount userID side =>
      (CalculateUserTotalBattleCount userID side s).1.2
  | CallCalculateUserDailyBattleCount since userID =>
      (CalculateUserDailyBattleCount since userID s).1.2
  | CallGetWinCountRanking side => res_error (GetWinCountRanking side s).1
  | CallGetKillCountRanking side => res_error (GetKillCountRanking side s).1
  end.

(** The methods that only run queries. *)
Definition reads (c : call) : bool :=
  match c with
  | CallGetAccountByLoginKey _ | CallGetUserList _ | CallGetUser _
  | CallGetBattleRecordUser _ _ | CallCalculateUserTotalBattleCount _ _
  | CallCalculateUserDailyBattleCount _ _ | CallGetWinCountRanking _
  | CallGetKillCountRanking _ => true
  | _ => false
  end.

(** The methods that change the database in one statement or in one
    transaction: all but [Init], a script, and [LoginUser], two statements. *)
Definition in_one_step (c : call) : bool :=
  match c with
  | CallInit | CallLoginUser _ => false
  | _ => true
  end.

(** A method that leaves the database as it is. *)
Definition db_stable {A} (m : M A) : Prop :=
  ∀ s, DB (m s).2 = DB s.

(** ** What [Migrate] makes of a table *)




(** The same table with two of its columns written in another case. *)
Definition cased_account : table :=
  Table
    [ Column "login_key" TText VNull;
      Column "Session_ID" TText (VText "");
      Column "last_user_id" TText (VText "");
      Column "Created_IP" TText (VText "");
      Column "created" TTimestamp VNull;
      Column "last_login" TTimestamp VNull ]
    ["login_key"]
    [[VText "K1"; VText "S1"; VText "U1"; VText "1.2.3.4"; VTime 40;
      VTime 45]].

Definition cased_store : SQLiteDB :=
  mkSQLiteDB
    (Database (<["account" := cased_account]> (db_tables (DB sample_store)))
       (db_indexes (DB sample_store)))
    NewSQLiteCache [].


(** ** The user that a lookup by user id finds *)

(** Among [users], [u] has the id [userID] and no user of that id has a
    login key before the one of [u], in the order of their bytes. *)
Definition least_login_key (userID : string) (users : list User) (u : User)
  : Prop :=
  u ∈ users ∧ has_user_id userID u = true
  ∧ ∀ v, v ∈ users → has_user_id userID v = true →
         String.ltb (User_LoginKey v) (User_LoginKey u) = false.

(** ** Values that a column keeps *)



(** * Properties *)

(** ** Rows, keys and statements *)



Lemma same_name_sym (a b : string) : same_name a b = same_name b a.
Proof. unfold same_name. apply String.eqb_sym. Qed.










Lemma has_column_inv (c : string) (names : list string) :
  existsb (same_name c) names = true →
  ∃ n, n ∈ names ∧ same_name c n = true.
Proof.
  intros H. apply existsb_exists in H as (x & Hin & Hx). exists x.
  by rewrite list_elem_of_In.
Qed.





Ltac mem := apply (bool_decide_unpack _); vm_compute; exact I.
Ltac look :=
  repeat first
    [ rewrite lookup_insert_eq | rewrite lookup_delete_eq
    | rewrite lookup_insert_ne by done | rewrite lookup_delete_ne by done ];
  try done.









Lemma unique_keysb_sound names pkey rows :
  unique_keysb names pkey rows = true → unique_keys names pkey rows.
Proof.
  induction rows as [|r rest IH]; simpl; intros H i j ri rj Hne Hi Hj.
  - by rewrite lookup_nil in Hi.
  - apply andb_prop in H as [Hr Hrest]. rewrite forallb_forall in Hr.
    destruct i as [|i], j as [|j]; simpl in *; [done | | |].
    + injection Hi as <-.
      apply list_elem_of_lookup_2, list_elem_of_In, Hr in Hj.
      apply andb_prop in Hj as [Hj _]. by apply negb_true_iff in Hj.
    + injection Hj as <-.
      apply list_elem_of_lookup_2, list_elem_of_In, Hr in Hi.
      apply andb_prop in Hi as [_ Hi]. by apply negb_true_iff in Hi.
    + apply (IH Hrest i j); [congruence | done | done].
Qed.

Lemma holds_tableb_sound db tname cols pkey :
  holds_tableb db tname cols pkey = true → holds_table db tname cols pkey.
Proof.
  unfold holds_tableb, holds_table.
  destruct (db_tables db !! tname) as [[tc tp rows]|]; [|done]. simpl.
  intros H. repeat (apply andb_prop in H as [H ?]).
  apply bool_decide_eq_true in H as ->.
  match goal with H : bool_decide _ = true |- _ =>
    apply bool_decide_eq_true in H as -> end.
  exists rows. split; [done|]. split; simpl.
  - apply Forall_forall. intros r Hr.
    match goal with H : forallb _ _ = true |- _ =>
      rewrite forallb_forall in H; apply list_elem_of_In, H in Hr end.
    by apply Nat.eqb_eq.
  - by apply unique_keysb_sound.
Qed.

Lemma at_current_schemab_sound db :
  at_current_schemab db = true → at_current_schema db.
Proof.
  unfold at_current_schemab. intros H.
  repeat (apply andb_prop in H as [H ?]).
  repeat match goal with H : forallb _ _ = true |- _ =>
    rewrite forallb_forall in H end.
  constructor; try (by apply holds_tableb_sound).
  - intros n Hn. eapply bool_decide_eq_true, H1, list_elem_of_In.
    apply elem_of_app. by left.
  - intros n Hn. eapply bool_decide_eq_true, H1, list_elem_of_In.
    apply elem_of_app. by right.
  - intros n Hn. by eapply bool_decide_eq_true, H0, list_elem_of_In.
Qed.

(** ** Migration of a database at the current schema *)



(** A fresh [Init] puts an empty database at the current schema. *)
Lemma Init_gives_current_schema :
  (Init (mkSQLiteDB Sql.empty NewSQLiteCache [])).1 = None
  ∧ at_current_schema (DB (Init (mkSQLiteDB Sql.empty NewSQLiteCache [])).2).
Proof.
  split; [vm_compute; reflexivity|].
  apply at_current_schemab_sound. vm_compute. reflexivity.
Qed.

(** The rows survive, the indexes do not always: the renamed table takes
    its indexes along, [CREATE INDEX IF NOT EXISTS] then finds the names
    taken, and [DROP TABLE] removes them. A second run finds the names free
    and creates the indexes again. *)
Lemma Migrate_drops_then_restores_indexes :
  let s1 := (Migrate sample_store).2 in
  let s2 := (Migrate s1).2 in
  Forall (λ i, is_Some (db_indexes (DB sample_store) !! i)) index_names
  ∧ db_indexes (DB s1) = ∅
  ∧ Forall (λ i, is_Some (db_indexes (DB s2) !! i)) index_names.
Proof.
  vm_compute. split; [|split]; [| reflexivity |]; repeat constructor; eauto.
Qed.

(** ** Calls on the handle *)

Lemma exec_cases (q : statement) (s : SQLiteDB) :
  (∃ rest, faults s = true :: rest
     ∧ exec q s = (Some ErrStorage, mkSQLiteDB (DB s) (rankingCache s) rest))
  ∨ (∃ d, q (DB s) = Ok d
       ∧ exec q s = (None, mkSQLiteDB d (rankingCache s) (tail (faults s))))
  ∨ (∃ e, q (DB s) = Err e
       ∧ exec q s
         = (Some e, mkSQLiteDB (DB s) (rankingCache s) (tail (faults s)))).
Proof.
  unfold exec. destruct (faults s) as [|[] rest] eqn:E.
  - right. destruct (q (DB s)); [left | right]; eauto.
  - left. eauto.
  - right. destruct (q (DB s)); [left | right]; eauto.
Qed.

Lemma exec_None (q : statement) (s s' : SQLiteDB) :
  exec q s = (None, s') →
  q (DB s) = Ok (DB s') ∧ rankingCache s' = rankingCache s
  ∧ faults s' = tail (faults s).
Proof.
  destruct (exec_cases q s) as [(r & _ & E) | [(d & Hq & E) | (e & _ & E)]];
    rewrite E; intros [=]; subst; auto.
Qed.

Lemma exec_Some (q : statement) (s s' : SQLiteDB) (e : error) :
  exec q s = (Some e, s') →
  DB s' = DB s ∧ rankingCache s' = rankingCache s.
Proof.
  destruct (exec_cases q s) as [(r & _ & E) | [(d & Hq & E) | (e' & _ & E)]];
    rewrite E; intros [=]; subst; auto.
Qed.

Lemma sql_eq_text (x : value) (t : string) :
  sql_eq x (VText t) = true ↔ x = VText t.
Proof.
  destruct x; simpl; try (split; [done | discriminate]).
  rewrite String.eqb_eq. split; congruence.
Qed.

(** ** Battle records *)

Lemma pair_where (battleCode userID : string) (r : list value) :
  where_holds battle_names
    [CEq "battle_code" (VText battleCode); CEq "user_id" (VText userID)] r
  = true ↔ row_of_pair battleCode userID r.
Proof.
  unfold where_holds, row_of_pair. simpl. rewrite !andb_true_iff.
  destruct (row_get battle_names r "battle_code") as [x|],
    (row_get battle_names r "user_id") as [y|]; simpl;
    rewrite ?sql_eq_text; split; intros H; destruct_and?;
    try done; try (split; congruence); try (repeat split; congruence).
Qed.

Lemma update_battle_rows (b : BattleRecord) (db : database) rows :
  db_tables db !! "battle_record"
  = Some (Table battle_record_columns ["battle_code"; "user_id"] rows) →
  update "battle_record" (result_sets b)
    [CEq "battle_code" (VText (BattleCode b));
     CEq "user_id" (VText (UserID b))] db
  = Ok (Database
          (<["battle_record" :=
               Table battle_record_columns ["battle_code"; "user_id"]
                 (map (finalized b) rows)]> (db_tables db))
          (db_indexes db)).
Proof.
  intros Hrows. unfold update, lookup_table. rewrite Hrows. reflexivity.
Qed.

(** The database after [UpdateBattleRecord]: untouched when the statement
    failed, and with every row [finalized] otherwise. *)
Lemma UpdateBattleRecord_DB now battle s rows :
  battle_rows s rows →
  let r := UpdateBattleRecord now battle s in
  (r.1.2 ≠ None ∧ DB r.2 = DB s)
  ∨ (r.1.2 = None
     ∧ DB r.2
       = Database
           (<["battle_record" :=
                Table battle_record_columns ["battle_code"; "user_id"]
                  (map (finalized (with_times battle (Created battle) now))
                     rows)]> (db_tables (DB s)))
           (db_indexes (DB s))).
Proof.
  intros Hrows. unfold UpdateBattleRecord, mbind, M_bind.
  match goal with |- context [exec ?q s] =>
    destruct (exec_cases q s) as [(f & _ & E) | [(d & Hq & E) | (e & _ & E)]];
      rewrite E; clear E
  end.
  - left. simpl. done.
  - right. rewrite (update_battle_rows _ _ rows Hrows) in Hq.
    injection Hq as <-. cbv zeta. cbn beta iota.
    rewrite bool_decide_eq_true_2 by done.
    destruct (negb _); done.
  - left. simpl. done.
Qed.

Lemma set_result_columns_kept (sets : BattleRecord) (r : list value) (c : string) :
  c ∈ kept_columns →
  row_get battle_names (set_columns battle_names (result_sets sets) r) c
  = row_get battle_names r c.
Proof.
  revert c. apply Forall_forall. unfold kept_columns.
  repeat constructor; unfold row_get; simpl;
    by rewrite !list_lookup_insert_ne by done.
Qed.

(** C9. On a [battle_record] table with the columns of the schema,
    [UpdateBattleRecord] leaves every other table as it is, keeps every row
    at its place, changes in no row any of the columns battle_code, user_id,
    user_name, pilot_name, players, aggregate, pos, side and created, and
    changes nothing at all in a row of another (battle_code, user_id). *)
Theorem UpdateBattleRecord_in_place (now : Z) (battle : BattleRecord)
    (s : SQLiteDB) (rows : list (list value)) :
  battle_rows s rows →
  ∃ rows',
    db_tables (DB (UpdateBattleRecord now battle s).2)
    = <["battle_record" :=
          Table battle_record_columns ["battle_code"; "user_id"] rows']>
        (db_tables (DB s))
    ∧ length rows' = length rows
    ∧ ∀ i r, rows !! i = Some r →
        ∃ r', rows' !! i = Some r'
          ∧ (∀ c, c ∈ kept_columns →
               row_get battle_names r' c = row_get battle_names r c)
          ∧ (¬ row_of_pair (BattleCode battle) (UserID battle) r → r' = r).
Proof.
  intros Hrows.
  destruct (UpdateBattleRecord_DB now battle s rows Hrows) as [[_ E] | [_ E]];
    rewrite E; clear E.
  - exists rows. split; [symmetry; by apply insert_id|]. split; [done|].
    intros i r Hi. exists r. auto.
  - exists (map (finalized (with_times battle (Created battle) now)) rows).
    split; [done|]. split; [by rewrite length_map|].
    intros i r Hi. rewrite list_lookup_fmap, Hi.
    eexists. split; [reflexivity|]. unfold finalized.
    match goal with |- context [where_holds ?n ?w r] =>
      destruct (where_holds n w r) eqn:Hw end; [|done].
    split.
    + intros c Hc. by apply set_result_columns_kept.
    + intros Hno. by apply pair_where in Hw.
Qed.

Lemma UpdateBattleRecord_in_place_witness :
  battle_rows sample_store sample_battle_rows
  ∧ ∃ rows',
      db_tables
        (DB (UpdateBattleRecord 140 (sample_battle "B1" "U2" 1 2 1)
               sample_store).2)
      = <["battle_record" :=
            Table battle_record_columns ["battle_code"; "user_id"] rows']>
          (db_tables (DB sample_store))
      ∧ length rows' = length sample_battle_rows
      ∧ ∀ i r, sample_battle_rows !! i = Some r →
          ∃ r', rows' !! i = Some r'
            ∧ (∀ c, c ∈ kept_columns →
                 row_get battle_names r' c = row_get battle_names r c)
            ∧ (¬ row_of_pair "B1" "U2" r → r' = r).
Proof.
  split; [vm_compute; reflexivity|].
  apply (UpdateBattleRecord_in_place 140 (sample_battle "B1" "U2" 1 2 1)
           sample_store sample_battle_rows).
  vm_compute; reflexivity.
Defined.

Lemma query_cases {A} (q : database → res A) (s : SQLiteDB) :
  (∃ rest, faults s = true :: rest
     ∧ query q s = (Err ErrStorage, mkSQLiteDB (DB s) (rankingCache s) rest))
  ∨ (hd false (faults s) = false
     ∧ query q s
       = (q (DB s), mkSQLiteDB (DB s) (rankingCache s) (tail (faults s)))).
Proof.
  unfold query. destruct (faults s) as [|[] rest] eqn:E; eauto.
Qed.

Lemma query_run_ok {A} (q : database → res A) (s : SQLiteDB) :
  hd false (faults s) = false →
  query q s = (q (DB s), mkSQLiteDB (DB s) (rankingCache s) (tail (faults s))).
Proof.
  intros H. destruct (query_cases q s) as [(r & E & _) | [_ E]]; [|done].
  by rewrite E in H.
Qed.

Lemma exec_run_ok (q : statement) (s : SQLiteDB) :
  hd false (faults s) = false →
  exec q s
  = match q (DB s) with
    | Ok d => (None, mkSQLiteDB d (rankingCache s) (tail (faults s)))
    | Err e => (Some e, mkSQLiteDB (DB s) (rankingCache s) (tail (faults s)))
    end.
Proof. unfold exec. by destruct (faults s) as [|[] rest]. Qed.

(** The database after an [AddBattleRecord] that returned no error. *)
Lemma AddBattleRecord_DB now b s rows b1 s1 :
  battle_rows s rows →
  AddBattleRecord now b s = ((b1, None), s1) →
  key_taken battle_names ["battle_code"; "user_id"] rows (joined_row now b)
  = false
  ∧ DB s1
    = Database
        (<["battle_record" :=
             Table battle_record_columns ["battle_code"; "user_id"]
               (rows ++ [joined_row now b])]> (db_tables (DB s)))
        (db_indexes (DB s)).
Proof.
  intros Hrows. unfold AddBattleRecord, mbind, M_bind.
  match goal with |- context [exec ?q s] =>
    destruct (exec q s) as [err s'] eqn:E end.
  cbn [mret M_ret]. intros [= <- -> ->].
  apply exec_None in E as (Hq & _ & _). revert Hq.
  unfold insert_values, lookup_table. rewrite Hrows.
  cbn [mbind res_bind tbl_columns tbl_pkey tbl_rows].
  change (missing_column _ _) with (@None string). cbv iota.
  change (build_row _ _ _) with (joined_row now b).
  cbn [append_rows]. fold battle_names.
  destruct (key_taken _ _ rows _); [done|].
  intros [= <-]. done.
Qed.

Lemma same_key_pair (r x : list value) (battleCode userID : string) :
  row_of_pair battleCode userID r → row_of_pair battleCode userID x →
  same_key battle_names ["battle_code"; "user_id"] r x = true.
Proof.
  intros [H1 H2] [H3 H4]. unfold same_key. simpl.
  rewrite H1, H2, H3, H4. simpl. by rewrite !String.eqb_refl.
Qed.

Lemma no_row_filter (battleCode userID : string) (rows : list (list value)) :
  (∀ r, r ∈ rows → ¬ row_of_pair battleCode userID r) →
  List.filter
    (where_holds battle_names
       [CEq "battle_code" (VText battleCode); CEq "user_id" (VText userID)])
    rows = [].
Proof.
  induction rows as [|r rows IH]; intros H; [done|]. cbn [List.filter].
  destruct (where_holds _ _ r) eqn:Hw.
  - apply pair_where in Hw. exfalso. eapply H; [|done]. by left.
  - apply IH. intros x Hx. apply H. by right.
Qed.

(** C8. On a [battle_record] table with the columns of the schema: after an
    [AddBattleRecord] that returned no error, [GetBattleRecordUser] for the
    same (battle_code, user_id), unless a storage failure hits it, returns a
    record whose round, win, lose, kill, death and frame are 0, whose result
    is empty and whose created and updated timestamps are equal. *)
Theorem Add_then_Get_zero_results (now : Z) (b b1 : BattleRecord)
    (s s1 : SQLiteDB) (rows : list (list value)) :
  battle_rows s rows →
  AddBattleRecord now b s = ((b1, None), s1) →
  hd false (faults s1) = false →
  ∃ x, (GetBattleRecordUser (BattleCode b) (UserID b) s1).1 = Ok x
       ∧ Round x = 0 ∧ Win x = 0 ∧ Lose x = 0 ∧ Kill x = 0 ∧ Death x = 0
       ∧ Frame x = 0 ∧ Result x = "" ∧ Created x = Updated x.
Proof.
  intros Hrows Hadd Hf.
  destruct (AddBattleRecord_DB _ _ _ _ _ _ Hrows Hadd) as [Hkey HDB].
  unfold GetBattleRecordUser. rewrite query_run_ok by done. cbn [fst].
  rewrite HDB. unfold select_all, lookup_table. cbn [db_tables].
  rewrite lookup_insert_eq.
  cbn [mbind res_bind tbl_columns tbl_pkey tbl_rows].
  change (missing_column _ _) with (@None string). cbv iota.
  fold battle_names. rewrite List.filter_app.
  rewrite no_row_filter; cycle 1.
  { intros r Hr Hp. unfold key_taken in Hkey.
    assert (existsb (same_key battle_names ["battle_code"; "user_id"]
                       (joined_row now b)) rows = true); [|congruence].
    apply existsb_exists. exists r. split; [by apply list_elem_of_In|].
    apply (same_key_pair _ _ (BattleCode b) (UserID b)); [|done].
    by split. }
  assert (Hnew : where_holds battle_names
                   [CEq "battle_code" (VText (BattleCode b));
                    CEq "user_id" (VText (UserID b))] (joined_row now b) = true).
  { apply pair_where. by split. }
  cbn [List.filter app]. rewrite Hnew.
  eexists. split; [reflexivity|]. cbn. done.
Qed.

Lemma Add_then_Get_zero_results_witness :
  let b := sample_battle "B3" "U1" 1 1 7 in
  let r := AddBattleRecord 150 b sample_store in
  battle_rows sample_store sample_battle_rows
  ∧ r = ((r.1.1, None), r.2)
  ∧ hd false (faults r.2) = false
  ∧ ∃ x, (GetBattleRecordUser "B3" "U1" r.2).1 = Ok x
         ∧ Round x = 0 ∧ Win x = 0 ∧ Lose x = 0 ∧ Kill x = 0 ∧ Death x = 0
         ∧ Frame x = 0 ∧ Result x = "" ∧ Created x = Updated x.
Proof.
  intros b r.
  assert (H1 : battle_rows sample_store sample_battle_rows)
    by (vm_compute; reflexivity).
  assert (H2 : r = ((r.1.1, None), r.2)) by (vm_compute; reflexivity).
  assert (H3 : hd false (faults r.2) = false) by (vm_compute; reflexivity).
  split; [exact H1|]. split; [exact H2|]. split; [exact H3|].
  exact (Add_then_Get_zero_results 150 b r.1.1 sample_store r.2
           sample_battle_rows H1 H2 H3).
Defined.

(** C3, as the store has it. When the [battle_record] table holds no row
    for the (battle_code, user_id) of the record, [UpdateBattleRecord],
    unless a storage failure hits it, returns no error and leaves the
    database as it was. *)
Theorem UpdateBattleRecord_no_row_no_error (now : Z) (battle : BattleRecord)
    (s : SQLiteDB) (rows : list (list value)) :
  battle_rows s rows →
  (∀ r, r ∈ rows → ¬ row_of_pair (BattleCode battle) (UserID battle) r) →
  hd false (faults s) = false →
  (UpdateBattleRecord now battle s).1.2 = None
  ∧ DB (UpdateBattleRecord now battle s).2 = DB s.
Proof.
  intros Hrows Hno Hf. unfold UpdateBattleRecord, mbind, M_bind.
  rewrite exec_run_ok by done.
  rewrite (update_battle_rows _ _ rows Hrows).
  assert (Hsame : map (finalized (with_times battle (Created battle) now)) rows
                  = rows).
  { rewrite <- (map_id rows) at 2. apply map_ext_in. intros r Hr.
    unfold finalized.
    match goal with |- context [where_holds ?n ?w r] =>
      destruct (where_holds n w r) eqn:Hw end; [|done].
    apply pair_where in Hw. exfalso.
    by apply (Hno r); [apply list_elem_of_In|]. }
  rewrite Hsame. rewrite insert_id by done.
  cbn beta iota. rewrite bool_decide_eq_true_2 by done.
  destruct (negb _); cbn; by destruct (DB s).
Qed.

Lemma UpdateBattleRecord_no_row_no_error_witness :
  let b := sample_battle "B9" "U9" 1 1 1 in
  battle_rows sample_store sample_battle_rows
  ∧ (∀ r, r ∈ sample_battle_rows → ¬ row_of_pair "B9" "U9" r)
  ∧ hd false (faults sample_store) = false
  ∧ (UpdateBattleRecord 200 b sample_store).1.2 = None
  ∧ DB (UpdateBattleRecord 200 b sample_store).2 = DB sample_store.
Proof.
  intros b.
  assert (H1 : battle_rows sample_store sample_battle_rows)
    by (vm_compute; reflexivity).
  assert (H2 : ∀ r, r ∈ sample_battle_rows → ¬ row_of_pair "B9" "U9" r).
  { apply Forall_forall. repeat constructor; intros [H _]; vm_compute in H;
      discriminate H. }
  split; [exact H1|]. split; [exact H2|]. split; [reflexivity|].
  exact (UpdateBattleRecord_no_row_no_error 200 b sample_store
           sample_battle_rows H1 H2 eq_refl).
Defined.

(** C3, as stated, fails: in the sample store no row exists for battle
    B9 and user U9 (the lookup is [sql.ErrNoRows]), and yet
    [UpdateBattleRecord] on that pair returns no error at all. *)
Lemma UpdateBattleRecord_no_row_not_NotFound :
  let b := sample_battle "B9" "U9" 1 1 1 in
  (GetBattleRecordUser "B9" "U9" sample_store).1 = Err ErrNoRows
  ∧ (UpdateBattleRecord 200 b sample_store).1.2 = None
  ∧ (UpdateBattleRecord 200 b sample_store).1.2 ≠ Some ErrNoRows.
Proof. vm_compute. split; [reflexivity|]. split; [reflexivity|]. discriminate. Qed.

(** ** Totals *)







(** Beyond 2^53 the accumulator rounds: 2^53 + 1 is not a [double], and
    the total of 2^53 and 1 is 2^53. *)
Example total_is_rounded :
  total ["round"] "round" [[VInt (2 ^ 53)]; [VInt 1]] = 2 ^ 53
  ∧ total ["round"] "round" [[VInt (2 ^ 53)]; [VInt 3]] = 2 ^ 53 + 4.
Proof. split; vm_compute; reflexivity. Qed.








(** ** Login of a user *)

(** C4 fails on the code. In the sample store, with a storage failure at
    the third call on the handle (the [UPDATE] of the user), [LoginUser]
    returns the error with the account's last_user_id already set to the
    user and the user's session_id still as it was. *)
Lemma LoginUser_writes_account_only :
  let s := mkSQLiteDB (DB sample_store) ∅ [false; false; true] in
  let user := sample_user "U1" "S1" 4 in
  let r := LoginUser user s in
  (Account_LastUserID <$> (GetAccountByLoginKey "K1" sample_store).1) = Ok ""
  ∧ (User_SessionID <$> (GetUser "U1" sample_store).1) = Ok ""
  ∧ r.1 = Some ErrStorage
  ∧ (Account_LastUserID <$> (GetAccountByLoginKey "K1" r.2).1) = Ok "U1"
  ∧ (User_SessionID <$> (GetUser "U1" r.2).1) = Ok "".
Proof. vm_compute. repeat split. Qed.

(** Without any failure too: for a user id that has no row, [LoginUser]
    returns no error, points the account at that id and changes no user. *)
Lemma LoginUser_unknown_user :
  let user := sample_user "U9" "S9" 0 in
  let r := LoginUser user sample_store in
  r.1 = None
  ∧ (Account_LastUserID <$> (GetAccountByLoginKey "K1" r.2).1) = Ok "U9"
  ∧ db_tables (DB r.2) !! "user" = db_tables (DB sample_store) !! "user".
Proof. vm_compute. repeat split. Qed.

(** ** The ranking cache *)

Lemma stable_ret {A} (a : A) : cache_stable (mret a : M A).
Proof. done. Qed.

Lemma stable_bind {A B} (m : M A) (f : A → M B) :
  cache_stable m → (∀ a, cache_stable (f a)) → cache_stable (m ≫= f).
Proof.
  intros Hm Hf s. unfold mbind, M_bind. specialize (Hm s).
  destruct (m s) as [a s']. simpl in *. by rewrite Hf.
Qed.

Lemma stable_exec (q : statement) : cache_stable (exec q).
Proof.
  intros s. unfold exec.
  destruct (faults s) as [|[] ?]; [| done |]; by destruct (q (DB s)).
Qed.

Lemma stable_query {A} (q : database → res A) : cache_stable (query q).
Proof. intros s. unfold query. by destruct (faults s) as [|[] ?]. Qed.

Lemma stable_Rollback (begin : database) : cache_stable (Rollback begin).
Proof. done. Qed.

Lemma stable_exec_script (script : list statement) :
  cache_stable (exec_script script).
Proof.
  induction script as [|q rest IH]; [apply stable_ret|]. cbn [exec_script].
  apply stable_bind; [apply stable_exec|]. intros [e|]; [apply stable_ret|done].
Qed.

Lemma stable_rename_tables (ts : list string) : cache_stable (rename_tables ts).
Proof.
  induction ts as [|t rest IH]; [apply stable_ret|]. cbn [rename_tables].
  apply stable_bind; [apply stable_exec|]. intros [e|]; [apply stable_ret|done].
Qed.

Create HintDb stable.

#[local] Hint Resolve stable_ret stable_exec stable_query stable_Rollback
  stable_exec_script stable_rename_tables : stable.

(** Splits a method into its calls on the handle. *)
Ltac stable :=
  repeat first
    [ progress intros
    | apply stable_bind
    | solve [auto with stable]
    | match goal with
      | |- cache_stable (match ?x with _ => _ end) => destruct x
      | |- cache_stable (if ?x then _ else _) => destruct x
      end ].

Lemma stable_copy_tables (ts : list string) : cache_stable (copy_tables ts).
Proof.
  induction ts as [|t rest IH]; [apply stable_ret|]. cbn [copy_tables].
  stable.
Qed.

#[local] Hint Resolve stable_copy_tables : stable.

Lemma stable_Init : cache_stable Init.
Proof. unfold Init. stable. Qed.

Lemma stable_Migrate : cache_stable Migrate.
Proof.
  intros s. unfold Migrate.
  match goal with |- rankingCache (?m s).2 = _ =>
    assert (H : cache_stable m) by stable; apply H end.
Qed.

Lemma stable_GetAccountByLoginKey key : cache_stable (GetAccountByLoginKey key).
Proof. unfold GetAccountByLoginKey. stable. Qed.

#[local] Hint Resolve stable_GetAccountByLoginKey : stable.

Lemma stable_after (c : call) (s : SQLiteDB) :
  match c with
  | CallUpdateBattleRecord _ _ | CallGetWinCountRanking _
  | CallGetKillCountRanking _ => True
  | _ => rankingCache (after c s) = rankingCache s
  end.
Proof.
  destruct c; try exact I; cbn [after];
    match goal with |- rankingCache (?m s).2 = _ =>
      assert (H : cache_stable m); [|apply H] end.
  - apply stable_Init.
  - apply stable_Migrate.
  - unfold RegisterAccount. stable.
  - unfold RegisterAccountWithLoginKey. stable.
  - stable.
  - unfold LoginAccount. stable.
  - unfold RegisterUser. stable.
  - unfold GetUserList. stable.
  - unfold GetUser. stable.
  - unfold LoginUser. stable.
  - unfold UpdateUser. stable.
  - unfold AddBattleRecord. stable.
  - unfold GetBattleRecordUser. stable.
  - unfold CalculateUserTotalBattleCount. stable.
  - unfold CalculateUserDailyBattleCount. stable.
Qed.

(** What [ranking] does to the cache: nothing, or one new entry under a
    key that had none. *)
Lemma ranking_cache (cacheKey target : string) (s : SQLiteDB) :
  rankingCache (ranking cacheKey target s).2 = rankingCache s
  ∨ (rankingCache s !! cacheKey = None
     ∧ ∃ l, (ranking cacheKey target s).1 = Ok l
            ∧ rankingCache (ranking cacheKey target s).2
              = <[cacheKey := l]> (rankingCache s)).
Proof.
  remember (ranking cacheKey target s) as r eqn:Er.
  unfold ranking, mbind, M_bind, cache_lookup in Er.
  destruct (rankingCache s !! cacheKey) as [l|] eqn:Hl; [left; by subst r|].
  pose proof (stable_query (select_ranked "user" target ranking_columns 100) s)
    as Hq.
  destruct (query _ s) as [rows s1]. cbn [snd] in Hq.
  destruct (res_bind _ _ _ rows) as [l|e]; [|left; by subst r].
  right. split; [done|]. exists l. subst r.
  unfold cache_store, mret, M_ret. cbn [fst snd rankingCache].
  by rewrite Hq.
Qed.

Lemma kept_ranking (cacheKey target : string) :
  cache_kept (ranking cacheKey target).
Proof.
  intros s key l Hl.
  destruct (ranking_cache cacheKey target s) as [E | (Hnone & l' & _ & E)];
    rewrite E; [done|].
  rewrite lookup_insert_ne; [done|]. intros ->. congruence.
Qed.

(** C2. An [UpdateBattleRecord] for a record with aggregate≠0 that finds
    the [battle_record] table of the schema, and that no storage failure
    hits, returns no error and leaves the ranking cache empty; whenever it
    returns no error the cache is empty, and when it returns an error no
    entry is removed. One for a record with aggregate=0 removes no entry;
    and no other call on the store removes an entry. *)
Theorem cache_cleared_by_finalizing_update_only (now : Z)
    (battle : BattleRecord) (c : call) (s : SQLiteDB) (key : string)
    (cached : list RankingRecord) (rows : list (list value)) :
  rankingCache s !! key = Some cached →
  let r := UpdateBattleRecord now battle s in
  (Aggregate battle ≠ 0 →
   (battle_rows s rows → hd false (faults s) = false →
    r.1.2 = None ∧ rankingCache r.2 = ∅)
   ∧ (r.1.2 = None → rankingCache r.2 = ∅)
   ∧ (r.1.2 ≠ None → rankingCache r.2 !! key = Some cached))
  ∧ (Aggregate battle = 0 → rankingCache r.2 !! key = Some cached)
  ∧ (finalizes c = false → rankingCache (after c s) !! key = Some cached).
Proof.
  intros Hkey r.
  assert (Hupd : ∀ now battle,
    let r := UpdateBattleRecord now battle s in
    (r.1.2 = None → Aggregate battle ≠ 0 → rankingCache r.2 = ∅)
    ∧ (r.1.2 ≠ None → rankingCache r.2 = rankingCache s)
    ∧ (Aggregate battle = 0 → rankingCache r.2 = rankingCache s)).
  { clear. intros now battle. unfold UpdateBattleRecord, mbind, M_bind.
    match goal with |- context [exec ?q s] =>
      pose proof (stable_exec q s) as Hq; destruct (exec q s) as [err s1] end.
    cbn [snd with_times Aggregate] in *. split; [|split].
    - intros Herr Hagg. apply Z.eqb_neq in Hagg. rewrite Hagg in *.
      destruct err as [e|]; [done|].
      rewrite bool_decide_eq_true_2 by done. done.
    - intros Herr. destruct err as [e|].
      + rewrite bool_decide_eq_false_2 by done. done.
      + exfalso. apply Herr. by destruct (_ && _).
    - intros ->. rewrite andb_false_r. done. }
  destruct (Hupd now battle) as (Hok & Herr & Hzero). fold r in Hok, Herr, Hzero.
  split; [|split].
  - intros Hagg. split; [|split].
    + intros Hrows Hf.
      assert (Hnone : r.1.2 = None).
      { unfold r, UpdateBattleRecord, mbind, M_bind.
        rewrite exec_run_ok by done.
        rewrite (update_battle_rows _ _ rows Hrows).
        by destruct (_ && _). }
      split; [exact Hnone|]. by apply Hok.
    + intros Hnone. by apply Hok.
    + intros He. by rewrite Herr.
  - intros H0. by rewrite Hzero.
  - intros Hfin. pose proof (stable_after c s) as Hst.
    destruct c; try (rewrite Hst; exact Hkey); cbn [after finalizes] in *.
    + destruct (Hupd now0 battle0) as (_ & _ & H). rewrite H; [done|].
      apply negb_false_iff in Hfin. by apply Z.eqb_eq.
    + by apply kept_ranking.
    + by apply kept_ranking.
Qed.

Lemma cache_cleared_by_finalizing_update_only_witness :
  let s := (GetWinCountRanking 1 sample_store).2 in
  let failing := mkSQLiteDB (DB s) (rankingCache s) [true] in
  let cached := default [] (rankingCache s !! "win1") in
  let finalizing := sample_battle "B1" "U2" 1 2 1 in
  let running := sample_battle "B1" "U2" 0 2 1 in
  let other := CallUpdateUser (sample_user "U2" "" 9) in
  rankingCache s !! "win1" = Some cached
  ∧ length cached = 2%nat
  ∧ battle_rows s sample_battle_rows
  ∧ hd false (faults s) = false
  ∧ ((UpdateBattleRecord 140 finalizing s).1.2 = None
     ∧ rankingCache (UpdateBattleRecord 140 finalizing s).2 = ∅)
  ∧ (UpdateBattleRecord 140 finalizing failing).1.2 = Some ErrStorage
  ∧ rankingCache (UpdateBattleRecord 140 finalizing failing).2 !! "win1"
    = Some cached
  ∧ (UpdateBattleRecord 140 running s).1.2 = None
  ∧ rankingCache (UpdateBattleRecord 140 running s).2 !! "win1" = Some cached
  ∧ rankingCache (after other s) !! "win1" = Some cached.
Proof.
  intros s failing cached finalizing running other.
  assert (H : rankingCache s !! "win1" = Some cached)
    by (vm_compute; reflexivity).
  assert (Hrows : battle_rows s sample_battle_rows)
    by (vm_compute; reflexivity).
  assert (Hne : Aggregate finalizing ≠ 0) by discriminate.
  assert (Hfail : (UpdateBattleRecord 140 finalizing failing).1.2
                  = Some ErrStorage) by (vm_compute; reflexivity).
  split; [exact H|]. split; [vm_compute; reflexivity|].
  split; [exact Hrows|]. split; [reflexivity|].
  split.
  { exact (proj1 (proj1 (cache_cleared_by_finalizing_update_only 140
                           finalizing other s "win1" cached
                           sample_battle_rows H) Hne) Hrows eq_refl). }
  split; [exact Hfail|]. split.
  { apply (proj2 (proj2 (proj1 (cache_cleared_by_finalizing_update_only 140
                                  finalizing other failing "win1" cached
                                  sample_battle_rows H) Hne))).
    rewrite Hfail. discriminate. }
  split; [vm_compute; reflexivity|]. split.
  { exact (proj1 (proj2 (cache_cleared_by_finalizing_update_only 140 running
                           other s "win1" cached sample_battle_rows H))
             eq_refl). }
  exact (proj2 (proj2 (cache_cleared_by_finalizing_update_only 140 running
                         other s "win1" cached sample_battle_rows H))
           eq_refl).
Defined.

(** ** Migration of a table with a column the schema no longer has *)

Lemma exec_script_None (script : list statement) (s s' : SQLiteDB) :
  exec_script script s = (None, s') → run_script script (DB s) = Ok (DB s').
Proof.
  revert s. induction script as [|q rest IH]; intros s; cbn [exec_script].
  - by intros [= <-].
  - unfold mbind at 1, M_bind. destruct (exec q s) as [[e|] s1] eqn:E.
    + by intros [=].
    + apply exec_None in E as (Hq & _). intros H. cbn [run_script].
      rewrite Hq. cbn. by apply IH.
Qed.

Lemma rename_tables_None (ts : list string) (s s' : SQLiteDB) :
  rename_tables ts s = (None, s') →
  run_script (map rename_one ts) (DB s) = Ok (DB s').
Proof.
  revert s. induction ts as [|t rest IH]; intros s; cbn [rename_tables]; cbv zeta.
  - by intros [= <-].
  - unfold mbind at 1, M_bind. destruct (exec _ s) as [[e|] s1] eqn:E.
    + by intros [=].
    + apply exec_None in E as (Hq & _). intros H. cbn [run_script map].
      unfold rename_one in *. rewrite Hq. cbn [mbind res_bind]. by apply IH.
Qed.

Lemma query_Ok {A} (q : database → res A) (s s' : SQLiteDB) (a : A) :
  query q s = (Ok a, s') → q (DB s) = Ok a ∧ DB s' = DB s.
Proof.
  destruct (query_cases q s) as [(r & _ & E) | [_ E]]; rewrite E.
  - by intros [=].
  - intros [= -> <-]. done.
Qed.

Lemma copy_tables_None (ts : list string) (s s' : SQLiteDB) :
  copy_tables ts s = (None, s') →
  run_script (map copy_one ts) (DB s) = Ok (DB s').
Proof.
  revert s. induction ts as [|t rest IH]; intros s; cbn [copy_tables]; cbv zeta.
  - by intros [= <-].
  - unfold mbind at 1, M_bind at 1.
    destruct (query _ s) as [[cols|e] s1] eqn:E1; [|by intros [=]].
    apply query_Ok in E1 as [Hc HD1].
    unfold mbind at 1, M_bind at 1.
    destruct (exec _ s1) as [[e|] s2] eqn:E2; [by intros [=]|].
    apply exec_None in E2 as (Hi & _).
    unfold mbind at 1, M_bind at 1.
    destruct (exec _ s2) as [[e|] s3] eqn:E3; [by intros [=]|].
    apply exec_None in E3 as (Hd & _).
    intros H. cbn [run_script map]. unfold copy_one in *.
    rewrite HD1 in Hi. rewrite Hc. cbn [mbind res_bind]. rewrite Hi.
    cbn [mbind res_bind]. rewrite Hd. cbn [mbind res_bind]. by apply IH.
Qed.

(** An error of [Migrate] leaves the database as it was. *)
Lemma Migrate_error_rolls_back (s : SQLiteDB) (e : error) :
  (Migrate s).1 = Some e → DB (Migrate s).2 = DB s.
Proof.
  unfold Migrate, mbind, M_bind.
  destruct (exec Ok s) as [[e1|] s1] eqn:E1.
  { intros _. cbn. by apply exec_Some in E1 as [-> _]. }
  destruct (exec_script schema s1) as [[e2|] s2]; [done|].
  destruct (rename_tables tables s2) as [[e3|] s3]; [done|].
  destruct (exec_script (schema ++ indexes) s3) as [[e4|] s4]; [done|].
  destruct (copy_tables tables s4) as [[e5|] s5]; [done|].
  destruct (exec Ok s5) as [[e6|] s6]; [done|].
  by intros [=].
Qed.

(** What a [Migrate] that returns no error has run. *)
Lemma Migrate_None (s : SQLiteDB) :
  (Migrate s).1 = None →
  ∃ d1 d2 d3 d4,
    run_script schema (DB s) = Ok d1
    ∧ run_script (map rename_one tables) d1 = Ok d2
    ∧ run_script (schema ++ indexes) d2 = Ok d3
    ∧ run_script (map copy_one tables) d3 = Ok d4.
Proof.
  unfold Migrate, mbind, M_bind.
  destruct (exec Ok s) as [[e1|] s1] eqn:E1; [by intros [=]|].
  apply exec_None in E1 as (E1 & _). injection E1 as E1.
  destruct (exec_script schema s1) as [[e2|] s2] eqn:E2; [by intros [=]|].
  apply exec_script_None in E2.
  destruct (rename_tables tables s2) as [[e3|] s3] eqn:E3; [by intros [=]|].
  apply rename_tables_None in E3.
  destruct (exec_script (schema ++ indexes) s3) as [[e4|] s4] eqn:E4;
    [by intros [=]|].
  apply exec_script_None in E4.
  destruct (copy_tables tables s4) as [[e5|] s5] eqn:E5; [by intros [=]|].
  apply copy_tables_None in E5.
  intros _. exists (DB s2), (DB s3), (DB s4), (DB s5).
  rewrite E1. done.
Qed.

Lemma keeps_create_table n cols pk :
  keeps_tables (create_table_if_not_exists n cols pk).
Proof.
  intros d d'. unfold create_table_if_not_exists.
  destruct (db_tables d !! n) as [t0|] eqn:Hn; [by intros [= <-]|].
  destruct (db_indexes d !! n); [done|]. intros [= <-] k t Hk. cbn.
  rewrite lookup_insert_ne; [done|]. intros ->. congruence.
Qed.

Lemma create_table_absent n cols pk d d' :
  create_table_if_not_exists n cols pk d = Ok d' →
  db_tables d !! n = None → db_tables d' !! n = Some (Table cols pk []).
Proof.
  unfold create_table_if_not_exists. intros H Hn. rewrite Hn in H.
  destruct (db_indexes d !! n); [done|]. injection H as <-. cbn.
  by rewrite lookup_insert_eq.
Qed.

Lemma keeps_create_index iname tname c :
  keeps_tables (create_index_if_not_exists iname tname c).
Proof.
  intros d d'. unfold create_index_if_not_exists.
  destruct (lookup_table tname d) as [t0|]; [|done]. cbn.
  destruct (db_tables d !! iname); [done|].
  destruct (db_indexes d !! iname); [by intros [= <-]|].
  destruct (existsb _ _); [|done]. by intros [= <-].
Qed.

Lemma keeps_run_script (script : list statement) :
  Forall keeps_tables script → keeps_tables (run_script script).
Proof.
  induction 1 as [|q rest Hq _ IH]; intros d d'; cbn [run_script].
  - by intros [= <-].
  - destruct (q d) as [d1|] eqn:E; [|done]. cbn. intros H k t Hk.
    eapply IH; [done|]. by eapply Hq.
Qed.

Lemma keeps_schema : Forall keeps_tables schema.
Proof. repeat constructor; apply keeps_create_table. Qed.

Lemma keeps_indexes : Forall keeps_tables indexes.
Proof. repeat constructor; apply keeps_create_index. Qed.

Lemma rename_table_inv old new d d' :
  rename_table old new d = Ok d' →
  ∃ t, db_tables d !! old = Some t
       ∧ db_tables d' = <[new := t]> (delete old (db_tables d)).
Proof.
  unfold rename_table, lookup_table.
  destruct (db_tables d !! old) as [t|]; [|done]. cbn.
  destruct (db_tables d !! new); [done|].
  destruct (db_indexes d !! new); [done|]. intros [= <-]. by exists t.
Qed.

Lemma renames_inv d d' :
  run_script (map rename_one tables) d = Ok d' →
  ∃ ta tu tb,
    db_tables d !! "account" = Some ta ∧ db_tables d !! "user" = Some tu
    ∧ db_tables d !! "battle_record" = Some tb
    ∧ db_tables d' = renamed (db_tables d) ta tu tb.
Proof.
  cbn [map tables run_script]. unfold rename_one.
  cbv beta iota delta [String.append].
  destruct (rename_table "account" _ d) as [d1|] eqn:E1; [|done].
  apply rename_table_inv in E1 as (ta & Ha & T1). cbn [mbind res_bind].
  destruct (rename_table "user" _ d1) as [d2|] eqn:E2; [|done].
  apply rename_table_inv in E2 as (tu & Hu & T2). cbn [mbind res_bind].
  destruct (rename_table "battle_record" _ d2) as [d3|] eqn:E3; [|done].
  apply rename_table_inv in E3 as (tb & Hb & T3). cbn [mbind res_bind].
  intros [= <-]. exists ta, tu, tb.
  rewrite T2 in Hb. rewrite T1 in Hu, Hb. revert Hu Hb. look. intros Hu Hb.
  repeat split; try done. unfold renamed. by rewrite T3, T2, T1.
Qed.

Lemma creates_inv d d' :
  run_script (schema ++ indexes) d = Ok d' →
  (∀ k t, db_tables d !! k = Some t → db_tables d' !! k = Some t)
  ∧ ∀ m, m ∈ managed → db_tables d !! m.1.1 = None →
      db_tables d' !! m.1.1 = Some (Table m.1.2 m.2 []).
Proof.
  intros H. split.
  { eapply keeps_run_script; [|done].
    apply Forall_app. split; [apply keeps_schema | apply keeps_indexes]. }
  revert H. cbn [schema app run_script].
  destruct (create_table_if_not_exists "account" _ _ d) as [d1|] eqn:E1;
    [|done]. cbn [mbind res_bind].
  destruct (create_table_if_not_exists "user" _ _ d1) as [d2|] eqn:E2;
    [|done]. cbn [mbind res_bind].
  destruct (create_table_if_not_exists "battle_record" _ _ d2) as [d3|] eqn:E3;
    [|done]. cbn [mbind res_bind].
  intros H. apply (keeps_run_script _ keeps_indexes) in H.
  pose proof (keeps_create_table _ _ _ _ _ E2) as K2.
  pose proof (keeps_create_table _ _ _ _ _ E3) as K3.
  assert (N1 : ∀ k, k ≠ "account" → db_tables d !! k = None →
                    db_tables d1 !! k = None).
  { intros k Hk Hn. revert E1. unfold create_table_if_not_exists.
    destruct (db_tables d !! "account"); [by intros [= <-]|].
    destruct (db_indexes d !! "account"); [done|]. intros [= <-]. cbn.
    by rewrite lookup_insert_ne. }
  assert (N2 : ∀ k, k ≠ "user" → db_tables d1 !! k = None →
                    db_tables d2 !! k = None).
  { intros k Hk Hn. revert E2. unfold create_table_if_not_exists.
    destruct (db_tables d1 !! "user"); [by intros [= <-]|].
    destruct (db_indexes d1 !! "user"); [done|]. intros [= <-]. cbn.
    by rewrite lookup_insert_ne. }
  apply (proj1 (Forall_forall
    (λ m : string * list column * list string,
       db_tables d !! m.1.1 = None →
       db_tables d' !! m.1.1 = Some (Table m.1.2 m.2 [])) managed)).
  unfold managed.
  repeat constructor; cbn [fst snd]; intros Hn; apply H.
  - by eapply K3, K2, create_table_absent.
  - eapply K3, create_table_absent; [done|]. by apply N1.
  - eapply create_table_absent; [done|]. apply N2; [done|]. by apply N1.
Qed.

Lemma missing_column_None_inv (names cs : list string) (c : string) :
  missing_column names cs = None → c ∈ cs →
  existsb (same_name c) names = true.
Proof.
  unfold missing_column. intros H Hc.
  apply list_elem_of_In in Hc. apply (find_none _ _ H) in Hc.
  by apply negb_false_iff in Hc.
Qed.

(** A name of [cs] that [names] lacks makes the first such name the
    missing one. *)
Lemma missing_column_Some (names cs : list string) (c : string) :
  c ∈ cs → existsb (same_name c) names = false →
  ∃ c', missing_column names cs = Some c' ∧ c' ∈ cs
        ∧ existsb (same_name c') names = false.
Proof.
  intros Hc Hn. unfold missing_column.
  destruct (List.find _ cs) as [c'|] eqn:E.
  - apply find_some in E as [Hin E]. apply negb_true_iff in E.
    exists c'. by rewrite list_elem_of_In.
  - apply list_elem_of_In in Hc. apply (find_none _ _ E) in Hc.
    by rewrite Hn in Hc.
Qed.

Lemma copy_one_inv (table : string) (d d' : database) :
  copy_one table d = Ok d' →
  ∃ t src rows,
    db_tables d !! table = Some t
    ∧ db_tables d !! (table +:+ "_tmp") = Some src
    ∧ missing_column (column_names (tbl_columns t))
        (column_names (tbl_columns src)) = None
    ∧ db_tables d'
      = delete (table +:+ "_tmp")
          (<[table := Table (tbl_columns t) (tbl_pkey t) rows]>
             (db_tables d)).
Proof.
  unfold copy_one, columns_of, lookup_table.
  destruct (db_tables d !! (table +:+ "_tmp")) as [src|] eqn:Hs; [|done].
  cbn [mbind res_bind]. unfold insert_select, lookup_table.
  destruct (db_tables d !! table) as [t|] eqn:Ht; [|done].
  cbn [mbind res_bind].
  destruct (missing_column _ _) eqn:Hm; [done|]. rewrite Hs.
  cbn [mbind res_bind]. destruct (negb _); [done|].
  destruct (append_rows _ _ _ _ _) as [rows|]; [|done].
  cbn [mbind res_bind]. unfold drop_table, lookup_table. cbn [db_tables].
  destruct (<[table:=_]> (db_tables d) !! (table +:+ "_tmp")); [|done].
  cbn [mbind res_bind]. intros [= <-]. by exists t, src, rows.
Qed.

(** A copy round cannot succeed when the renamed table has a column that
    the new table lacks. *)
Lemma copy_one_extra_column (table c : string) (cols : list column)
    (pk : list string) (rows : list (list value)) (src : Sql.table)
    (d : database) :
  db_tables d !! table = Some (Table cols pk rows) →
  db_tables d !! (table +:+ "_tmp") = Some src →
  c ∈ column_names (tbl_columns src) → has_column cols c = false →
  ∃ e, copy_one table d = Err e.
Proof.
  intros Ht Hs Hc Hn. destruct (copy_one table d) as [d'|e] eqn:E; [|eauto].
  apply copy_one_inv in E as (t & src' & rows' & Ht' & Hs' & Hm & _).
  rewrite Ht in Ht'. rewrite Hs in Hs'. injection Ht' as <-.
  injection Hs' as <-. exfalso.
  apply (missing_column_None_inv _ _ c Hm) in Hc. cbn [tbl_columns] in Hc.
  unfold has_column in Hn. congruence.
Qed.

(** The round of the second loop for such a table: the [INSERT] is refused
    for the first column that the new table lacks. *)
Lemma copy_round_refused (table c : string) (rest : list string)
    (new src : Sql.table) (s : SQLiteDB) :
  db_tables (DB s) !! table = Some new →
  db_tables (DB s) !! (table +:+ "_tmp") = Some src →
  c ∈ column_names (tbl_columns src) →
  has_column (tbl_columns new) c = false →
  hd false (faults s) = false → hd false (tail (faults s)) = false →
  ∃ c', c' ∈ column_names (tbl_columns src)
        ∧ has_column (tbl_columns new) c' = false
        ∧ (copy_tables (table :: rest) s).1
          = Some (ErrWrap (ErrNoSuchColumn table c') "INSERT failed").
Proof.
  intros Hn Hs Hc Hno Hf1 Hf2.
  destruct (missing_column_Some (column_names (tbl_columns new))
              (column_names (tbl_columns src)) c Hc Hno)
    as (c' & Hm & Hc' & Hno').
  exists c'. split; [done|]. split; [done|].
  cbn [copy_tables]. unfold mbind at 1, M_bind at 1.
  rewrite query_run_ok by done.
  unfold columns_of at 1, lookup_table at 1. rewrite Hs.
  cbn [mbind res_bind]. unfold mbind at 1, M_bind at 1.
  rewrite exec_run_ok by done. cbn [DB].
  unfold insert_select, lookup_table. rewrite Hn. cbn [mbind res_bind].
  by rewrite Hm.
Qed.

(** C6, as the code has it. When a managed table, its columns of plain
    names, has a column whose name, whatever the case of its letters, the
    schema does not give that table (a renamed column), the column is not
    dropped: [Migrate] returns an error and leaves the database as it was. The error comes from the
    second loop at the latest: a round that finds the new table and the
    renamed one, and that no storage failure hits, has its [INSERT]
    refused for a column the new table lacks, and returns that error as
    [INSERT failed]. *)
Theorem Migrate_fails_on_renamed_column (s : SQLiteDB)
    (m : string * list column * list string) (t : Sql.table) (c : string) :
  m ∈ managed →
  db_tables (DB s) !! m.1.1 = Some t → plain_columns t = true →
  c ∈ column_names (tbl_columns t) → has_column m.1.2 c = false →
  (Migrate s).1 ≠ None ∧ DB (Migrate s).2 = DB s
  ∧ ∀ (s' : SQLiteDB) (rest : list string) (rows : list (list value)),
      db_tables (DB s') !! m.1.1 = Some (Table m.1.2 m.2 rows) →
      db_tables (DB s') !! (m.1.1 +:+ "_tmp") = Some t →
      hd false (faults s') = false → hd false (tail (faults s')) = false →
      ∃ c', c' ∈ column_names (tbl_columns t)
            ∧ has_column m.1.2 c' = false
            ∧ (copy_tables (m.1.1 :: rest) s').1
              = Some (ErrWrap (ErrNoSuchColumn m.1.1 c') "INSERT failed").
Proof.
  intros Hm Ht _ Hc Hn.
  assert (Hround : ∀ (s' : SQLiteDB) (rest : list string)
                     (rows : list (list value)),
    db_tables (DB s') !! m.1.1 = Some (Table m.1.2 m.2 rows) →
    db_tables (DB s') !! (m.1.1 +:+ "_tmp") = Some t →
    hd false (faults s') = false → hd false (tail (faults s')) = false →
    ∃ c', c' ∈ column_names (tbl_columns t)
          ∧ has_column m.1.2 c' = false
          ∧ (copy_tables (m.1.1 :: rest) s').1
            = Some (ErrWrap (ErrNoSuchColumn m.1.1 c') "INSERT failed")).
  { intros s' rest rows Hnew Htmp Hf1 Hf2.
    exact (copy_round_refused m.1.1 c rest _ t s' Hnew Htmp Hc Hn Hf1 Hf2). }
  destruct (Migrate s).1 as [e|] eqn:E.
  { split; [done|]. split; [|exact Hround].
    by eapply Migrate_error_rolls_back. }
  exfalso. clear Hround.
  apply Migrate_None in E as (d1 & d2 & d3 & d4 & E1 & E2 & E3 & E4).
  pose proof (keeps_run_script _ keeps_schema _ _ E1) as K1.
  apply renames_inv in E2 as (ta & tu & tb & Ha & Hu & Hb & T2).
  apply creates_inv in E3 as [K3 C3].
  apply K1 in Ht. revert E4. cbn [map tables run_script].
  pose proof (C3 m Hm) as Hnew.
  apply list_elem_of_In in Hm. unfold managed in Hm. simpl in Hm.
  destruct Hm as [<- | [<- | [<- | []]]]; cbn [fst snd] in *.
  - assert (Htmp : db_tables d3 !! ("account" +:+ "_tmp") = Some t).
    { apply K3. rewrite T2. unfold renamed.
      cbv beta iota delta [String.append]. look. congruence. }
    destruct (copy_one_extra_column "account" c _ _ _ _ _
                (Hnew ltac:(rewrite T2; unfold renamed; look)) Htmp Hc Hn)
      as [e ->]. done.
  - assert (Htmp : db_tables d3 !! ("user" +:+ "_tmp") = Some t).
    { apply K3. rewrite T2. unfold renamed.
      cbv beta iota delta [String.append]. look. congruence. }
    specialize (Hnew ltac:(rewrite T2; unfold renamed; look)).
    destruct (copy_one "account" d3) as [d5|] eqn:E5; [|done].
    apply copy_one_inv in E5 as (t5 & s5 & r5 & _ & _ & _ & T5).
    cbn [mbind res_bind].
    destruct (copy_one_extra_column "user" c user_columns
                ["user_id"; "login_key"] [] t d5) as [e ->]; try done;
      rewrite T5; cbv beta iota delta [String.append] in *; by look.
  - assert (Htmp : db_tables d3 !! ("battle_record" +:+ "_tmp") = Some t).
    { apply K3. rewrite T2. unfold renamed.
      cbv beta iota delta [String.append]. look. congruence. }
    specialize (Hnew ltac:(rewrite T2; unfold renamed; look)).
    destruct (copy_one "account" d3) as [d5|] eqn:E5; [|done].
    apply copy_one_inv in E5 as (t5 & s5 & r5 & _ & _ & _ & T5).
    cbn [mbind res_bind].
    destruct (copy_one "user" d5) as [d6|] eqn:E6; [|done].
    apply copy_one_inv in E6 as (t6 & s6 & r6 & _ & _ & _ & T6).
    cbn [mbind res_bind].
    destruct (copy_one_extra_column "battle_record" c battle_record_columns
                ["battle_code"; "user_id"] [] t d6) as [e ->]; try done;
      rewrite T6, T5; cbv beta iota delta [String.append] in *; by look.
Qed.

Lemma Migrate_fails_on_renamed_column_witness :
  let m := ("account", account_columns, ["login_key"]) in
  let t := Table old_account_columns ["login_key"]
             [[VText "K1"; VText ""; VText ""; VText "1.2.3.4"; VTime 40;
               VTime 40; VInt 0]] in
  let s' := mkSQLiteDB
              (Database
                 (<["account_tmp" := t]>
                    (<["account" := Table account_columns ["login_key"] []]>
                       ∅)) ∅)
              NewSQLiteCache [] in
  m ∈ managed
  ∧ db_tables (DB old_store) !! "account" = Some t
  ∧ plain_columns t = true
  ∧ ("ip" ∈ column_names (tbl_columns t))
  ∧ has_column account_columns "ip" = false
  ∧ (Migrate old_store).1 ≠ None
  ∧ DB (Migrate old_store).2 = DB old_store
  ∧ ∃ c', c' ∈ column_names (tbl_columns t)
          ∧ has_column account_columns c' = false
          ∧ (copy_tables ["account"; "user"; "battle_record"] s').1
            = Some (ErrWrap (ErrNoSuchColumn "account" c') "INSERT failed").
Proof.
  intros m t s'.
  assert (H1 : m ∈ managed) by (unfold managed; repeat constructor).
  assert (H2 : db_tables (DB old_store) !! m.1.1 = Some t)
    by (vm_compute; reflexivity).
  assert (H3 : "ip" ∈ column_names (tbl_columns t))
    by (apply (bool_decide_unpack _); vm_compute; exact I).
  assert (H4 : has_column m.1.2 "ip" = false) by (vm_compute; reflexivity).
  assert (H5 : db_tables (DB s') !! m.1.1 = Some (Table m.1.2 m.2 []))
    by (vm_compute; reflexivity).
  assert (H6 : db_tables (DB s') !! (m.1.1 +:+ "_tmp") = Some t)
    by (vm_compute; reflexivity).
  pose proof (Migrate_fails_on_renamed_column old_store m t "ip" H1 H2
                eq_refl H3 H4) as (R1 & R2 & R3).
  split; [exact H1|]. split; [exact H2|]. split; [reflexivity|].
  split; [exact H3|].
  split; [exact H4|]. split; [exact R1|]. split; [exact R2|].
  exact (R3 s' ["user"; "battle_record"] [] H5 H6 eq_refl eq_refl).
Defined.

(** C6, as stated, fails: with the column [ip] of the old [account] table
    renamed to [created_ip] in the schema, and no storage failure,
    [Migrate] does not succeed with the column dropped: its [INSERT] is
    refused, it returns that error, and the database is as before. *)
Lemma Migrate_renamed_column_is_an_error :
  faults old_store = []
  ∧ (Migrate old_store).1
    = Some (ErrWrap (ErrNoSuchColumn "account" "ip") "INSERT failed")
  ∧ DB (Migrate old_store).2 = DB old_store.
Proof. vm_compute. repeat split. Qed.

(** ** Rankings *)

Lemma res_mapM_Forall2 {A B} (f : A → res B) (xs : list A) (ys : list B) :
  res_mapM f xs = Ok ys → Forall2 (λ x y, f x = Ok y) xs ys.
Proof.
  revert ys. induction xs as [|x xs IH]; intros ys; cbn [res_mapM].
  - intros [= <-]. constructor.
  - destruct (f x) as [y|] eqn:E; [|done]. cbn [mbind res_bind].
    destruct (res_mapM f xs) as [ys'|]; [|done]. cbn [mbind res_bind].
    intros [= <-]. constructor; auto.
Qed.

Lemma StronglySorted_Forall2 {A B} (R : A → B → Prop) (P : relation A)
    (Q : relation B) (xs : list A) (ys : list B) :
  Forall2 R xs ys → StronglySorted P xs →
  (∀ x x' y y', x ∈ xs → x' ∈ xs → R x y → R x' y' → P x x' → Q y y') →
  StronglySorted Q ys.
Proof.
  induction 1 as [|x y xs ys Hxy HF IH]; intros HS HPQ; [constructor|].
  apply StronglySorted_inv in HS as [HS Hx]. constructor.
  - apply IH; [done|]. intros ???? ? ?. apply HPQ; by right.
  - apply Forall_forall. intros y' Hy'.
    apply (list_elem_of_lookup_1 ys) in Hy' as [i Hi].
    destruct (Forall2_lookup_r _ _ _ _ _ HF Hi) as (x' & Hx' & HR).
    apply list_elem_of_lookup_2 in Hx'.
    eapply HPQ; [by left | by right | done | done |].
    by eapply (proj1 (Forall_forall _ _) Hx).
Qed.

(** The more rows sort before a row, the higher its rank. *)
Lemma filter_length_le {A} (p q : A → bool) (l : list A) :
  (∀ x, p x = true → q x = true) →
  (length (List.filter p l) ≤ length (List.filter q l))%nat.
Proof.
  intros H. induction l as [|x l IH]; [done|]. cbn [List.filter].
  destruct (p x) eqn:Hp.
  - rewrite (H x Hp). cbn. lia.
  - destruct (q x); cbn; lia.
Qed.

Lemma filter_length_lt {A} (p q : A → bool) (l : list A) (y : A) :
  (∀ x, p x = true → q x = true) →
  y ∈ l → p y = false → q y = true →
  (length (List.filter p l) < length (List.filter q l))%nat.
Proof.
  intros H Hy Hp Hq. induction l as [|x l IH]; [by apply elem_of_nil in Hy|].
  cbn [List.filter]. apply elem_of_cons in Hy as [<- | Hy].
  - rewrite Hp, Hq. cbn. pose proof (filter_length_le p q l H). lia.
  - specialize (IH Hy). destruct (p x) eqn:Hpx.
    + rewrite (H x Hpx). cbn. lia.
    + destruct (q x); cbn; lia.
Qed.

Lemma rank_of_int_lt (names : list string) (target : string)
    (rows : list (list value)) (r1 r2 : list value) (c1 c2 : Z) :
  key_of names r1 target = VInt c1 → key_of names r2 target = VInt c2 →
  r2 ∈ rows → c1 < c2 →
  rank_of names target rows r2 < rank_of names target rows r1.
Proof.
  intros H1 H2 Hin Hlt. unfold rank_of. unfold key_of in *. rewrite H1, H2.
  apply Z.add_lt_mono_l, Nat2Z.inj_lt.
  apply (filter_length_lt _ _ rows r2); [| done | |].
  - intros x. destruct (default VNull (row_get names x target));
      unfold value_lt; cbn [class_of]; rewrite ?Z.ltb_lt; lia.
  - rewrite H2. apply Z.ltb_irrefl.
  - rewrite H2. by apply Z.ltb_lt.
Qed.

Lemma rank_of_same_key (names : list string) (target : string)
    (rows : list (list value)) (r1 r2 : list value) :
  key_of names r1 target = key_of names r2 target →
  rank_of names target rows r1 = rank_of names target rows r2.
Proof. unfold rank_of, key_of. by intros ->. Qed.

#[local] Instance by_rank_total rank : Total (by_rank rank).
Proof. intros a b. unfold by_rank. lia. Qed.

#[local] Instance by_rank_trans rank : Transitive (by_rank rank).
Proof. intros a b c. unfold by_rank. lia. Qed.

(** A row of nineteen values that scans into a ranking record holds the
    fields of the record. *)
Lemma scan_ranking_record_inv (v0 v1 v2 v3 v4 v5 v6 v7 v8 v9 v10 v11 v12 v13
    v14 v15 v16 v17 v18 : value) (u : RankingRecord) :
  scan_ranking_record ("rank" :: ranking_columns)
    [v0; v1; v2; v3; v4; v5; v6; v7; v8; v9; v10; v11; v12; v13; v14; v15;
     v16; v17; v18] = Ok u →
  [v0; v1; v2; v3; v4; v5; v6; v7; v8; v9; v10; v11; v12; v13; v14; v15;
   v16; v17; v18] = row_of_ranking u.
Proof.
  intros H.
  destruct v0; try (vm_compute in H; discriminate H).
  destruct v1; try (vm_compute in H; discriminate H).
  destruct v2; try (vm_compute in H; discriminate H).
  destruct v3; try (vm_compute in H; discriminate H).
  destruct v4; try (vm_compute in H; discriminate H).
  destruct v5; try (vm_compute in H; discriminate H).
  destruct v6; try (vm_compute in H; discriminate H).
  destruct v7; try (vm_compute in H; discriminate H).
  destruct v8; try (vm_compute in H; discriminate H).
  destruct v9; try (vm_compute in H; discriminate H).
  destruct v10; try (vm_compute in H; discriminate H).
  destruct v11; try (vm_compute in H; discriminate H).
  destruct v12; try (vm_compute in H; discriminate H).
  destruct v13; try (vm_compute in H; discriminate H).
  destruct v14; try (vm_compute in H; discriminate H).
  destruct v15; try (vm_compute in H; discriminate H).
  destruct v16; try (vm_compute in H; discriminate H).
  destruct v17; try (vm_compute in H; discriminate H).
  destruct v18; try (vm_compute in H; discriminate H).
  vm_compute in H. injection H as <-. reflexivity.
Qed.

(** What the scanning loop makes of one row of the ranking query. *)
Lemma ranked_row_scanned (names : list string) (r : list value) (rk : Z)
    (target : string) (u : RankingRecord) :
  target ∈ targets →
  sanitize <$> scan_ranking_record ("rank" :: ranking_columns)
                 (VInt rk :: map (λ c, default VNull (row_get names r c))
                                 ranking_columns) = Ok u →
  Rank u = rk ∧ key_of names r target = VInt (counter_of target u).
Proof.
  intros Ht. destruct (scan_ranking_record _ _) as [u0|] eqn:E; [|done].
  cbn [fmap res_fmap]. intros [= <-]. cbn [map ranking_columns] in E.
  apply scan_ranking_record_inv in E. cbv [row_of_ranking app] in E.
  injection E; clear E; intros. revert target Ht. apply Forall_forall.
  unfold key_of. repeat constructor; cbn; congruence.
Qed.

(** The result of the ranking query, scanned, is a leaderboard for the
    column it was ordered by. *)
Lemma select_ranked_leaderboard (target : string) (db : database)
    (l : list RankingRecord) :
  target ∈ targets →
  select_ranked "user" target ranking_columns 100 db
  ≫= scan_each (λ names row, sanitize <$> scan_ranking_record names row)
  = Ok l →
  leaderboard (counter_of target) l.
Proof.
  intros Ht. unfold select_ranked, lookup_table.
  destruct (db_tables db !! "user") as [t|]; [|done]. cbn [mbind res_bind].
  destruct (missing_column _ _); [done|]. cbn [mbind res_bind].
  unfold scan_each. cbn [fst snd].
  set (names := column_names (tbl_columns t)).
  set (rank := rank_of names target (tbl_rows t)).
  set (top := take 100 (merge_sort (by_rank rank) (tbl_rows t))).
  intros H. apply res_mapM_Forall2, Forall2_fmap_l in H.
  assert (HF : Forall2 (λ r u, Rank u = rank r
                 ∧ key_of names r target = VInt (counter_of target u)) top l).
  { eapply Forall2_impl; [exact H|]. intros r u Hs.
    by apply ranked_row_scanned. }
  clear H.
  assert (Hin : ∀ r, r ∈ top → r ∈ tbl_rows t).
  { intros r Hr.
    rewrite <- (merge_sort_Permutation (by_rank rank) (tbl_rows t)).
    by eapply sublist_subseteq; [apply sublist_take|]. }
  assert (Hsorted : StronglySorted (by_rank rank) top).
  { pose proof (StronglySorted_merge_sort (by_rank rank) (tbl_rows t)) as HS.
    rewrite <- (take_drop 100) in HS. by apply StronglySorted_app_1_l in HS. }
  split; [|split].
  - rewrite <- (Forall2_length _ _ _ HF). unfold top. rewrite length_take. lia.
  - eapply StronglySorted_Forall2; [exact HF | exact Hsorted |].
    intros x x' y y' Hx Hx' [_ Hk] [_ Hk'] Hle. unfold by_rank in Hle.
    destruct (Z.le_gt_cases (counter_of target y') (counter_of target y))
      as [|Hlt]; [done|].
    pose proof (rank_of_int_lt names target (tbl_rows t) x x' _ _ Hk Hk'
                  (Hin _ Hx') ltac:(lia)). unfold rank in Hle. lia.
  - intros a b Ha Hb Heq.
    apply list_elem_of_lookup_1 in Ha as [i Hi], Hb as [j Hj].
    destruct (Forall2_lookup_r _ _ _ _ _ HF Hi) as (x & _ & -> & Hk).
    destruct (Forall2_lookup_r _ _ _ _ _ HF Hj) as (x' & _ & -> & Hk').
    apply rank_of_same_key. congruence.
Qed.

(** *** Cache keys *)

Lemma string_of_int_inj (a b : Z) :
  NilZero.string_of_int (Z.to_int a) = NilZero.string_of_int (Z.to_int b) →
  a = b.
Proof.
  intros H.
  assert (Hnil : ∀ z, Z.to_int z ≠ Decimal.Pos Decimal.Nil
                      ∧ Z.to_int z ≠ Decimal.Neg Decimal.Nil).
  { intros [|p|p]; cbn; split; try discriminate; intros [= Hp];
      by apply DecimalPos.Unsigned.to_uint_nonnil in Hp. }
  apply (f_equal NilZero.int_of_string) in H.
  rewrite !NilZero.isi in H by apply Hnil. injection H as H.
  apply (f_equal Z.of_int) in H. by rewrite !DecimalZ.of_to in H.
Qed.

Lemma Sprint_win_inj (a b : Z) : Sprint "win" a = Sprint "win" b → a = b.
Proof.
  unfold Sprint. cbv beta iota delta [String.append]. intros [= H].
  by apply string_of_int_inj.
Qed.

Lemma Sprint_kill_inj (a b : Z) : Sprint "kill" a = Sprint "kill" b → a = b.
Proof.
  unfold Sprint. cbv beta iota delta [String.append]. intros [= H].
  by apply string_of_int_inj.
Qed.

Lemma Sprint_win_kill (a b : Z) : Sprint "win" a ≠ Sprint "kill" b.
Proof. unfold Sprint. cbv beta iota delta [String.append]. discriminate. Qed.

(** *** The two methods *)

Lemma win_target_counter (side : Z) :
  win_target side ∈ targets
  ∧ counter_of (win_target side) = win_counter side.
Proof.
  unfold win_target, win_counter, targets.
  destruct (Z.eqb side 1); [|destruct (Z.eqb side 2)];
    (split; [apply (bool_decide_unpack _); vm_compute; exact I | done]).
Qed.

Lemma kill_target_counter (side : Z) :
  kill_target side ∈ targets
  ∧ counter_of (kill_target side) = kill_counter side.
Proof.
  unfold kill_target, kill_counter, targets.
  destruct (Z.eqb side 1); [|destruct (Z.eqb side 2)];
    (split; [apply (bool_decide_unpack _); vm_compute; exact I | done]).
Qed.

(** A ranking that is not served from the cache is a leaderboard for the
    column of the query. *)
Lemma ranking_fresh (cacheKey target : string) (s : SQLiteDB)
    (l : list RankingRecord) :
  target ∈ targets → rankingCache s !! cacheKey = None →
  (ranking cacheKey target s).1 = Ok l →
  leaderboard (counter_of target) l.
Proof.
  intros Ht Hnone. unfold ranking, mbind, M_bind, cache_lookup.
  rewrite Hnone.
  destruct (query_cases (select_ranked "user" target ranking_columns 100) s)
    as [(r & _ & E) | [_ E]]; rewrite E; [done|].
  destruct (res_bind _ _ _ _) as [l'|] eqn:El; [|done].
  cbn. intros [= <-]. by eapply select_ranked_leaderboard.
Qed.

Lemma ranking_cache_ok (cacheKey target : string) (s : SQLiteDB) :
  target ∈ targets →
  (∀ l, rankingCache s !! cacheKey = Some l →
        leaderboard (counter_of target) l) →
  ∀ l, (ranking cacheKey target s).1 = Ok l →
       leaderboard (counter_of target) l.
Proof.
  intros Ht Hc l Hl.
  destruct (rankingCache s !! cacheKey) as [l0|] eqn:E.
  - revert Hl. unfold ranking, mbind, M_bind, cache_lookup. rewrite E.
    cbn. intros [= <-]. by apply Hc.
  - by eapply ranking_fresh.
Qed.

(** Every call keeps the cache a cache of leaderboards. *)
Lemma cache_ok_after (c : call) (s : SQLiteDB) :
  cache_ok (rankingCache s) → cache_ok (rankingCache (after c s)).
Proof.
  intros Hok. pose proof (stable_after c s) as Hst.
  destruct c; try (by rewrite Hst); cbn [after].
  - unfold UpdateBattleRecord, mbind, M_bind.
    match goal with |- context [exec ?q s] =>
      pose proof (stable_exec q s) as Hq; destruct (exec q s) as [err s1] end.
    cbn [snd] in Hq. destruct (_ && _); cbn; [|by rewrite Hq].
    intros side l. by rewrite !lookup_empty.
  - unfold GetWinCountRanking. fold (win_target side).
    destruct (win_target_counter side) as [Ht Hc].
    destruct (ranking_cache (Sprint "win" side) (win_target side) s)
      as [E | (Hnone & l & Hl & E)]; rewrite E; [done|].
    apply (ranking_fresh _ _ _ _ Ht Hnone) in Hl. rewrite Hc in Hl.
    intros side' l'. split; intros Hl'.
    + destruct (decide (side' = side)) as [->|Hne].
      * rewrite lookup_insert_eq in Hl'. by injection Hl' as <-.
      * rewrite lookup_insert_ne in Hl'; [by apply Hok|].
        intros Heq. by apply Sprint_win_inj in Heq.
    + rewrite lookup_insert_ne in Hl'; [by apply Hok|]. apply Sprint_win_kill.
  - unfold GetKillCountRanking. fold (kill_target side).
    destruct (kill_target_counter side) as [Ht Hc].
    destruct (ranking_cache (Sprint "kill" side) (kill_target side) s)
      as [E | (Hnone & l & Hl & E)]; rewrite E; [done|].
    apply (ranking_fresh _ _ _ _ Ht Hnone) in Hl. rewrite Hc in Hl.
    intros side' l'. split; intros Hl'.
    + rewrite lookup_insert_ne in Hl'; [by apply Hok|].
      intros Heq. symmetry in Heq. by apply Sprint_win_kill in Heq.
    + destruct (decide (side' = side)) as [->|Hne].
      * rewrite lookup_insert_eq in Hl'. by injection Hl' as <-.
      * rewrite lookup_insert_ne in Hl'; [by apply Hok|].
        intros Heq. by apply Sprint_kill_inj in Heq.
Qed.

Lemma reachable_cache_ok (s : SQLiteDB) :
  reachable s → cache_ok (rankingCache s).
Proof.
  induction 1 as [d fs | c s _ IH].
  - intros side l. cbn. unfold NewSQLiteCache. by rewrite !lookup_empty.
  - by apply cache_ok_after.
Qed.

Lemma reachable_serve (calls : list call) (s : SQLiteDB) :
  reachable s → reachable (serve calls s).
Proof.
  revert s. induction calls as [|c calls IH]; intros s Hs; [done|].
  cbn [serve foldl]. apply IH. by constructor.
Qed.

(** C7. In every store a process can reach, a ranking that
    [GetWinCountRanking] or [GetKillCountRanking] returns, from the cache or
    from the query, has at most 100 entries, is in descending order of the
    win (kill) counter of the side asked for, and gives entries with equal
    counters the same rank. *)
Theorem rankings_are_leaderboards (s : SQLiteDB) (side : Z)
    (l : list RankingRecord) :
  reachable s →
  ((GetWinCountRanking side s).1 = Ok l → leaderboard (win_counter side) l)
  ∧ ((GetKillCountRanking side s).1 = Ok l →
     leaderboard (kill_counter side) l).
Proof.
  intros Hs. apply reachable_cache_ok in Hs. split; intros Hl.
  - destruct (win_target_counter side) as [Ht Hc]. rewrite <- Hc.
    eapply ranking_cache_ok; [exact Ht | | exact Hl].
    intros l0 Hl0. rewrite Hc. by apply Hs.
  - destruct (kill_target_counter side) as [Ht Hc]. rewrite <- Hc.
    eapply ranking_cache_ok; [exact Ht | | exact Hl].
    intros l0 Hl0. rewrite Hc. by apply Hs.
Qed.

Lemma rankings_are_leaderboards_witness :
  reachable sample_store
  ∧ ∃ l, (GetWinCountRanking 1 sample_store).1 = Ok l
         ∧ map Ranking_UserID l = ["U1"; "U2"]
         ∧ map Rank l = [1; 2]
         ∧ leaderboard (win_counter 1) l.
Proof.
  assert (H : reachable sample_store)
    by (apply reachable_serve; constructor).
  split; [exact H|]. eexists.
  split; [vm_compute; reflexivity|]. split; [reflexivity|].
  split; [reflexivity|].
  apply (rankings_are_leaderboards sample_store 1 _ H).
  vm_compute; reflexivity.
Defined.

(** On a miss, what [ranking] returns does not depend on the key. *)
Lemma ranking_fresh_result (key1 key2 target : string) (s : SQLiteDB) :
  rankingCache s !! key1 = None → rankingCache s !! key2 = None →
  (ranking key1 target s).1 = (ranking key2 target s).1.
Proof.
  intros H1 H2. unfold ranking, mbind, M_bind, cache_lookup. rewrite H1, H2.
  destruct (query _ s) as [rows s1].
  by destruct (res_bind _ _ _ rows).
Qed.

Lemma ranking_fresh_stored (cacheKey target : string) (s : SQLiteDB)
    (l : list RankingRecord) :
  rankingCache s !! cacheKey = None →
  (ranking cacheKey target s).1 = Ok l →
  rankingCache (ranking cacheKey target s).2 !! cacheKey = Some l.
Proof.
  intros Hnone Hl.
  destruct (ranking_cache cacheKey target s) as [E | (_ & l' & Hl' & E)].
  - exfalso. revert Hl E. unfold ranking, mbind, M_bind, cache_lookup.
    rewrite Hnone.
    pose proof (stable_query
                  (select_ranked "user" target ranking_columns 100) s) as Hq.
    destruct (query _ s) as [rows s1]. cbn [snd] in Hq.
    destruct (res_bind _ _ _ rows) as [l0|]; [|done].
    cbn. intros _ E. rewrite Hq in E.
    apply (f_equal (λ m, m !! cacheKey)) in E.
    rewrite lookup_insert_eq in E. congruence.
  - rewrite E, lookup_insert_eq. congruence.
Qed.

(** C10. For a side other than 1 and 2, both ranking methods order by the
    overall counter: when neither key is cached they return what they
    return for side 0, a leaderboard of the overall win (kill) counter; and
    they store it under the key of that side, which no other side has. *)
Theorem other_sides_rank_overall (s : SQLiteDB) (side : Z) :
  side ≠ 1 → side ≠ 2 →
  (rankingCache s !! Sprint "win" side = None →
   (rankingCache s !! Sprint "win" 0 = None →
    (GetWinCountRanking side s).1 = (GetWinCountRanking 0 s).1)
   ∧ ∀ l, (GetWinCountRanking side s).1 = Ok l →
       leaderboard (λ u, WinCount (Ranking_All u)) l
       ∧ rankingCache (GetWinCountRanking side s).2 !! Sprint "win" side
         = Some l)
  ∧ (rankingCache s !! Sprint "kill" side = None →
     (rankingCache s !! Sprint "kill" 0 = None →
      (GetKillCountRanking side s).1 = (GetKillCountRanking 0 s).1)
     ∧ ∀ l, (GetKillCountRanking side s).1 = Ok l →
         leaderboard (λ u, KillCount (Ranking_All u)) l
         ∧ rankingCache (GetKillCountRanking side s).2 !! Sprint "kill" side
           = Some l)
  ∧ ∀ side', side' ≠ side →
      Sprint "win" side' ≠ Sprint "win" side
      ∧ Sprint "kill" side' ≠ Sprint "kill" side.
Proof.
  intros H1 H2. unfold GetWinCountRanking, GetKillCountRanking.
  apply Z.eqb_neq in H1, H2. rewrite H1, H2. cbn [Z.eqb].
  split; [|split].
  - intros Hnone. split; [intros H0; by apply ranking_fresh_result|].
    intros l Hl. split; [|by apply ranking_fresh_stored].
    apply (ranking_fresh _ "win_count" s l) in Hl; [done | | done].
    apply (bool_decide_unpack _). vm_compute. exact I.
  - intros Hnone. split; [intros H0; by apply ranking_fresh_result|].
    intros l Hl. split; [|by apply ranking_fresh_stored].
    apply (ranking_fresh _ "kill_count" s l) in Hl; [done | | done].
    apply (bool_decide_unpack _). vm_compute. exact I.
  - intros side' Hne. split; intros Heq; apply Hne.
    + by apply Sprint_win_inj.
    + by apply Sprint_kill_inj.
Qed.

Lemma other_sides_rank_overall_witness :
  let s := sample_store in
  (7 ≠ 1) ∧ (7 ≠ 2)
  ∧ rankingCache s !! Sprint "win" 7 = None
  ∧ rankingCache s !! Sprint "win" 0 = None
  ∧ (GetWinCountRanking 7 s).1 = (GetWinCountRanking 0 s).1
  ∧ (∃ l, (GetWinCountRanking 7 s).1 = Ok l
          ∧ map Ranking_UserID l = ["U1"; "U2"]
          ∧ leaderboard (λ u, WinCount (Ranking_All u)) l
          ∧ rankingCache (GetWinCountRanking 7 s).2 !! "win7" = Some l)
  ∧ Sprint "win" 0 ≠ Sprint "win" 7.
Proof.
  intros s.
  assert (H1 : 7 ≠ 1) by lia. assert (H2 : 7 ≠ 2) by lia.
  assert (N7 : rankingCache s !! Sprint "win" 7 = None)
    by (vm_compute; reflexivity).
  assert (N0 : rankingCache s !! Sprint "win" 0 = None)
    by (vm_compute; reflexivity).
  destruct (other_sides_rank_overall s 7 H1 H2) as (Hw & _ & Hk).
  destruct (Hw N7) as [Hsame Hl].
  split; [exact H1|]. split; [exact H2|]. split; [exact N7|].
  split; [exact N0|]. split; [exact (Hsame N0)|]. split.
  - eexists. split; [vm_compute; reflexivity|].
    split; [vm_compute; reflexivity|].
    split; [apply Hl | apply Hl]; vm_compute; reflexivity.
  - apply (Hk 0). lia.
Defined.

(** * Further properties of the store *)

(** ** Statements on tables that hold records *)

Lemma filter_map_rows {A} (f : A → list value) (p : list value → bool)
    (q : A → bool) (l : list A) :
  (∀ x, p (f x) = q x) → List.filter p (map f l) = map f (List.filter q l).
Proof.
  intros H. induction l as [|x l IH]; [done|]. cbn [map List.filter].
  rewrite H. destruct (q x); cbn [map]; by rewrite IH.
Qed.

Lemma existsb_map_rows {A} (f : A → list value) (p : list value → bool)
    (q : A → bool) (l : list A) :
  (∀ x, p (f x) = q x) → existsb p (map f l) = existsb q l.
Proof.
  intros H. induction l as [|x l IH]; [done|]. cbn [map existsb].
  by rewrite H, IH.
Qed.

Lemma map_map_rows {A} (f : A → list value) (g : list value → list value)
    (h : A → A) (l : list A) :
  (∀ x, g (f x) = f (h x)) → map g (map f l) = map f (map h l).
Proof.
  intros H. induction l as [|x l IH]; [done|]. cbn [map]. by rewrite H, IH.
Qed.

Lemma insert_values_table tname cols pk rows cs vs db :
  db_tables db !! tname = Some (Table cols pk rows) →
  missing_column (column_names cols) cs = None →
  insert_values tname cs vs db
  = if key_taken (column_names cols) pk rows (build_row cols cs vs)
    then Err (ErrConstraint tname)
    else Ok (set_table tname
               (Table cols pk (rows ++ [build_row cols cs vs])) db).
Proof.
  intros Ht Hm. unfold insert_values, lookup_table. rewrite Ht.
  cbn [mbind res_bind tbl_columns tbl_pkey tbl_rows]. rewrite Hm.
  cbn [append_rows]. by destruct (key_taken _ _ _ _).
Qed.

Lemma update_table tname cols pk rows sets w db :
  db_tables db !! tname = Some (Table cols pk rows) →
  missing_column (column_names cols) (map fst sets ++ map cond_column w)
  = None →
  update tname sets w db
  = Ok (set_table tname
          (Table cols pk
             (map (λ r, if where_holds (column_names cols) w r
                        then set_columns (column_names cols) sets r else r)
                rows)) db).
Proof.
  intros Ht Hm. unfold update, lookup_table. rewrite Ht.
  cbn [mbind res_bind tbl_columns tbl_pkey tbl_rows]. by rewrite Hm.
Qed.

Lemma select_all_table tname cols pk rows w db :
  db_tables db !! tname = Some (Table cols pk rows) →
  missing_column (column_names cols) (map cond_column w) = None →
  select_all tname w db
  = Ok (column_names cols,
        List.filter (where_holds (column_names cols) w) rows).
Proof.
  intros Ht Hm. unfold select_all, lookup_table. rewrite Ht.
  cbn [mbind res_bind tbl_columns tbl_pkey tbl_rows]. by rewrite Hm.
Qed.

Lemma set_table_same tname t db :
  db_tables db !! tname = Some t → set_table tname t db = db.
Proof.
  intros H. unfold set_table. rewrite insert_id by done. by destruct db.
Qed.

Lemma scan_first_map {A} (scan : list string → list value → res A)
    (row_of : A → list value) (names : list string) (l : list A) :
  (∀ x, scan names (row_of x) = Ok x) →
  scan_first scan (names, map row_of l)
  = match l with [] => Err ErrNoRows | x :: _ => Ok x end.
Proof. intros H. destruct l as [|x l]; [done|]. cbn. apply H. Qed.

Lemma find_filter_head {A} (p : A → bool) (l : list A) :
  match List.filter p l with [] => Err ErrNoRows | x :: _ => Ok x end
  = first_or_no_rows p l.
Proof.
  unfold first_or_no_rows. induction l as [|x l IH]; [done|].
  cbn [List.filter List.find]. by destruct (p x).
Qed.

Lemma scan_each_map {A} (scan : list string → list value → res A)
    (row_of : A → list value) (names : list string) (l : list A) :
  (∀ x, scan names (row_of x) = Ok x) →
  scan_each scan (names, map row_of l) = Ok l.
Proof.
  intros H. unfold scan_each. cbn [fst snd].
  induction l as [|x l IH]; [done|]. cbn [map res_mapM].
  rewrite H. cbn [mbind res_bind]. by rewrite IH.
Qed.

(** ** Accounts *)

Lemma scan_account_row (a : Account) :
  scan_account account_names (row_of_account a) = Ok a.
Proof. by destruct a. Qed.

Lemma where_login_key (key : string) (a : Account) :
  where_holds account_names [CEq "login_key" (VText key)] (row_of_account a)
  = has_login_key key a.
Proof. cbn. by rewrite andb_true_r. Qed.

Lemma same_key_account (key ip : string) (now : Z) (a : Account) :
  same_key account_names ["login_key"] (row_of_account (new_account key ip now))
    (row_of_account a)
  = has_login_key key a.
Proof. cbn. rewrite andb_true_r. apply String.eqb_sym. Qed.

Lemma key_taken_account (key ip : string) (now : Z) (accounts : list Account) :
  key_taken account_names ["login_key"] (map row_of_account accounts)
    (row_of_account (new_account key ip now))
  = existsb (has_login_key key) accounts.
Proof. apply existsb_map_rows. intros a. apply same_key_account. Qed.

Lemma RegisterAccountWithLoginKey_run (key ip : string) (now : Z)
    (s : SQLiteDB) (accounts : list Account) :
  holds_accounts s accounts → hd false (faults s) = false →
  let r := RegisterAccountWithLoginKey now ip key s in
  if existsb (has_login_key key) accounts
  then r.1 = Err (ErrConstraint "account") ∧ DB r.2 = DB s
  else r.1 = Ok (mkAccount key "" "" ip 0 0 0)
       ∧ DB r.2
         = set_table "account"
             (account_table (accounts ++ [new_account key ip now])) (DB s).
Proof.
  intros Ha Hf. unfold RegisterAccountWithLoginKey, mbind, M_bind.
  rewrite exec_run_ok by done.
  rewrite (insert_values_table _ _ _ _ _ _ _ Ha) by reflexivity.
  change (build_row _ _ _) with (row_of_account (new_account key ip now)).
  fold account_names. rewrite key_taken_account.
  destruct (existsb _ accounts); [done|].
  cbn. unfold account_table. by rewrite map_app.
Qed.

(** X1. On an [account] table that holds the accounts [accounts], and
    unless a storage failure hits the statement, both registrations refuse a
    login key that an account already has, with a constraint error and the
    database unchanged; for a new key they store one more account, created
    and last logged in at the time of the call, and return an account that
    carries the key and the address only. *)
Theorem register_account_conflict_or_append (key ip : string) (now : Z)
    (s : SQLiteDB) (accounts : list Account)
    (r : res Account * SQLiteDB) :
  holds_accounts s accounts → hd false (faults s) = false →
  r = RegisterAccount key now ip s
  ∨ r = RegisterAccountWithLoginKey now ip key s →
  if existsb (has_login_key key) accounts
  then r.1 = Err (ErrConstraint "account") ∧ DB r.2 = DB s
  else r.1 = Ok (mkAccount key "" "" ip 0 0 0)
       ∧ DB r.2
         = set_table "account"
             (account_table (accounts ++ [new_account key ip now])) (DB s).
Proof.
  intros Ha Hf [-> | ->];
    exact (RegisterAccountWithLoginKey_run key ip now s accounts Ha Hf).
Qed.

Lemma register_account_conflict_or_append_witness :
  holds_accounts sample_store sample_accounts
  ∧ hd false (faults sample_store) = false
  ∧ ((RegisterAccountWithLoginKey 70 "5.6.7.8" "K1" sample_store).1
     = Err (ErrConstraint "account")
     ∧ DB (RegisterAccountWithLoginKey 70 "5.6.7.8" "K1" sample_store).2
       = DB sample_store)
  ∧ ((RegisterAccount "K2" 70 "5.6.7.8" sample_store).1
     = Ok (mkAccount "K2" "" "" "5.6.7.8" 0 0 0)
     ∧ DB (RegisterAccount "K2" 70 "5.6.7.8" sample_store).2
       = set_table "account"
           (account_table (sample_accounts ++ [new_account "K2" "5.6.7.8" 70]))
           (DB sample_store)).
Proof.
  assert (H : holds_accounts sample_store sample_accounts)
    by (vm_compute; reflexivity).
  split; [exact H|]. split; [reflexivity|]. split.
  - exact (register_account_conflict_or_append "K1" "5.6.7.8" 70 sample_store
             sample_accounts _ H eq_refl (or_intror eq_refl)).
  - exact (register_account_conflict_or_append "K2" "5.6.7.8" 70 sample_store
             sample_accounts _ H eq_refl (or_introl eq_refl)).
Defined.

Lemma GetAccountByLoginKey_run (key : string) (s : SQLiteDB)
    (accounts : list Account) :
  holds_accounts s accounts → hd false (faults s) = false →
  (GetAccountByLoginKey key s).1
  = first_or_no_rows (has_login_key key) accounts
  ∧ DB (GetAccountByLoginKey key s).2 = DB s.
Proof.
  intros Ha Hf. unfold GetAccountByLoginKey. rewrite query_run_ok by done.
  split; [|done]. cbn [fst].
  rewrite (select_all_table _ _ _ _ _ _ Ha) by reflexivity.
  cbn [mbind res_bind]. fold account_names.
  rewrite (filter_map_rows _ _ _ _ (where_login_key key)).
  rewrite (scan_first_map _ _ _ _ scan_account_row).
  apply find_filter_head.
Qed.

(** X2. On an [account] table that holds [accounts], and unless a storage
    failure hits the query, [GetAccountByLoginKey] returns the first account
    with that login key, exactly as stored, and [sql.ErrNoRows] when there
    is none; the database stays as it is. *)
Theorem GetAccountByLoginKey_finds (key : string) (s : SQLiteDB)
    (accounts : list Account) :
  holds_accounts s accounts → hd false (faults s) = false →
  (GetAccountByLoginKey key s).1
  = first_or_no_rows (has_login_key key) accounts
  ∧ DB (GetAccountByLoginKey key s).2 = DB s.
Proof. apply GetAccountByLoginKey_run. Qed.

Lemma GetAccountByLoginKey_finds_witness :
  holds_accounts sample_store sample_accounts
  ∧ hd false (faults sample_store) = false
  ∧ ((GetAccountByLoginKey "K1" sample_store).1
     = Ok (mkAccount "K1" "" "" "1.2.3.4" 40 40 0)
     ∧ DB (GetAccountByLoginKey "K1" sample_store).2 = DB sample_store)
  ∧ ((GetAccountByLoginKey "K9" sample_store).1 = Err ErrNoRows
     ∧ DB (GetAccountByLoginKey "K9" sample_store).2 = DB sample_store).
Proof.
  assert (H : holds_accounts sample_store sample_accounts)
    by (vm_compute; reflexivity).
  split; [exact H|]. split; [reflexivity|]. split.
  - exact (GetAccountByLoginKey_finds "K1" sample_store sample_accounts H
             eq_refl).
  - exact (GetAccountByLoginKey_finds "K9" sample_store sample_accounts H
             eq_refl).
Defined.

Lemma LoginAccount_run (sessionID : string) (now : Z) (a : Account)
    (s : SQLiteDB) (accounts : list Account) :
  holds_accounts s accounts → hd false (faults s) = false →
  (LoginAccount sessionID now a s).1 = (logged_in sessionID now a, None)
  ∧ DB (LoginAccount sessionID now a s).2
    = set_table "account"
        (account_table
           (map_where (has_login_key (Account_LoginKey a))
              (logged_in sessionID now) accounts)) (DB s)
  ∧ faults (LoginAccount sessionID now a s).2 = tail (faults s).
Proof.
  intros Ha Hf. unfold LoginAccount, mbind, M_bind.
  rewrite exec_run_ok by done.
  rewrite (update_table _ _ _ _ _ _ _ Ha) by reflexivity.
  cbn [mret M_ret fst snd DB faults]. split; [done|]. split; [|done]. f_equal.
  unfold account_table, map_where. f_equal. fold account_names.
  apply map_map_rows. intros x. cbn [Account_LoginKey Account_SessionID
    Account_LastLogin]. rewrite where_login_key.
  by destruct (has_login_key _ x).
Qed.

Lemma map_where_none {A} (p : A → bool) (f : A → A) (l : list A) :
  existsb p l = false → map_where p f l = l.
Proof.
  unfold map_where. induction l as [|x l IH]; [done|]. cbn [existsb map].
  intros H. apply orb_false_iff in H as [Hx Hl]. by rewrite Hx, IH.
Qed.

Lemma find_map_where {A} (p : A → bool) (f : A → A) (l : list A) :
  (∀ x, p (f x) = p x) →
  first_or_no_rows p (map_where p f l) = f <$> first_or_no_rows p l.
Proof.
  intros H. unfold first_or_no_rows, map_where.
  induction l as [|x l IH]; [done|]. cbn [map List.find].
  destruct (p x) eqn:Hx.
  - by rewrite H, Hx.
  - by rewrite Hx.
Qed.

Lemma holds_accounts_set_table (s s' : SQLiteDB) (accounts : list Account) :
  DB s' = set_table "account" (account_table accounts) (DB s) →
  holds_accounts s' accounts.
Proof.
  intros H. unfold holds_accounts. rewrite H. cbn. apply lookup_insert_eq.
Qed.

(** X3. On an [account] table that holds [accounts], and unless a storage
    failure hits the statement, [LoginAccount] returns no error, gives the
    caller's account the new session id and login time, and stores both in
    every account with the caller's login key, all other fields and all
    other accounts as they were; when no account has the key nothing is
    changed, and still no error is returned. *)
Theorem LoginAccount_replaces_session (sessionID : string) (now : Z)
    (a : Account) (s : SQLiteDB) (accounts : list Account) :
  holds_accounts s accounts → hd false (faults s) = false →
  (LoginAccount sessionID now a s).1 = (logged_in sessionID now a, None)
  ∧ DB (LoginAccount sessionID now a s).2
    = set_table "account"
        (account_table
           (map_where (has_login_key (Account_LoginKey a))
              (logged_in sessionID now) accounts)) (DB s)
  ∧ (existsb (has_login_key (Account_LoginKey a)) accounts = false →
     DB (LoginAccount sessionID now a s).2 = DB s).
Proof.
  intros Ha Hf.
  destruct (LoginAccount_run sessionID now a s accounts Ha Hf)
    as (H1 & H2 & _).
  split; [exact H1|]. split; [exact H2|]. intros Hno.
  rewrite H2, map_where_none by done. by apply set_table_same.
Qed.

Lemma LoginAccount_replaces_session_witness :
  let a := mkAccount "K1" "old" "" "" 0 0 0 in
  let r := LoginAccount "S7" 300 a sample_store in
  holds_accounts sample_store sample_accounts
  ∧ hd false (faults sample_store) = false
  ∧ r.1 = (mkAccount "K1" "S7" "" "" 0 300 0, None)
  ∧ DB r.2
    = set_table "account"
        (account_table [mkAccount "K1" "S7" "" "1.2.3.4" 40 300 0])
        (DB sample_store)
  ∧ (existsb (has_login_key "K1") sample_accounts = false →
     DB r.2 = DB sample_store).
Proof.
  intros a r.
  assert (H : holds_accounts sample_store sample_accounts)
    by (vm_compute; reflexivity).
  split; [exact H|]. split; [reflexivity|].
  exact (LoginAccount_replaces_session "S7" 300 a sample_store
           sample_accounts H eq_refl).
Defined.

(** X4. With no storage failure, the account that [GetAccountByLoginKey]
    returns after a [LoginAccount] is the one it returned before, with the
    new session id and login time: the earlier session id is gone. *)
Theorem LoginAccount_then_Get (sessionID : string) (now : Z) (a : Account)
    (s : SQLiteDB) (accounts : list Account) :
  holds_accounts s accounts → faults s = [] →
  (GetAccountByLoginKey (Account_LoginKey a)
     (LoginAccount sessionID now a s).2).1
  = logged_in sessionID now
    <$> (GetAccountByLoginKey (Account_LoginKey a) s).1.
Proof.
  intros Ha Hf.
  assert (Hf' : hd false (faults s) = false) by by rewrite Hf.
  destruct (LoginAccount_run sessionID now a s accounts Ha Hf')
    as (_ & HDB & Hfs).
  apply holds_accounts_set_table in HDB.
  destruct (GetAccountByLoginKey_run (Account_LoginKey a) _ _ HDB) as [-> _];
    [by rewrite Hfs, Hf|].
  destruct (GetAccountByLoginKey_run (Account_LoginKey a) _ _ Ha Hf')
    as [-> _].
  by apply find_map_where.
Qed.

Lemma LoginAccount_then_Get_witness :
  let a := mkAccount "K1" "" "" "" 0 0 0 in
  holds_accounts sample_store sample_accounts
  ∧ faults sample_store = []
  ∧ (GetAccountByLoginKey "K1" (LoginAccount "S7" 300 a sample_store).2).1
    = Ok (mkAccount "K1" "S7" "" "1.2.3.4" 40 300 0).
Proof.
  intros a.
  assert (H : holds_accounts sample_store sample_accounts)
    by (vm_compute; reflexivity).
  split; [exact H|]. split; [reflexivity|].
  exact (LoginAccount_then_Get "S7" 300 a sample_store sample_accounts H
           eq_refl).
Defined.

(** ** Users *)

Lemma scan_user_row (u : User) : scan_user user_names (row_of_user u) = Ok u.
Proof. destruct u as [? ? ? ? ? [] [] [] ? ? ? ? ?]. vm_compute. reflexivity. Qed.

Lemma where_user_id (userID : string) (u : User) :
  where_holds user_names [CEq "user_id" (VText userID)] (row_of_user u)
  = has_user_id userID u.
Proof. cbn. by rewrite andb_true_r. Qed.

Lemma where_user_login_key (loginKey : string) (u : User) :
  where_holds user_names [CEq "login_key" (VText loginKey)] (row_of_user u)
  = of_login_key loginKey u.
Proof. cbn. by rewrite andb_true_r. Qed.

Lemma same_key_user (userID loginKey : string) (now : Z) (u : User) :
  same_key user_names ["user_id"; "login_key"]
    (row_of_user (new_user userID loginKey now)) (row_of_user u)
  = has_user_pair userID loginKey u.
Proof.
  cbn. rewrite andb_true_r. unfold has_user_pair, has_user_id, of_login_key.
  by rewrite (String.eqb_sym userID), (String.eqb_sym loginKey).
Qed.

Lemma holds_users_set_table (s s' : SQLiteDB) (users : list User) :
  DB s' = set_table "user" (user_table users) (DB s) → holds_users s' users.
Proof.
  intros H. unfold holds_users. rewrite H. cbn. apply lookup_insert_eq.
Qed.

Lemma RegisterUser_run (userID loginKey : string) (now : Z) (s : SQLiteDB)
    (users : list User) :
  holds_users s users → hd false (faults s) = false →
  let r := RegisterUser userID now loginKey s in
  faults r.2 = tail (faults s)
  ∧ if existsb (has_user_pair userID loginKey) users
    then r.1 = Err (ErrConstraint "user") ∧ DB r.2 = DB s
    else r.1 = Ok (mkUser userID loginKey "" "" "" zero_counters
                     zero_counters zero_counters 0 0 0 now 0)
         ∧ DB r.2
           = set_table "user"
               (user_table (users ++ [new_user userID loginKey now])) (DB s).
Proof.
  intros Hu Hf. unfold RegisterUser, mbind, M_bind.
  rewrite exec_run_ok by done.
  rewrite (insert_values_table _ _ _ _ _ _ _ Hu) by reflexivity.
  change (build_row _ _ _) with (row_of_user (new_user userID loginKey now)).
  fold user_names.
  rewrite (existsb_map_rows _ _ _ _ (same_key_user userID loginKey now)
           : key_taken _ _ _ _ = _).
  destruct (existsb _ users); [done|].
  cbn. unfold user_table. by rewrite map_app.
Qed.

(** *** The order of an index *)

Lemma string_compare_trans (a b c : string) :
  String.compare a b = Lt → String.compare b c = Lt →
  String.compare a c = Lt.
Proof.
  revert b c. induction a as [|x a IH]; intros [|y b] [|z c];
    cbn [String.compare]; try done.
  unfold Ascii.compare.
  destruct (N.compare_spec (N_of_ascii x) (N_of_ascii y)) as [Exy|Lxy|Gxy];
    [| |done].
  - rewrite Exy. destruct (N.compare (N_of_ascii y) (N_of_ascii z));
      [apply IH|done|done].
  - intros _.
    destruct (N.compare_spec (N_of_ascii y) (N_of_ascii z)) as [Eyz|Lyz|Gyz];
      [| |done]; intros _.
    + rewrite <- Eyz. by rewrite (proj2 (N.compare_lt_iff _ _) Lxy).
    + by rewrite (proj2 (N.compare_lt_iff _ _) (N.lt_trans _ _ _ Lxy Lyz)).
Qed.

Lemma string_ltb_irrefl (a : string) : String.ltb a a = false.
Proof.
  unfold String.ltb. pose proof (String.compare_antisym a a) as H.
  by destruct (String.compare a a).
Qed.

Lemma string_ltb_asym (a b : string) :
  String.ltb a b = true → String.ltb b a = false.
Proof.
  unfold String.ltb. rewrite (String.compare_antisym b a).
  by destruct (String.compare a b).
Qed.

Lemma string_not_ltb_trans (a b c : string) :
  String.ltb b a = false → String.ltb c b = false → String.ltb c a = false.
Proof.
  unfold String.ltb. intros H1 H2.
  destruct (String.compare c a) eqn:Eca; try done. exfalso.
  rewrite (String.compare_antisym b a) in H1.
  destruct (String.compare a b) eqn:Eab.
  - apply String.compare_eq_iff in Eab as ->. by rewrite Eca in H2.
  - by rewrite (string_compare_trans c a b Eca Eab) in H2.
  - done.
Qed.

Lemma value_le_total (a b : value) :
  value_le a b = true ∨ value_le b a = true.
Proof.
  unfold value_le.
  destruct (value_lt b a) eqn:E; [|by left]. right.
  apply negb_true_iff.
  destruct a, b; unfold value_lt in *; cbn [class_of] in *;
    try (apply Z.ltb_lt in E; apply Z.ltb_ge; lia).
  by apply string_ltb_asym.
Qed.

Lemma value_le_trans (a b c : value) :
  value_le a b = true → value_le b c = true → value_le a c = true.
Proof.
  unfold value_le. rewrite !negb_true_iff.
  destruct a, b, c; unfold value_lt; cbn [class_of];
    rewrite ?Z.ltb_ge; try lia; try done.
  apply string_not_ltb_trans.
Qed.

#[local] Instance by_column_total names c : Total (by_column names c).
Proof. intros a b. apply value_le_total. Qed.

#[local] Instance by_column_trans names c : Transitive (by_column names c).
Proof. intros x y z. apply value_le_trans. Qed.

Lemma by_login_key (a b : User) :
  by_column user_names "login_key" (row_of_user a) (row_of_user b) →
  String.ltb (User_LoginKey b) (User_LoginKey a) = false.
Proof.
  unfold by_column, value_le. intros H. apply negb_true_iff in H. exact H.
Qed.

(** The lookup by user id: the users of that id come in the order of their
    login keys, and the first of them is scanned. *)
Lemma GetUser_run (userID : string) (s : SQLiteDB) (users : list User) :
  holds_users s users → hd false (faults s) = false →
  ∃ ordered,
    List.filter (has_user_id userID) users ≡ₚ ordered
    ∧ StronglySorted
        (λ a b, String.ltb (User_LoginKey b) (User_LoginKey a) = false)
        ordered
    ∧ (GetUser userID s).1
      = match ordered with [] => Err ErrNoRows | u :: _ => Ok u end
    ∧ DB (GetUser userID s).2 = DB s.
Proof.
  intros Hu Hf. unfold GetUser. rewrite query_run_ok by done.
  cbn [fst snd DB]. unfold select_all_by.
  rewrite (select_all_table _ _ _ _ _ _ Hu) by reflexivity.
  cbn [mbind res_bind fst snd]. fold user_names.
  rewrite (filter_map_rows _ _ _ _ (where_user_id userID)).
  set (sel := List.filter (has_user_id userID) users).
  pose proof (merge_sort_Permutation (by_column user_names "login_key")
                (map row_of_user sel)) as Hp.
  pose proof (StronglySorted_merge_sort (by_column user_names "login_key")
                (map row_of_user sel)) as HS.
  destruct (Permutation_map_inv _ _ Hp) as (ordered & Ho & Hperm).
  rewrite Ho in HS |- *. exists ordered. split; [done|]. split; [|split].
  - eapply (StronglySorted_Forall2 (λ r u, r = row_of_user u));
      [|exact HS|].
    + apply Forall2_fmap_l, Forall_Forall2_diag, Forall_forall. done.
    + intros x x' a b _ _ -> ->. apply by_login_key.
  - apply (scan_first_map _ _ _ _ scan_user_row).
  - done.
Qed.

(** X5. On a [user] table that holds [users], and unless a storage failure
    hits the statement, [RegisterUser] refuses only a (user id, login key)
    pair that a user already has, with a constraint error and the database
    unchanged: a user id that exists under another login key is accepted.
    Otherwise it stores one more user with the defaults of the schema (name
    [default], all counters 0) and returns a user with the ids and the
    creation time, whose name is empty. *)
Theorem RegisterUser_conflict_or_append (userID loginKey : string) (now : Z)
    (s : SQLiteDB) (users : list User) :
  holds_users s users → hd false (faults s) = false →
  let r := RegisterUser userID now loginKey s in
  if existsb (has_user_pair userID loginKey) users
  then r.1 = Err (ErrConstraint "user") ∧ DB r.2 = DB s
  else r.1 = Ok (mkUser userID loginKey "" "" "" zero_counters zero_counters
                   zero_counters 0 0 0 now 0)
       ∧ DB r.2
         = set_table "user"
             (user_table (users ++ [new_user userID loginKey now])) (DB s).
Proof. intros Hu Hf. apply (RegisterUser_run _ _ _ _ _ Hu Hf). Qed.

Lemma RegisterUser_conflict_or_append_witness :
  holds_users sample_store sample_users
  ∧ hd false (faults sample_store) = false
  ∧ ((RegisterUser "U1" 70 "K1" sample_store).1 = Err (ErrConstraint "user")
     ∧ DB (RegisterUser "U1" 70 "K1" sample_store).2 = DB sample_store)
  ∧ ((RegisterUser "U1" 70 "K2" sample_store).1
     = Ok (mkUser "U1" "K2" "" "" "" zero_counters zero_counters
             zero_counters 0 0 0 70 0)
     ∧ DB (RegisterUser "U1" 70 "K2" sample_store).2
       = set_table "user"
           (user_table (sample_users ++ [new_user "U1" "K2" 70]))
           (DB sample_store)).
Proof.
  assert (H : holds_users sample_store sample_users)
    by (vm_compute; reflexivity).
  split; [exact H|]. split; [reflexivity|]. split.
  - exact (RegisterUser_conflict_or_append "U1" "K1" 70 sample_store
             sample_users H eq_refl).
  - exact (RegisterUser_conflict_or_append "U1" "K2" 70 sample_store
             sample_users H eq_refl).
Defined.

(** X6. On a [user] table that holds [users], and unless a storage failure
    hits the query, [GetUser] looks the user up by its id alone: when some
    user has the id it returns one of them, exactly as stored, and of all
    users of that id the one whose login key comes first; when only one
    user has the id it returns that one; and it returns [sql.ErrNoRows]
    when there is none. The database stays as it is. *)
Theorem GetUser_finds (userID : string) (s : SQLiteDB) (users : list User) :
  holds_users s users → hd false (faults s) = false →
  (if existsb (has_user_id userID) users
   then ∃ u, least_login_key userID users u ∧ (GetUser userID s).1 = Ok u
   else (GetUser userID s).1 = Err ErrNoRows)
  ∧ (∀ u, List.filter (has_user_id userID) users = [u] →
          (GetUser userID s).1 = Ok u)
  ∧ DB (GetUser userID s).2 = DB s.
Proof.
  intros Hu Hf.
  destruct (GetUser_run userID s users Hu Hf) as (ordered & Hp & HS & -> & HD).
  split; [|split; [|exact HD]].
  - destruct (existsb _ users) eqn:E.
    + apply existsb_exists in E as (x & Hx & Hid).
      assert (Hin : x ∈ ordered).
      { rewrite <- Hp. apply list_elem_of_In, filter_In. done. }
      destruct ordered as [|u rest]; [by apply elem_of_nil in Hin|].
      exists u. split; [|done].
      assert (Hu' : In u (List.filter (has_user_id userID) users)).
      { apply list_elem_of_In. rewrite Hp. by left. }
      apply filter_In in Hu' as [Hu1 Hu2].
      split; [by apply list_elem_of_In|]. split; [done|].
      intros v Hv Hvid.
      assert (Hv' : v ∈ u :: rest).
      { rewrite <- Hp. apply list_elem_of_In, filter_In.
        by rewrite <- list_elem_of_In. }
      apply StronglySorted_inv in HS as [_ HS].
      apply elem_of_cons in Hv' as [->|Hv'];
        [apply string_ltb_irrefl|].
      by apply (proj1 (Forall_forall _ _) HS).
    + assert (Hnone : List.filter (has_user_id userID) users = []).
      { clear -E. induction users as [|x l IH]; [done|].
        cbn [existsb List.filter] in *.
        apply orb_false_iff in E as [-> E]. by apply IH. }
      rewrite Hnone in Hp. by apply Permutation_nil_l in Hp as <-.
  - intros u Hone. rewrite Hone in Hp.
    by apply Permutation_singleton_l in Hp as <-.
Qed.

Lemma GetUser_finds_witness :
  let s := (RegisterUser "U1" 70 "K0" sample_store).2 in
  let users := sample_users ++ [new_user "U1" "K0" 70] in
  holds_users s users
  ∧ hd false (faults s) = false
  ∧ (∃ u, least_login_key "U1" users u ∧ (GetUser "U1" s).1 = Ok u)
  ∧ (GetUser "U1" s).1 = Ok (new_user "U1" "K0" 70)
  ∧ (GetUser "U2" s).1 = Ok (new_user "U2" "K1" 60)
  ∧ (GetUser "U9" s).1 = Err ErrNoRows
  ∧ DB (GetUser "U9" s).2 = DB s.
Proof.
  intros s users.
  assert (H : holds_users s users) by (vm_compute; reflexivity).
  split; [exact H|]. split; [reflexivity|].
  split; [exact (proj1 (GetUser_finds "U1" s users H eq_refl))|].
  split; [vm_compute; reflexivity|].
  split;
    [exact (proj1 (proj2 (GetUser_finds "U2" s users H eq_refl)) _ eq_refl)|].
  split; [exact (proj1 (GetUser_finds "U9" s users H eq_refl))|].
  exact (proj2 (proj2 (GetUser_finds "U9" s users H eq_refl))).
Defined.

(** X7. On a [user] table that holds [users], and unless a storage failure
    hits the query, [GetUserList] returns, in table order, exactly the
    users of that login key, the empty list when there is none, and never
    an error. *)
Theorem GetUserList_filters (loginKey : string) (s : SQLiteDB)
    (users : list User) :
  holds_users s users → hd false (faults s) = false →
  (GetUserList loginKey s).1 = Ok (List.filter (of_login_key loginKey) users)
  ∧ DB (GetUserList loginKey s).2 = DB s.
Proof.
  intros Hu Hf. unfold GetUserList. rewrite query_run_ok by done.
  split; [|done]. cbn [fst].
  rewrite (select_all_table _ _ _ _ _ _ Hu) by reflexivity.
  cbn [mbind res_bind]. fold user_names.
  rewrite (filter_map_rows _ _ _ _ (where_user_login_key loginKey)).
  apply (scan_each_map _ _ _ _ scan_user_row).
Qed.

Lemma GetUserList_filters_witness :
  holds_users sample_store sample_users
  ∧ hd false (faults sample_store) = false
  ∧ ((GetUserList "K1" sample_store).1 = Ok sample_users
     ∧ DB (GetUserList "K1" sample_store).2 = DB sample_store)
  ∧ ((GetUserList "K9" sample_store).1 = Ok []
     ∧ DB (GetUserList "K9" sample_store).2 = DB sample_store).
Proof.
  assert (H : holds_users sample_store sample_users)
    by (vm_compute; reflexivity).
  split; [exact H|]. split; [reflexivity|]. split.
  - exact (GetUserList_filters "K1" sample_store sample_users H eq_refl).
  - exact (GetUserList_filters "K9" sample_store sample_users H eq_refl).
Defined.

Lemma UpdateUser_run (user : User) (s : SQLiteDB) (users : list User) :
  holds_users s users → hd false (faults s) = false →
  (UpdateUser user s).1 = None
  ∧ DB (UpdateUser user s).2
    = set_table "user"
        (user_table
           (map_where (has_user_id (User_UserID user)) (overwritten user)
              users)) (DB s)
  ∧ faults (UpdateUser user s).2 = tail (faults s).
Proof.
  intros Hu Hf. unfold UpdateUser. rewrite exec_run_ok by done.
  rewrite (update_table _ _ _ _ _ _ _ Hu) by reflexivity.
  cbn [fst snd DB faults]. split; [done|]. split; [|done]. f_equal.
  unfold user_table, map_where. f_equal. fold user_names.
  apply map_map_rows. intros x. rewrite where_user_id.
  destruct (has_user_id _ x); [|done]. vm_compute. reflexivity.
Qed.

(** X8. On a [user] table that holds [users], and unless a storage failure
    hits the statement, [UpdateUser] returns no error and overwrites, in
    every stored user with the caller's user id, the name, the team, all
    eighteen counters and the system flag with the caller's values; the
    login key, the session id and the creation time of those users, and all
    other users, stay as stored. When no user has the id nothing is changed
    and no error is returned. *)
Theorem UpdateUser_overwrites (user : User) (s : SQLiteDB)
    (users : list User) :
  holds_users s users → hd false (faults s) = false →
  (UpdateUser user s).1 = None
  ∧ DB (UpdateUser user s).2
    = set_table "user"
        (user_table
           (map_where (has_user_id (User_UserID user)) (overwritten user)
              users)) (DB s)
  ∧ (existsb (has_user_id (User_UserID user)) users = false →
     DB (UpdateUser user s).2 = DB s).
Proof.
  intros Hu Hf. destruct (UpdateUser_run user s users Hu Hf) as (H1 & H2 & _).
  split; [exact H1|]. split; [exact H2|]. intros Hno.
  rewrite H2, map_where_none by done. by apply set_table_same.
Qed.

Lemma UpdateUser_overwrites_witness :
  let user := sample_user "U2" "ignored" 9 in
  holds_users sample_store sample_users
  ∧ hd false (faults sample_store) = false
  ∧ (UpdateUser user sample_store).1 = None
  ∧ DB (UpdateUser user sample_store).2
    = set_table "user"
        (user_table
           [overwritten (sample_user "U1" "" 4) (new_user "U1" "K1" 50);
            overwritten user (new_user "U2" "K1" 60)]) (DB sample_store)
  ∧ (existsb (has_user_id "U2") sample_users = false →
     DB (UpdateUser user sample_store).2 = DB sample_store).
Proof.
  intros user.
  assert (H : holds_users sample_store sample_users)
    by (vm_compute; reflexivity).
  split; [exact H|]. split; [reflexivity|].
  exact (UpdateUser_overwrites user sample_store sample_users H eq_refl).
Defined.

Lemma find_none_existsb {A} (p : A → bool) (l : list A) :
  existsb p l = false → List.find p l = None.
Proof.
  induction l as [|x l IH]; [done|]. cbn [existsb List.find]. intros H.
  apply orb_false_iff in H as [Hx Hl]. by rewrite Hx, IH.
Qed.

Lemma find_none_existsb_conv {A} (p : A → bool) (l : list A) :
  List.find p l = None → existsb p l = false.
Proof.
  induction l as [|x l IH]; [done|]. cbn [existsb List.find].
  destruct (p x); [done|]. apply IH.
Qed.

Lemma find_app_none {A} (p : A → bool) (l l' : list A) :
  List.find p l = None → List.find p (l ++ l') = List.find p l'.
Proof.
  induction l as [|x l IH]; [done|]. cbn [List.find app].
  destruct (p x); [done|]. apply IH.
Qed.

(** X9. With no storage failure, and when no stored user has the user id,
    the user that [GetUser] returns after a [RegisterUser] is the stored
    one: it has the ids and the creation time that [RegisterUser] returned,
    and the name [default] where the returned user has none. *)
Theorem RegisterUser_then_GetUser (userID loginKey : string) (now : Z)
    (s : SQLiteDB) (users : list User) :
  holds_users s users → faults s = [] →
  existsb (has_user_id userID) users = false →
  (RegisterUser userID now loginKey s).1
  = Ok (mkUser userID loginKey "" "" "" zero_counters zero_counters
          zero_counters 0 0 0 now 0)
  ∧ (GetUser userID (RegisterUser userID now loginKey s).2).1
    = Ok (mkUser userID loginKey "" "default" "" zero_counters zero_counters
            zero_counters 0 0 0 now 0).
Proof.
  intros Hu Hf Hno.
  assert (Hf' : hd false (faults s) = false) by by rewrite Hf.
  destruct (RegisterUser_run userID loginKey now s users Hu Hf') as [Hfs H].
  assert (Hpair : existsb (has_user_pair userID loginKey) users = false).
  { clear -Hno. induction users as [|u users IH]; [done|].
    cbn [existsb] in *. apply orb_false_iff in Hno as [H1 H2].
    unfold has_user_pair at 1. by rewrite H1, IH. }
  rewrite Hpair in H. destruct H as [H1 H2]. split; [exact H1|].
  apply holds_users_set_table in H2.
  destruct (GetUser_run userID _ _ H2) as (ordered & Hp & _ & -> & _);
    [by rewrite Hfs, Hf|].
  assert (Hone : List.filter (has_user_id userID)
                   (users ++ [new_user userID loginKey now])
                 = [new_user userID loginKey now]).
  { rewrite List.filter_app. cbn [List.filter].
    unfold has_user_id at 2. cbn [User_UserID new_user].
    rewrite String.eqb_refl. clear -Hno.
    induction users as [|x l IH]; [done|]. cbn [existsb List.filter] in *.
    apply orb_false_iff in Hno as [-> Hno]. by apply IH. }
  rewrite Hone in Hp. by apply Permutation_singleton_l in Hp as <-.
Qed.

Lemma RegisterUser_then_GetUser_witness :
  holds_users sample_store sample_users
  ∧ faults sample_store = []
  ∧ existsb (has_user_id "U3") sample_users = false
  ∧ (RegisterUser "U3" 70 "K1" sample_store).1
    = Ok (mkUser "U3" "K1" "" "" "" zero_counters zero_counters
            zero_counters 0 0 0 70 0)
  ∧ (GetUser "U3" (RegisterUser "U3" 70 "K1" sample_store).2).1
    = Ok (mkUser "U3" "K1" "" "default" "" zero_counters zero_counters
            zero_counters 0 0 0 70 0).
Proof.
  assert (H : holds_users sample_store sample_users)
    by (vm_compute; reflexivity).
  split; [exact H|]. split; [reflexivity|]. split; [reflexivity|].
  exact (RegisterUser_then_GetUser "U3" "K1" 70 sample_store sample_users H
           eq_refl eq_refl).
Defined.

(** ** Login of a user *)

Lemma has_login_key_found (key : string) (accounts : list Account)
    (a : Account) :
  List.find (has_login_key key) accounts = Some a → Account_LoginKey a = key.
Proof.
  intros H. apply find_some in H as [_ H]. by apply String.eqb_eq in H.
Qed.

(** X10. On an [account] table that holds [accounts], and unless a storage
    failure hits the lookup, [LoginUser] of a user whose login key no
    account has returns [sql.ErrNoRows] and writes nothing. *)
Theorem LoginUser_unknown_account (user : User) (s : SQLiteDB)
    (accounts : list Account) :
  holds_accounts s accounts → hd false (faults s) = false →
  existsb (has_login_key (User_LoginKey user)) accounts = false →
  (LoginUser user s).1 = Some ErrNoRows ∧ DB (LoginUser user s).2 = DB s.
Proof.
  intros Ha Hf Hno. unfold LoginUser, mbind, M_bind.
  destruct (GetAccountByLoginKey_run (User_LoginKey user) s accounts Ha Hf)
    as [H1 H2].
  destruct (GetAccountByLoginKey _ s) as [a s1]. cbn [fst snd] in *.
  rewrite H1. unfold first_or_no_rows.
  rewrite find_none_existsb by done. cbn. done.
Qed.

Lemma LoginUser_unknown_account_witness :
  let user := mkUser "U1" "K9" "S1" "" "" zero_counters zero_counters
                zero_counters 0 0 0 0 0 in
  holds_accounts sample_store sample_accounts
  ∧ hd false (faults sample_store) = false
  ∧ existsb (has_login_key "K9") sample_accounts = false
  ∧ (LoginUser user sample_store).1 = Some ErrNoRows
  ∧ DB (LoginUser user sample_store).2 = DB sample_store.
Proof.
  intros user.
  assert (H : holds_accounts sample_store sample_accounts)
    by (vm_compute; reflexivity).
  split; [exact H|]. split; [reflexivity|]. split; [reflexivity|].
  exact (LoginUser_unknown_account user sample_store sample_accounts H
           eq_refl eq_refl).
Defined.

Lemma set_columns_last_user (userID : string) (a : Account) :
  set_columns account_names [("last_user_id", VText userID)]
    (row_of_account a)
  = row_of_account (with_last_user userID a).
Proof. reflexivity. Qed.

Lemma set_columns_session (sessionID : string) (u : User) :
  set_columns user_names [("session_id", VText sessionID)] (row_of_user u)
  = row_of_user (with_session sessionID u).
Proof. reflexivity. Qed.

(** X11. On tables that hold [accounts] and [users], with no storage
    failure and an account that has the user's login key, [LoginUser]
    returns no error, points every account of that login key at the user
    id, and stores the caller's session id in every user of that user id;
    nothing else is changed. *)
Theorem LoginUser_writes_both (user : User) (s : SQLiteDB)
    (accounts : list Account) (users : list User) :
  holds_accounts s accounts → holds_users s users → faults s = [] →
  existsb (has_login_key (User_LoginKey user)) accounts = true →
  (LoginUser user s).1 = None
  ∧ DB (LoginUser user s).2
    = set_table "user"
        (user_table
           (map_where (has_user_id (User_UserID user))
              (with_session (User_SessionID user)) users))
        (set_table "account"
           (account_table
              (map_where (has_login_key (User_LoginKey user))
                 (with_last_user (User_UserID user)) accounts)) (DB s)).
Proof.
  intros Ha Hu Hf Hex.
  assert (Hf' : hd false (faults s) = false) by by rewrite Hf.
  unfold LoginUser, mbind, M_bind.
  destruct (GetAccountByLoginKey_run (User_LoginKey user) s accounts Ha Hf')
    as [H1 _].
  unfold GetAccountByLoginKey in *. rewrite query_run_ok in * by done.
  cbn [fst] in H1. rewrite H1. unfold first_or_no_rows.
  destruct (List.find _ accounts) as [a|] eqn:Hfind; cycle 1.
  { apply find_none_existsb_conv in Hfind. congruence. }
  apply has_login_key_found in Hfind. cbn [Account_LoginKey Account_LastUserID].
  rewrite Hfind, Hf.
  rewrite exec_run_ok by done. cbn [DB rankingCache faults tail].
  rewrite (update_table _ _ _ _ _ _ _ Ha) by reflexivity.
  rewrite exec_run_ok by done. cbn [DB rankingCache faults tail].
  assert (Hu' : db_tables
                  (set_table "account"
                     (Table account_columns ["login_key"]
                        (map (λ r, if where_holds (column_names account_columns)
                                        [CEq "login_key"
                                           (VText (User_LoginKey user))] r
                                   then set_columns
                                          (column_names account_columns)
                                          [("last_user_id",
                                            VText (User_UserID user))] r
                                   else r)
                           (map row_of_account accounts))) (DB s))
                !! "user" = Some (user_table users)).
  { cbn [set_table db_tables]. by rewrite lookup_insert_ne. }
  rewrite (update_table _ _ _ _ _ _ _ Hu') by reflexivity.
  cbn [fst snd DB]. split; [done|].
  fold account_names user_names. unfold user_table, account_table, map_where.
  rewrite (map_map_rows row_of_user _
             (λ x, if has_user_id (User_UserID user) x
                   then with_session (User_SessionID user) x else x));
    cycle 1.
  { intros x. rewrite where_user_id. by destruct (has_user_id _ x). }
  rewrite (map_map_rows row_of_account _
             (λ x, if has_login_key (User_LoginKey user) x
                   then with_last_user (User_UserID user) x else x));
    cycle 1.
  { intros x. rewrite where_login_key. by destruct (has_login_key _ x). }
  done.
Qed.

Lemma LoginUser_writes_both_witness :
  let user := sample_user "U2" "S2" 0 in
  holds_accounts sample_store sample_accounts
  ∧ holds_users sample_store sample_users
  ∧ faults sample_store = []
  ∧ existsb (has_login_key "K1") sample_accounts = true
  ∧ (LoginUser user sample_store).1 = None
  ∧ DB (LoginUser user sample_store).2
    = set_table "user"
        (user_table
           [overwritten (sample_user "U1" "" 4) (new_user "U1" "K1" 50);
            with_session "S2" (new_user "U2" "K1" 60)])
        (set_table "account"
           (account_table [mkAccount "K1" "" "U2" "1.2.3.4" 40 40 0])
           (DB sample_store)).
Proof.
  intros user.
  assert (H1 : holds_accounts sample_store sample_accounts)
    by (vm_compute; reflexivity).
  assert (H2 : holds_users sample_store sample_users)
    by (vm_compute; reflexivity).
  split; [exact H1|]. split; [exact H2|]. split; [reflexivity|].
  split; [reflexivity|].
  exact (LoginUser_writes_both user sample_store sample_accounts sample_users
           H1 H2 eq_refl eq_refl).
Defined.

(** ** Battle records on a table that holds records *)

Lemma scan_battle_row (b : BattleRecord) :
  scan_battle_record battle_names (row_of_battle b) = Ok b.
Proof. by destruct b. Qed.

Lemma where_pair (battleCode userID : string) (b : BattleRecord) :
  where_holds battle_names
    [CEq "battle_code" (VText battleCode); CEq "user_id" (VText userID)]
    (row_of_battle b)
  = has_pair battleCode userID b.
Proof. cbn. by rewrite andb_true_r. Qed.

Lemma same_key_battle (now : Z) (b x : BattleRecord) :
  same_key battle_names ["battle_code"; "user_id"]
    (row_of_battle (joined now b)) (row_of_battle x)
  = has_pair (BattleCode b) (UserID b) x.
Proof.
  cbn. rewrite andb_true_r. unfold has_pair.
  by rewrite (String.eqb_sym (BattleCode b)), (String.eqb_sym (UserID b)).
Qed.

Lemma holds_battles_set_table (s s' : SQLiteDB) (battles : list BattleRecord) :
  DB s' = set_table "battle_record" (battle_table battles) (DB s) →
  holds_battles s' battles.
Proof.
  intros H. unfold holds_battles. rewrite H. cbn. apply lookup_insert_eq.
Qed.

(** X12. On a [battle_record] table that holds [battles], and unless a
    storage failure hits the statement, [AddBattleRecord] refuses a (battle
    code, user id) pair that a record already has, with a constraint error
    and the database unchanged; otherwise it stores one more record with the
    caller's identity and position fields, both timestamps at the time of
    the call and every result field at its default, whatever results the
    caller's record carries. In both cases the caller's record gets both
    timestamps. *)
Theorem AddBattleRecord_conflict_or_append (now : Z) (b : BattleRecord)
    (s : SQLiteDB) (battles : list BattleRecord) :
  holds_battles s battles → hd false (faults s) = false →
  let r := AddBattleRecord now b s in
  r.1.1 = with_times b now now
  ∧ if existsb (has_pair (BattleCode b) (UserID b)) battles
    then r.1.2 = Some (ErrConstraint "battle_record") ∧ DB r.2 = DB s
    else r.1.2 = None
         ∧ DB r.2
           = set_table "battle_record"
               (battle_table (battles ++ [joined now b])) (DB s).
Proof.
  intros Hb Hf. unfold AddBattleRecord, mbind, M_bind.
  rewrite exec_run_ok by done.
  rewrite (insert_values_table _ _ _ _ _ _ _ Hb) by reflexivity.
  change (build_row _ _ _) with (row_of_battle (joined now b)).
  fold battle_names.
  rewrite (existsb_map_rows _ _ _ _ (same_key_battle now b)
           : key_taken _ _ _ _ = _).
  destruct (existsb _ battles); [done|].
  cbn. unfold battle_table. by rewrite map_app.
Qed.

Lemma AddBattleRecord_conflict_or_append_witness :
  let b := sample_battle "B1" "U2" 1 2 7 in
  let b' := sample_battle "B3" "U2" 1 2 7 in
  holds_battles sample_store sample_battles
  ∧ hd false (faults sample_store) = false
  ∧ ((AddBattleRecord 150 b sample_store).1.1 = with_times b 150 150
     ∧ (AddBattleRecord 150 b sample_store).1.2
       = Some (ErrConstraint "battle_record")
     ∧ DB (AddBattleRecord 150 b sample_store).2 = DB sample_store)
  ∧ ((AddBattleRecord 150 b' sample_store).1.1 = with_times b' 150 150
     ∧ (AddBattleRecord 150 b' sample_store).1.2 = None
     ∧ DB (AddBattleRecord 150 b' sample_store).2
       = set_table "battle_record"
           (battle_table (sample_battles ++ [joined 150 b']))
           (DB sample_store)).
Proof.
  intros b b'.
  assert (H : holds_battles sample_store sample_battles)
    by (vm_compute; reflexivity).
  split; [exact H|]. split; [reflexivity|]. split.
  - exact (AddBattleRecord_conflict_or_append 150 b sample_store
             sample_battles H eq_refl).
  - exact (AddBattleRecord_conflict_or_append 150 b' sample_store
             sample_battles H eq_refl).
Defined.

Lemma GetBattleRecordUser_run (battleCode userID : string) (s : SQLiteDB)
    (battles : list BattleRecord) :
  holds_battles s battles → hd false (faults s) = false →
  (GetBattleRecordUser battleCode userID s).1
  = first_or_no_rows (has_pair battleCode userID) battles
  ∧ DB (GetBattleRecordUser battleCode userID s).2 = DB s.
Proof.
  intros Hb Hf. unfold GetBattleRecordUser. rewrite query_run_ok by done.
  split; [|done]. cbn [fst].
  rewrite (select_all_table _ _ _ _ _ _ Hb) by reflexivity.
  cbn [mbind res_bind]. fold battle_names.
  rewrite (filter_map_rows _ _ _ _ (where_pair battleCode userID)).
  rewrite (scan_first_map _ _ _ _ scan_battle_row).
  apply find_filter_head.
Qed.

(** X13. On a [battle_record] table that holds [battles], and unless a
    storage failure hits the query, [GetBattleRecordUser] returns the first
    record of that battle code and user id, exactly as stored, and
    [sql.ErrNoRows] when there is none; the database stays as it is. *)
Theorem GetBattleRecordUser_finds (battleCode userID : string)
    (s : SQLiteDB) (battles : list BattleRecord) :
  holds_battles s battles → hd false (faults s) = false →
  (GetBattleRecordUser battleCode userID s).1
  = first_or_no_rows (has_pair battleCode userID) battles
  ∧ DB (GetBattleRecordUser battleCode userID s).2 = DB s.
Proof. apply GetBattleRecordUser_run. Qed.

Lemma GetBattleRecordUser_finds_witness :
  holds_battles sample_store sample_battles
  ∧ hd false (faults sample_store) = false
  ∧ ((GetBattleRecordUser "B1" "U1" sample_store).1
     = Ok (mkBattleRecord "B1" "U1" "name" "pilot" 4 1 0 1 3 2 1 5 2 900
             "won" 100 130 0)
     ∧ DB (GetBattleRecordUser "B1" "U1" sample_store).2 = DB sample_store)
  ∧ ((GetBattleRecordUser "B1" "U9" sample_store).1 = Err ErrNoRows
     ∧ DB (GetBattleRecordUser "B1" "U9" sample_store).2 = DB sample_store).
Proof.
  assert (H : holds_battles sample_store sample_battles)
    by (vm_compute; reflexivity).
  split; [exact H|]. split; [reflexivity|]. split.
  - exact (GetBattleRecordUser_finds "B1" "U1" sample_store sample_battles H
             eq_refl).
  - exact (GetBattleRecordUser_finds "B1" "U9" sample_store sample_battles H
             eq_refl).
Defined.

Lemma finalized_row (new x : BattleRecord) (now : Z) :
  finalized (with_times new (Created new) now) (row_of_battle x)
  = row_of_battle
      (if has_pair (BattleCode new) (UserID new) x
       then with_results new now x else x).
Proof.
  unfold finalized. cbn [BattleCode UserID with_times].
  rewrite where_pair. by destruct (has_pair _ _ x).
Qed.

(** X14. On a [battle_record] table that holds [battles], with no storage
    failure, after [UpdateBattleRecord] every stored record of the caller's
    (battle code, user id) has the caller's results and system flag and the
    time of the call as its update time, and keeps its own identity,
    position, aggregate flag and creation time, whatever the caller's
    record says about them; [GetBattleRecordUser] then returns the record
    it returned before with those fields replaced. *)
Theorem UpdateBattleRecord_then_Get (now : Z) (battle : BattleRecord)
    (s : SQLiteDB) (battles : list BattleRecord) :
  holds_battles s battles → faults s = [] →
  let r := UpdateBattleRecord now battle s in
  r.1 = (with_times battle (Created battle) now, None)
  ∧ DB r.2
    = set_table "battle_record"
        (battle_table
           (map_where (has_pair (BattleCode battle) (UserID battle))
              (with_results battle now) battles)) (DB s)
  ∧ (GetBattleRecordUser (BattleCode battle) (UserID battle) r.2).1
    = with_results battle now
      <$> (GetBattleRecordUser (BattleCode battle) (UserID battle) s).1.
Proof.
  intros Hb Hf r.
  assert (Hf' : hd false (faults s) = false) by by rewrite Hf.
  assert (Hr : r.1 = (with_times battle (Created battle) now, None)
               ∧ DB r.2
                 = set_table "battle_record"
                     (battle_table
                        (map_where
                           (has_pair (BattleCode battle) (UserID battle))
                           (with_results battle now) battles)) (DB s)
               ∧ faults r.2 = []).
  { subst r. unfold UpdateBattleRecord, mbind, M_bind.
    rewrite exec_run_ok by done.
    rewrite (update_battle_rows _ _ _ Hb).
    rewrite bool_decide_eq_true_2 by done. rewrite Hf.
    assert (Hrows : map (finalized (with_times battle (Created battle) now))
                      (map row_of_battle battles)
                    = map row_of_battle
                        (map_where
                           (has_pair (BattleCode battle) (UserID battle))
                           (with_results battle now) battles)).
    { apply map_map_rows. intros x. apply finalized_row. }
    rewrite Hrows. by destruct (negb _). }
  destruct Hr as (H1 & H2 & H3). split; [exact H1|]. split; [exact H2|].
  apply holds_battles_set_table in H2.
  destruct (GetBattleRecordUser_run (BattleCode battle) (UserID battle) _ _ H2)
    as [-> _]; [by rewrite H3|].
  destruct (GetBattleRecordUser_run (BattleCode battle) (UserID battle) _ _ Hb
              Hf') as [-> _].
  by apply find_map_where.
Qed.

Lemma UpdateBattleRecord_then_Get_witness :
  let battle := mkBattleRecord "B1" "U2" "" "" 0 0 9 9 4 1 0 6 2 800 "lost"
                  0 0 0 in
  let r := UpdateBattleRecord 140 battle sample_store in
  holds_battles sample_store sample_battles
  ∧ faults sample_store = []
  ∧ r.1 = (with_times battle 0 140, None)
  ∧ DB r.2
    = set_table "battle_record"
        (battle_table
           (map_where (has_pair "B1" "U2") (with_results battle 140)
              sample_battles)) (DB sample_store)
  ∧ (GetBattleRecordUser "B1" "U2" r.2).1
    = Ok (mkBattleRecord "B1" "U2" "name" "pilot" 4 1 0 2 4 1 0 6 2 800
            "lost" 110 140 0).
Proof.
  intros battle r.
  assert (H : holds_battles sample_store sample_battles)
    by (vm_compute; reflexivity).
  split; [exact H|]. split; [reflexivity|].
  exact (UpdateBattleRecord_then_Get 140 battle sample_store sample_battles H
           eq_refl).
Defined.

(** ** Daily totals *)






(** ** [Init] and [Migrate] on any database *)

Lemma extends_refl d : extends d d.
Proof. by split. Qed.

Lemma extends_trans d1 d2 d3 : extends d1 d2 → extends d2 d3 → extends d1 d3.
Proof. intros [A1 B1] [A2 B2]. split; eauto. Qed.

Lemma extends_create_table n cols pk d d' :
  create_table_if_not_exists n cols pk d = Ok d' → extends d d'.
Proof.
  intros H. split; [by eapply keeps_create_table|].
  revert H. unfold create_table_if_not_exists.
  destruct (db_tables d !! n); [by intros [= <-]|].
  destruct (db_indexes d !! n); [done|]. by intros [= <-].
Qed.

Lemma create_index_inv iname tname c d d' :
  create_index_if_not_exists iname tname c d = Ok d' →
  db_tables d' = db_tables d
  ∧ is_Some (db_tables d !! tname)
  ∧ db_tables d !! iname = None
  ∧ is_Some (db_indexes d' !! iname)
  ∧ ∀ k i, db_indexes d !! k = Some i → db_indexes d' !! k = Some i.
Proof.
  unfold create_index_if_not_exists, lookup_table.
  destruct (db_tables d !! tname) as [t|] eqn:Ht; [|done]. cbn.
  destruct (db_tables d !! iname) eqn:Hi; [done|].
  destruct (db_indexes d !! iname) as [x|] eqn:Hx.
  { intros [= <-]. rewrite Hx. eauto 6. }
  destruct (existsb _ _); [|done]. intros [= <-]. cbn.
  split; [done|]. split; [eauto|]. split; [done|]. split.
  - rewrite lookup_insert_eq. eauto.
  - intros k i Hk. rewrite lookup_insert_ne; [done|]. intros ->. congruence.
Qed.

Lemma extends_create_index iname tname c d d' :
  create_index_if_not_exists iname tname c d = Ok d' → extends d d'.
Proof.
  intros H. apply create_index_inv in H as (Ht & _ & _ & _ & Hi).
  split; [by rewrite Ht|done].
Qed.

Lemma create_table_settled n cols pk d :
  is_Some (db_tables d !! n) → create_table_if_not_exists n cols pk d = Ok d.
Proof. intros [t Ht]. unfold create_table_if_not_exists. by rewrite Ht. Qed.

Lemma create_table_there n cols pk d d' :
  create_table_if_not_exists n cols pk d = Ok d' →
  is_Some (db_tables d' !! n).
Proof.
  unfold create_table_if_not_exists.
  destruct (db_tables d !! n) eqn:Hn; [intros [= <-]; by rewrite Hn|].
  destruct (db_indexes d !! n); [done|]. intros [= <-]. cbn.
  rewrite lookup_insert_eq. eauto.
Qed.

Lemma create_index_settled iname tname c d :
  is_Some (db_tables d !! tname) → db_tables d !! iname = None →
  is_Some (db_indexes d !! iname) →
  create_index_if_not_exists iname tname c d = Ok d.
Proof.
  intros [t Ht] Hi [x Hx]. unfold create_index_if_not_exists, lookup_table.
  rewrite Ht. cbn. by rewrite Hi, Hx.
Qed.

(** A script of statements that each extend the database extends it, and
    so does what it has done when a statement or the storage fails. *)
Lemma exec_script_extends (script : list statement) :
  Forall (λ q, ∀ d d', q d = Ok d' → extends d d') script →
  ∀ s, extends (DB s) (DB (exec_script script s).2).
Proof.
  induction 1 as [|q rest Hq _ IH]; intros s; cbn [exec_script].
  - apply extends_refl.
  - unfold mbind, M_bind.
    destruct (exec_cases q s) as [(r & _ & E) | [(d & Hd & E) | (e & _ & E)]];
      rewrite E; cbn; try apply extends_refl.
    eapply extends_trans; [by apply Hq|]. apply (IH (mkSQLiteDB d _ _)).
Qed.

Lemma schema_indexes_extend :
  Forall (λ q : statement, ∀ d d', q d = Ok d' → extends d d')
    (schema ++ indexes).
Proof.
  unfold schema, indexes. cbn [app].
  repeat (apply Forall_cons_2;
    [intros d d';
     first [apply extends_create_table | apply extends_create_index]|]).
  apply Forall_nil_2.
Qed.

(** A script of statements that each leave [d] as it is. *)
Lemma exec_script_settled (script : list statement) (d : database) :
  Forall (λ q : statement, q d = Ok d) script →
  ∀ s, DB s = d →
    DB (exec_script script s).2 = d
    ∧ (Forall (λ f, f = false) (faults s) → (exec_script script s).1 = None).
Proof.
  induction 1 as [|q rest Hq _ IH]; intros s Hs; cbn [exec_script].
  - done.
  - unfold mbind, M_bind.
    destruct (exec_cases q s) as [(r & Hf & E) | [(d1 & Hd & E) | (e & He & E)]];
      rewrite E; cbn.
    + split; [done|]. rewrite Hf. by inversion 1.
    + rewrite Hs, Hq in Hd. injection Hd as <-.
      destruct (IH (mkSQLiteDB d (rankingCache s) (tail (faults s))) eq_refl)
        as [H1 H2].
      split; [done|]. intros Hf. apply H2. cbn.
      destruct (faults s); [done|]. by inversion Hf.
    + rewrite Hs, Hq in He. done.
Qed.

Lemma schema_in_place_settled (d : database) :
  schema_in_place d →
  Forall (λ q : statement, q d = Ok d) (schema ++ indexes).
Proof.
  intros [Ht Hi].
  assert (Hb : is_Some (db_tables d !! "battle_record"))
    by (apply Ht; mem).
  unfold schema, indexes. cbn [app].
  repeat (apply Forall_cons_2;
    [first [ apply create_table_settled; apply Ht; mem
           | apply create_index_settled;
             [exact Hb | apply Hi; mem | apply Hi; mem] ]|]).
  apply Forall_nil_2.
Qed.

Lemma run_schema_indexes_in_place (d d' : database) :
  run_script (schema ++ indexes) d = Ok d' → schema_in_place d'.
Proof.
  cbn [schema indexes app run_script]. unfold mbind, res_bind.
  destruct (create_table_if_not_exists "account" _ _ d) as [d1|] eqn:E1;
    [|done].
  destruct (create_table_if_not_exists "user" _ _ d1) as [d2|] eqn:E2;
    [|done].
  destruct (create_table_if_not_exists "battle_record" _ _ d2) as [d3|] eqn:E3;
    [|done].
  destruct (create_index_if_not_exists "BATTLE_RECORD_USER_ID" _ _ d3)
    as [d4|] eqn:E4; [|done].
  destruct (create_index_if_not_exists "BATTLE_RECORD_PLAYERS" _ _ d4)
    as [d5|] eqn:E5; [|done].
  destruct (create_index_if_not_exists "BATTLE_RECORD_CREATED" _ _ d5)
    as [d6|] eqn:E6; [|done].
  destruct (create_index_if_not_exists "BATTLE_RECORD_AGGRIGATE" _ _ d6)
    as [d7|] eqn:E7; [|done].
  intros [= <-].
  pose proof (create_table_there _ _ _ _ _ E1) as [t1 T1].
  pose proof (create_table_there _ _ _ _ _ E2) as [t2 T2].
  pose proof (create_table_there _ _ _ _ _ E3) as [t3 T3].
  apply (keeps_create_table _ _ _ _ _ E2) in T1.
  apply (keeps_create_table _ _ _ _ _ E3) in T1, T2.
  apply create_index_inv in E4 as (Q4 & _ & N4 & [x4 S4] & K4).
  apply create_index_inv in E5 as (Q5 & _ & N5 & [x5 S5] & K5).
  apply create_index_inv in E6 as (Q6 & _ & N6 & [x6 S6] & K6).
  apply create_index_inv in E7 as (Q7 & _ & N7 & [x7 S7] & K7).
  rewrite Q4 in Q5. rewrite Q5 in Q6. rewrite Q6 in Q7.
  rewrite Q4 in N5. rewrite Q5 in N6. rewrite Q6 in N7.
  apply K5, K6, K7 in S4. apply K6, K7 in S5. apply K7 in S6.
  split.
  - intros n Hn. rewrite Q7. unfold tables in Hn.
    repeat (apply elem_of_cons in Hn as [->|Hn]; [eauto|]).
    by apply elem_of_nil in Hn.
  - intros i Hi. rewrite Q7. unfold index_names in Hi.
    repeat (apply elem_of_cons in Hi as [->|Hi]; [eauto|]).
    by apply elem_of_nil in Hi.
Qed.

(** X16. Whatever the database holds and whichever statement of it fails,
    [Init] keeps every table that exists, with its columns, key and rows,
    and every index; and when it returns no error, the three tables and
    the four indexes of the schema exist. *)
Theorem Init_extends (s : SQLiteDB) :
  extends (DB s) (DB (Init s).2)
  ∧ ((Init s).1 = None → schema_in_place (DB (Init s).2)).
Proof.
  split.
  - apply exec_script_extends, schema_indexes_extend.
  - intros H. unfold Init in *.
    destruct (exec_script (schema ++ indexes) s) as [err s1] eqn:E.
    cbn in H. subst err. apply exec_script_None in E.
    by eapply run_schema_indexes_in_place.
Qed.

(** X17. After an [Init] that returned no error, a further [Init] on that
    database changes nothing in it, whether or not a storage failure hits
    it, and returns no error when none does. *)
Theorem Init_again_changes_nothing (s s' : SQLiteDB) :
  (Init s).1 = None → DB s' = DB (Init s).2 →
  DB (Init s').2 = DB s'
  ∧ (Forall (λ f, f = false) (faults s') → (Init s').1 = None).
Proof.
  intros H Hs'.
  assert (Hp : schema_in_place (DB s')).
  { rewrite Hs'. unfold Init in *.
    destruct (exec_script (schema ++ indexes) s) as [err s1] eqn:E.
    cbn in H. subst err. apply exec_script_None in E.
    by eapply run_schema_indexes_in_place. }
  apply schema_in_place_settled in Hp.
  exact (exec_script_settled _ _ Hp s' eq_refl).
Qed.

Lemma Init_again_changes_nothing_witness :
  let s := mkSQLiteDB (DB old_store) NewSQLiteCache [] in
  let s' := mkSQLiteDB (DB (Init s).2) NewSQLiteCache [false; false; true] in
  (Init s).1 = None ∧ DB s' = DB (Init s).2
  ∧ (Init s').1 = Some ErrStorage
  ∧ DB (Init s').2 = DB s'.
Proof.
  intros s s'.
  assert (H : (Init s).1 = None) by (vm_compute; reflexivity).
  split; [exact H|]. split; [reflexivity|].
  split; [vm_compute; reflexivity|].
  exact (proj1 (Init_again_changes_nothing s s' H eq_refl)).
Defined.

(** X18. [Migrate] is all or nothing: when it returns an error, whichever
    step failed, the database and the ranking cache are as they were before
    the call. *)
Theorem Migrate_all_or_nothing (s : SQLiteDB) (e : error) :
  (Migrate s).1 = Some e →
  DB (Migrate s).2 = DB s ∧ rankingCache (Migrate s).2 = rankingCache s.
Proof.
  intros H. split; [by eapply Migrate_error_rolls_back|apply stable_Migrate].
Qed.

Lemma Migrate_all_or_nothing_witness :
  let s := mkSQLiteDB (DB sample_store) NewSQLiteCache
             (replicate 14 false ++ [true]) in
  (Migrate s).1 = Some (ErrWrap ErrStorage "SELECT failed")
  ∧ DB (Migrate s).2 = DB s ∧ rankingCache (Migrate s).2 = rankingCache s.
Proof.
  intros s.
  assert (H : (Migrate s).1 = Some (ErrWrap ErrStorage "SELECT failed"))
    by (vm_compute; reflexivity).
  split; [exact H|].
  exact (Migrate_all_or_nothing s _ H).
Defined.

(** ** The two ranking methods *)

Lemma Init_extends_witness :
  let s := mkSQLiteDB (DB old_store) NewSQLiteCache [] in
  (Init s).1 = None
  ∧ extends (DB s) (DB (Init s).2) ∧ schema_in_place (DB (Init s).2).
Proof.
  intros s.
  assert (H : (Init s).1 = None) by (vm_compute; reflexivity).
  split; [exact H|]. split.
  - exact (proj1 (Init_extends s)).
  - exact (proj2 (Init_extends s) H).
Defined.

(** What [UpdateBattleRecord] does to the cache: nothing, or all of it is
    dropped; nothing for a record with aggregate=0. *)
Lemma UpdateBattleRecord_cache (now : Z) (battle : BattleRecord)
    (s : SQLiteDB) :
  (rankingCache (UpdateBattleRecord now battle s).2 = rankingCache s
   ∨ rankingCache (UpdateBattleRecord now battle s).2 = ∅)
  ∧ (Aggregate battle = 0 →
     rankingCache (UpdateBattleRecord now battle s).2 = rankingCache s).
Proof.
  unfold UpdateBattleRecord, mbind, M_bind.
  match goal with |- context [exec ?q s] =>
    pose proof (stable_exec q s) as Hq; destruct (exec q s) as [err s1] end.
  cbn [snd with_times Aggregate] in *. split.
  - destruct (bool_decide (err = None) && _); cbn; auto.
  - intros ->. rewrite andb_false_r. done.
Qed.

Lemma kept_after (c : call) (s : SQLiteDB) (key : string)
    (l : list RankingRecord) :
  finalizes c = false → rankingCache s !! key = Some l →
  rankingCache (after c s) !! key = Some l.
Proof.
  intros Hfin Hkey. pose proof (stable_after c s) as Hst.
  destruct c; try (rewrite Hst; exact Hkey); cbn [after finalizes] in *.
  - destruct (UpdateBattleRecord_cache now battle s) as [_ H].
    rewrite H; [done|]. apply negb_false_iff in Hfin. by apply Z.eqb_eq.
  - by apply kept_ranking.
  - by apply kept_ranking.
Qed.

Lemma kept_serve (calls : list call) (s : SQLiteDB) (key : string)
    (l : list RankingRecord) :
  Forall (λ c, finalizes c = false) calls →
  rankingCache s !! key = Some l →
  rankingCache (serve calls s) !! key = Some l.
Proof.
  intros H. revert s. induction H as [|c calls Hc _ IH]; intros s Hkey;
    [done|].
  cbn [serve foldl]. apply IH. by apply kept_after.
Qed.

(** A hit: the cached list is returned, and nothing else happens. *)
Lemma ranking_hit (cacheKey target : string) (s : SQLiteDB)
    (l : list RankingRecord) :
  rankingCache s !! cacheKey = Some l → ranking cacheKey target s = (Ok l, s).
Proof.
  intros H. unfold ranking, mbind, M_bind, cache_lookup. by rewrite H.
Qed.

Lemma ranking_Ok_cached (cacheKey target : string) (s : SQLiteDB)
    (l : list RankingRecord) :
  (ranking cacheKey target s).1 = Ok l →
  rankingCache (ranking cacheKey target s).2 !! cacheKey = Some l.
Proof.
  destruct (rankingCache s !! cacheKey) as [l'|] eqn:E.
  - rewrite (ranking_hit _ _ _ _ E). cbn. intros [= <-]. done.
  - by apply ranking_fresh_stored.
Qed.

Lemma ranking_served (cacheKey target : string) (s : SQLiteDB)
    (l : list RankingRecord) (calls : list call) :
  Forall (λ c, finalizes c = false) calls →
  (ranking cacheKey target s).1 = Ok l →
  let s' := serve calls (ranking cacheKey target s).2 in
  ranking cacheKey target s' = (Ok l, s').
Proof.
  intros Hc Hl s'. apply ranking_hit. apply kept_serve; [done|].
  by apply ranking_Ok_cached.
Qed.

(** X19. A ranking that [GetWinCountRanking] or [GetKillCountRanking] has
    returned is returned again, unchanged, by every later call for the same
    side, whatever calls were served in between (among them [UpdateUser],
    [Migrate] and rankings for other sides) as long as none was an
    [UpdateBattleRecord] for a record with aggregate≠0; that later call
    reads nothing from the database and leaves the store as it is. *)
Theorem ranking_served_from_cache (side : Z) (s : SQLiteDB)
    (l : list RankingRecord) (calls : list call) :
  Forall (λ c, finalizes c = false) calls →
  ((GetWinCountRanking side s).1 = Ok l →
   let s' := serve calls (GetWinCountRanking side s).2 in
   GetWinCountRanking side s' = (Ok l, s'))
  ∧ ((GetKillCountRanking side s).1 = Ok l →
     let s' := serve calls (GetKillCountRanking side s).2 in
     GetKillCountRanking side s' = (Ok l, s')).
Proof.
  intros Hc. split; intros Hl; by apply ranking_served.
Qed.

Lemma ranking_served_from_cache_witness :
  let calls := [CallUpdateUser (sample_user "U2" "" 9); CallMigrate;
                CallUpdateBattleRecord 150 (sample_battle "B2" "U1" 0 2 1);
                CallGetKillCountRanking 1] in
  let l := default [] (rankingCache (GetWinCountRanking 1 sample_store).2
                         !! "win1") in
  let s' := serve calls (GetWinCountRanking 1 sample_store).2 in
  Forall (λ c, finalizes c = false) calls
  ∧ (GetWinCountRanking 1 sample_store).1 = Ok l
  ∧ length l = 2%nat
  ∧ GetWinCountRanking 1 s' = (Ok l, s').
Proof.
  intros calls l s'.
  assert (Hc : Forall (λ c, finalizes c = false) calls)
    by (repeat constructor).
  assert (Hl : (GetWinCountRanking 1 sample_store).1 = Ok l)
    by (vm_compute; reflexivity).
  split; [exact Hc|]. split; [exact Hl|]. split; [vm_compute; reflexivity|].
  exact (proj1 (ranking_served_from_cache 1 sample_store l calls Hc) Hl).
Defined.

(** *** Names and teams *)

Lemma placeholder_valid : utf8_ValidString placeholder = true.
Proof. vm_compute. reflexivity. Qed.

Lemma sanitize_printable (u : RankingRecord) : printable (sanitize u).
Proof.
  split; cbn [sanitize Ranking_Name Ranking_Team].
  - destruct (utf8_ValidString (Ranking_Name u)) eqn:E;
      [exact E | exact placeholder_valid].
  - destruct (utf8_ValidString (Ranking_Team u)) eqn:E;
      [exact E | exact placeholder_valid].
Qed.

Lemma scanned_printable (result : list string * list (list value))
    (l : list RankingRecord) :
  scan_each (λ names row, sanitize <$> scan_ranking_record names row) result
  = Ok l →
  Forall printable l.
Proof.
  unfold scan_each. intros H. apply res_mapM_Forall2 in H.
  induction H as [|row u rows l Hu _ IH]; constructor; [|exact IH].
  destruct (scan_ranking_record _ row) as [u0|]; [|done].
  cbn [fmap res_fmap] in Hu. injection Hu as <-. apply sanitize_printable.
Qed.

Lemma ranking_printable (cacheKey target : string) (s : SQLiteDB)
    (l : list RankingRecord) :
  (∀ key l', rankingCache s !! key = Some l' → Forall printable l') →
  (ranking cacheKey target s).1 = Ok l → Forall printable l.
Proof.
  intros Hok. unfold ranking, mbind, M_bind, cache_lookup.
  destruct (rankingCache s !! cacheKey) as [l'|] eqn:E.
  { cbn. intros [= <-]. by eapply Hok. }
  destruct (query _ s) as [rows s1].
  destruct rows as [result|e]; cbn [mbind res_bind]; [|by cbn].
  destruct (scan_each _ result) as [l'|e] eqn:Es; [|by cbn].
  cbn. intros [= <-]. by eapply scanned_printable.
Qed.

Lemma cache_printable_after (c : call) (s : SQLiteDB) :
  (∀ key l, rankingCache s !! key = Some l → Forall printable l) →
  ∀ key l, rankingCache (after c s) !! key = Some l → Forall printable l.
Proof.
  intros Hok. pose proof (stable_after c s) as Hst.
  assert (Hr : ∀ cacheKey target key l,
    rankingCache (ranking cacheKey target s).2 !! key = Some l →
    Forall printable l).
  { intros cacheKey target key l.
    destruct (ranking_cache cacheKey target s) as [E | (_ & l' & Hl' & E)];
      rewrite E; [apply Hok|].
    destruct (decide (cacheKey = key)) as [->|Hne].
    - rewrite lookup_insert_eq. intros [= <-].
      by eapply ranking_printable.
    - rewrite lookup_insert_ne by done. apply Hok. }
  destruct c; try (by rewrite Hst); cbn [after].
  - intros key l.
    destruct (UpdateBattleRecord_cache now battle s) as [[E|E] _]; rewrite E;
      [apply Hok|]. by rewrite lookup_empty.
  - apply Hr.
  - apply Hr.
Qed.

Lemma reachable_cache_printable (s : SQLiteDB) :
  reachable s →
  ∀ key l, rankingCache s !! key = Some l → Forall printable l.
Proof.
  induction 1 as [d fs | c s _ IH].
  - intros key l. cbn. unfold NewSQLiteCache. by rewrite lookup_empty.
  - by apply cache_printable_after.
Qed.

(** X20. In a store a process can be in, every record of a ranking that
    [GetWinCountRanking] or [GetKillCountRanking] returns, from the cache
    or from the query, has a name and a team that are valid UTF-8. *)
Theorem rankings_are_printable (s : SQLiteDB) (side : Z)
    (l : list RankingRecord) :
  reachable s →
  (GetWinCountRanking side s).1 = Ok l ∨ (GetKillCountRanking side s).1 = Ok l →
  Forall printable l.
Proof.
  intros Hs [H|H];
    (eapply ranking_printable; [by apply reachable_cache_printable|exact H]).
Qed.

Lemma rankings_are_printable_witness :
  let bad := String (ascii_of_nat 255) EmptyString in
  let u := mkUser "U2" "K1" "" bad "team" zero_counters zero_counters
             zero_counters 0 0 0 60 0 in
  let s := after (CallUpdateUser u) sample_store in
  reachable s ∧ utf8_ValidString bad = false
  ∧ ∃ l, (GetWinCountRanking 0 s).1 = Ok l
         ∧ map Ranking_Name l = ["pilot"; placeholder]
         ∧ Forall printable l.
Proof.
  intros bad u s.
  assert (H : reachable s)
    by exact (reachable_call (CallUpdateUser u) sample_store
                (reachable_serve sample_calls _
                   (reachable_start Sql.empty []))).
  split; [exact H|]. split; [reflexivity|]. eexists.
  split; [vm_compute; reflexivity|]. split; [reflexivity|].
  apply (rankings_are_printable s 0 _ H). left. vm_compute; reflexivity.
Defined.

(** *** Rankings of a user table *)

Lemma user_key (target : string) (u : User) :
  target ∈ targets →
  key_of user_names (row_of_user u) target = VInt (user_counter target u).
Proof.
  intros Ht. revert target Ht. apply Forall_forall.
  destruct u as [? ? ? ? ? [? ? ? ? ?] [? ? ? ? ?] [? ? ? ? ?] ? ? ? ? ?].
  repeat constructor.
Qed.

Lemma rank_of_users (target : string) (users : list User) (u : User) :
  target ∈ targets →
  rank_of user_names target (map row_of_user users) (row_of_user u)
  = competition_rank target users u.
Proof.
  intros Ht. unfold rank_of, competition_rank.
  erewrite filter_map_rows; [by rewrite length_map|].
  intros v. cbn beta.
  pose proof (user_key target u Ht) as Hu.
  pose proof (user_key target v Ht) as Hv. unfold key_of in Hu, Hv.
  by rewrite Hu, Hv.
Qed.

Lemma ranked_row (rk : Z) (u : User) :
  VInt rk :: map (λ c, default VNull (row_get user_names (row_of_user u) c))
               ranking_columns
  = row_of_ranking (record_of_user rk u).
Proof.
  destruct u as [? ? ? ? ? [? ? ? ? ?] [? ? ? ? ?] [? ? ? ? ?] ? ? ? ? ?].
  reflexivity.
Qed.

Lemma scan_ranking_row (r : RankingRecord) :
  scan_ranking_record ("rank" :: ranking_columns) (row_of_ranking r) = Ok r.
Proof.
  destruct r as [? ? ? ? [? ? ? ? ?] [? ? ? ? ?] [? ? ? ? ?]].
  vm_compute. reflexivity.
Qed.

Lemma ranking_columns_there (target : string) :
  target ∈ targets →
  missing_column user_names (target :: ranking_columns) = None.
Proof.
  intros Ht. revert target Ht. apply Forall_forall.
  repeat constructor.
Qed.

Lemma res_mapM_map {A B C} (f : B → res C) (g : A → B) (h : A → C)
    (l : list A) :
  (∀ x, f (g x) = Ok (h x)) → res_mapM f (map g l) = Ok (map h l).
Proof.
  intros H. induction l as [|x l IH]; [done|]. cbn [map res_mapM].
  rewrite H. cbn [mbind res_bind]. by rewrite IH.
Qed.

Lemma StronglySorted_rows (target : string) (users ordered : list User) :
  target ∈ targets → users ≡ₚ ordered →
  StronglySorted
    (by_rank (rank_of user_names target (map row_of_user users)))
    (map row_of_user ordered) →
  StronglySorted (λ a b, user_counter target b ≤ user_counter target a)
    ordered.
Proof.
  intros Ht Hp HS.
  eapply (StronglySorted_Forall2 (λ r u, r = row_of_user u));
    [|exact HS|].
  - apply Forall2_fmap_l, Forall_Forall2_diag, Forall_forall. done.
  - intros x x' a b _ Hx' -> -> Hle. unfold by_rank in Hle.
    destruct (Z.le_gt_cases (user_counter target b) (user_counter target a))
      as [|Hlt]; [done|].
    assert (Hin : row_of_user b ∈ map row_of_user users).
    { rewrite Hp. exact Hx'. }
    pose proof (rank_of_int_lt user_names target _ _ _ _ _
                  (user_key target a Ht) (user_key target b Ht) Hin
                  ltac:(lia)).
    lia.
Qed.

(** The ranking query on a user table that holds [users], scanned. *)
Lemma select_ranked_users (target : string) (db : database)
    (users : list User) :
  target ∈ targets →
  db_tables db !! "user" = Some (user_table users) →
  ∃ l, ranking_of target users l
       ∧ select_ranked "user" target ranking_columns 100 db
         ≫= scan_each (λ names row,
                         sanitize <$> scan_ranking_record names row)
         = Ok l.
Proof.
  intros Ht Hu. unfold select_ranked, lookup_table. rewrite Hu.
  cbn [mbind res_bind tbl_columns tbl_rows user_table].
  fold user_names. rewrite (ranking_columns_there target Ht).
  cbn [mbind res_bind]. unfold scan_each. cbn [fst snd].
  set (rank := rank_of user_names target (map row_of_user users)).
  pose proof (merge_sort_Permutation (by_rank rank) (map row_of_user users))
    as Hp.
  pose proof (StronglySorted_merge_sort (by_rank rank)
                (map row_of_user users)) as HS.
  destruct (Permutation_map_inv _ _ Hp) as (ordered & Ho & Hperm).
  rewrite Ho in HS |- *.
  exists (map (ranked target users) (take 100 ordered)). split.
  - exists ordered. split; [done|]. split; [|done].
    exact (StronglySorted_rows target users ordered Ht Hperm HS).
  - rewrite <- fmap_take. change (fmap row_of_user) with (map row_of_user).
    rewrite map_map. apply res_mapM_map. intros u.
    unfold rank. rewrite (rank_of_users target users u Ht), ranked_row.
    by rewrite scan_ranking_row.
Qed.

Lemma ranking_of_users (cacheKey target : string) (s : SQLiteDB)
    (users : list User) :
  target ∈ targets → holds_users s users →
  rankingCache s !! cacheKey = None → hd false (faults s) = false →
  ∃ l, ranking_of target users l ∧ (ranking cacheKey target s).1 = Ok l.
Proof.
  intros Ht Hu Hnone Hf.
  destruct (select_ranked_users target (DB s) users Ht Hu) as (l & Hl & E).
  exists l. split; [done|].
  unfold ranking, mbind at 1, M_bind, cache_lookup. rewrite Hnone.
  unfold mbind at 1, M_bind. rewrite query_run_ok by done.
  by rewrite E.
Qed.

(** X21. On a [user] table that holds [users], a ranking that is not in
    the cache, and that no storage failure hits, is returned with no error:
    it is the first hundred of the users put in descending order of the win
    (kill) counter of the side, or all of them if they are fewer; each
    entry carries the id, the counters, and the name and team of its user,
    the placeholder standing for one that is not valid UTF-8; and its rank
    is one more than the number of users of the whole table with a strictly
    greater counter. *)
Theorem rankings_rank_users (side : Z) (s : SQLiteDB) (users : list User) :
  holds_users s users → hd false (faults s) = false →
  (rankingCache s !! Sprint "win" side = None →
   ∃ l, ranking_of (win_target side) users l
        ∧ (GetWinCountRanking side s).1 = Ok l)
  ∧ (rankingCache s !! Sprint "kill" side = None →
     ∃ l, ranking_of (kill_target side) users l
          ∧ (GetKillCountRanking side s).1 = Ok l).
Proof.
  intros Hu Hf. split; intros Hnone.
  - apply ranking_of_users; [|done..].
    apply (proj1 (win_target_counter side)).
  - apply ranking_of_users; [|done..].
    apply (proj1 (kill_target_counter side)).
Qed.

Lemma rankings_rank_users_witness :
  holds_users sample_store sample_users
  ∧ hd false (faults sample_store) = false
  ∧ rankingCache sample_store !! Sprint "win" 1 = None
  ∧ ∃ l, ranking_of (win_target 1) sample_users l
         ∧ (GetWinCountRanking 1 sample_store).1 = Ok l.
Proof.
  assert (Hu : holds_users sample_store sample_users)
    by (vm_compute; reflexivity).
  assert (Hn : rankingCache sample_store !! Sprint "win" 1 = None)
    by (vm_compute; reflexivity).
  split; [exact Hu|]. split; [reflexivity|]. split; [exact Hn|].
  exact (proj1 (rankings_rank_users 1 sample_store sample_users Hu eq_refl)
           Hn).
Defined.

(** ** Calls that leave the database as it is *)

Lemma db_stable_ret {A} (a : A) : db_stable (mret a : M A).
Proof. done. Qed.

Lemma db_stable_bind {A B} (m : M A) (f : A → M B) :
  db_stable m → (∀ a, db_stable (f a)) → db_stable (m ≫= f).
Proof.
  intros Hm Hf s. unfold mbind, M_bind. specialize (Hm s).
  destruct (m s) as [a s']. simpl in *. by rewrite Hf.
Qed.

Lemma db_stable_query {A} (q : database → res A) : db_stable (query q).
Proof. intros s. unfold query. by destruct (faults s) as [|[] ?]. Qed.

Lemma db_stable_cache_lookup key : db_stable (cache_lookup key).
Proof. done. Qed.

Lemma db_stable_cache_store key l : db_stable (cache_store key l).
Proof. done. Qed.

Lemma db_stable_deleteRankingCache : db_stable deleteRankingCache.
Proof. done. Qed.

Lemma db_stable_ranking (cacheKey target : string) :
  db_stable (ranking cacheKey target).
Proof.
  unfold ranking. apply db_stable_bind; [apply db_stable_cache_lookup|].
  intros [l|]; [apply db_stable_ret|].
  apply db_stable_bind; [apply db_stable_query|]. intros rows.
  destruct (rows ≫= _); [|apply db_stable_ret].
  apply db_stable_bind; [apply db_stable_cache_store|]. intros _.
  apply db_stable_ret.
Qed.

Lemma reads_db (c : call) (s : SQLiteDB) :
  reads c = true → DB (after c s) = DB s.
Proof.
  destruct c; try discriminate; intros _; cbn [after].
  - apply db_stable_query.
  - apply db_stable_query.
  - apply db_stable_query.
  - apply db_stable_query.
  - unfold CalculateUserTotalBattleCount.
    destruct (Z.eqb side 0);
      (apply db_stable_bind; [apply db_stable_query|]; intros r;
       apply db_stable_ret).
  - unfold CalculateUserDailyBattleCount.
    apply db_stable_bind; [apply db_stable_query|]. intros r.
    apply db_stable_ret.
  - apply db_stable_ranking.
  - apply db_stable_ranking.
Qed.

(** One statement, and whatever follows it leaves the database alone: an
    error of the statement means the database is as it was. *)
Lemma exec_then {A} (q : statement) (f : option error → M A)
    (err : A → option error) (s : SQLiteDB) (e : error) :
  (∀ o, db_stable (f o)) → (∀ s', err (f None s').1 = None) →
  err ((exec q ≫= f) s).1 = Some e → DB ((exec q ≫= f) s).2 = DB s.
Proof.
  intros Hf Hnone. unfold mbind, M_bind.
  destruct (exec q s) as [[e'|] s1] eqn:E.
  - intros _. etransitivity; [apply (Hf (Some e') s1)|].
    apply exec_Some in E as [E1 _]. exact E1.
  - cbn beta iota. by rewrite Hnone.
Qed.

(** X22. The eight methods that only run queries leave the database as it
    is, whatever they return; and every method that writes, apart from
    [Init] and [LoginUser], leaves the database as it was whenever it
    returns an error, a storage failure included. *)
Theorem database_unchanged (c : call) (s : SQLiteDB) :
  (reads c = true → DB (after c s) = DB s)
  ∧ (∀ e, in_one_step c = true → error_of c s = Some e →
          DB (after c s) = DB s).
Proof.
  split; [apply reads_db|]. intros e Hone Herr.
  destruct (reads c) eqn:Hr; [by apply reads_db|].
  destruct c; try discriminate; cbn [after error_of] in *.
  - by eapply Migrate_error_rolls_back.
  - revert Herr. unfold RegisterAccount.
    apply (exec_then _ _ res_error); [by intros []|done].
  - revert Herr. unfold RegisterAccountWithLoginKey.
    apply (exec_then _ _ res_error); [by intros []|done].
  - revert Herr. unfold LoginAccount.
    apply (exec_then _ _ snd); [by intros []|done].
  - revert Herr. unfold RegisterUser.
    apply (exec_then _ _ res_error); [by intros []|done].
  - revert Herr. unfold UpdateUser. intros Herr.
    destruct (exec _ s) as [err s1] eqn:E. cbn in Herr. subst err.
    apply exec_Some in E as [E1 _]. exact E1.
  - revert Herr. unfold AddBattleRecord.
    apply (exec_then _ _ snd); [by intros []|done].
  - revert Herr. unfold UpdateBattleRecord.
    apply (exec_then _ _ snd);
      [|intros s'; unfold mbind, M_bind; by destruct (_ && _)].
    intros o. apply db_stable_bind; [|intros; apply db_stable_ret].
    destruct (_ && _); [apply db_stable_deleteRankingCache|apply db_stable_ret].
Qed.

Lemma database_unchanged_witness :
  let c := CallRegisterUser "U1" 70 "K1" in
  let e := default ErrStorage (error_of c sample_store) in
  in_one_step c = true ∧ error_of c sample_store = Some e
  ∧ DB (after c sample_store) = DB sample_store.
Proof.
  intros c e.
  assert (H : error_of c sample_store = Some e) by (vm_compute; reflexivity).
  split; [reflexivity|]. split; [exact H|].
  exact (proj2 (database_unchanged c sample_store) e eq_refl H).
Defined.

(** ** What a migration makes of the tables *)








(** A column whose name differs from the one of the schema in the case of
    its letters only is the same column: its values are copied. *)
Example Migrate_copies_a_column_of_another_case :
  (Migrate cased_store).1 = None
  ∧ db_tables (DB (Migrate cased_store).2) !! "account"
    = Some (Table account_columns ["login_key"]
              [[VText "K1"; VText "S1"; VText "U1"; VText "1.2.3.4";
                VTime 40; VTime 45; VInt 0]]).
Proof. split; vm_compute; reflexivity. Qed.


